(** * Runny: the training-plan scheduler and the adaptive adjustment engine

    A shallow embedding of [server/src/services/trainingPlan.ts],
    [server/dist/services/autoAdjust.js] and the reschedule-week handler
    of [server/src/routes/workouts.ts], with the tables of [database.ts]
    they read and write, and the properties of the plan generator, the
    week rescheduler and the adjustment engine.

    Conventions of the embedding.
    - A JavaScript [number] that carries minutes, a volume or a ratio is an
      exact rational ([Q]); counters, identifiers, flags and day numbers
      are integers ([Z]).  [Math.round] is [floor (x + 1/2)].  The volume
      curve and the week layout of the plan generator are computed on the
      rationals; where a property gives a rounded value of theirs it is
      given for arguments whose rounding does not depend on the last
      digits ([roundsStably]).  The product the adjustment engine rounds
      is the IEEE-754 double product ([jsMul]): each operand taken as the
      nearest double, the product rounded to nearest, ties to even, with
      no bound on the exponent (no overflow to [Infinity]).
    - A calendar date is the number of days since a fixed Monday, so that
      ['yyyy-MM-dd'] strings compare as these numbers do; the clock
      ([new Date()]) is an explicit argument [now], taken at day
      granularity.  [differenceInWeeks] counts full days from the time of
      day of the clock, so when the clock is past midnight the code counts
      the weeks the embedding counts from the next day; properties that
      depend on the number of weeks are given where the two counts agree
      ([weekCountSettled]).
    - The SQLite store is a record of tables; a table is the list of its
      rows in rowid order, and AUTOINCREMENT keys come from a per-table
      counter.  [JSON.parse goal.available_days] is the list of strings it
      decodes to.
    - An object literal used as a lookup table ([RACE_CONFIGS],
      [EXPERIENCE_MULTIPLIERS], [DAY_MAP]) is a function to [option]
      defined on the literal's own keys, as its TypeScript type has it.
      A name inherited from [Object.prototype] ([inherited]) is not a key
      of these functions, while the code's lookup finds the inherited
      member; properties of a call that completes are given for goals and
      day lists without such names ([ownNames], [noInheritedDay]).
    - Dereferencing [undefined] raises; code that can raise returns
      [option], [None] standing for the exception.
    - Foreign keys are enforced.  [rescheduleWeek] is given on the
      workouts table it names; the action of its DELETE on the run logs
      ([workout_id] set to NULL) is applied where the handler calls it
      ([rescheduleWeekRoute]), and [regeneratePlan] carries the actions of
      its own DELETEs.  An INSERT is modelled for rows whose references
      exist, as the routes provide them.
    - The recursion of [calculateWeeklyVolume] is followed to its end,
      with no limit on the depth of the call stack, and a rational is
      never [Infinity] or [NaN]; properties of a generation that
      completes are given for goals of ordinary size ([ordinarySize]). *)

From Stdlib Require Import ZArith QArith Qround Qminmax String Ascii List Bool Lia.
From Stdlib Require Import Lqa Qpower Permutation.
Import ListNotations.

Open Scope string_scope.
Open Scope list_scope.
Open Scope Z_scope.

(** ** JavaScript helpers *)

Definition Math_round (x : Q) : Q := inject_Z (Qfloor (x + (1 # 2))).

Definition Math_floor (x : Q) : Z := Qfloor x.

(** [x] is far enough from the next tie of [Math.round] for the rounded
    value not to depend on an error of a thousandth in [x]. *)
Definition roundsStably (x : Q) : Prop :=
  Math_round (x - (1 # 1000)) = Math_round (x + (1 # 1000)).

(** *** IEEE-754 doubles

    [double x] is the double nearest to the real [x] (ties to even, 53
    bits); a correctly rounded operation is [double] of its exact
    result. *)

Definition roundHalfEven (x : Q) : Z :=
  let f := Qfloor x in
  match (x - inject_Z f ?= 1 # 2)%Q with
  | Lt => f
  | Gt => f + 1
  | Eq => if Z.even f then f else f + 1
  end.

(** The exponent [e] of the last bit of a double in the binade of
    [x > 0]: [2 ^ (e + 52) <= x < 2 ^ (e + 53)]. *)
Definition binade (x : Q) : Z :=
  let k := Z.log2 (Qnum x) - Z.log2 (Zpos (Qden x)) in
  if Qle_bool (2 ^ k) x then k - 52 else k - 53.

Definition nearest (x : Q) : Q :=
  let e := binade x in (inject_Z (roundHalfEven (x / 2 ^ e)) * 2 ^ e)%Q.

Definition double (x : Q) : Q :=
  let x := Qred x in
  match Qnum x with
  | Z0 => 0%Q
  | Zpos _ => nearest x
  | Zneg _ => (- nearest (- x))%Q
  end.

(** [a * b] on JavaScript numbers. *)
Definition jsMul (a b : Q) : Q := double (double a * double b).

(** [Math.max(...l)] on a list of day numbers.  The source only spreads
    non-empty arrays into it; the empty case ([-Infinity] in JavaScript) is
    given the value 0 here and is never reached. *)
Definition Math_max (l : list Z) : Z :=
  match l with
  | [] => 0
  | x :: r => fold_left Z.max r x
  end.

Definition Qleb (x y : Q) : bool := Qle_bool x y.
Definition Qltb (x y : Q) : bool := negb (Qle_bool y x).

Definition len {A : Type} (l : list A) : Z := Z.of_nat (List.length l).

Definition lower_ascii (c : ascii) : ascii :=
  let n := nat_of_ascii c in
  if (Nat.leb 65 n && Nat.leb n 90)%bool then ascii_of_nat (n + 32) else c.

Fixpoint toLowerCase (s : string) : string :=
  match s with
  | EmptyString => EmptyString
  | String c r => String (lower_ascii c) (toLowerCase r)
  end.

(** The names every object inherits from [Object.prototype]: a lookup
    [table[k]] on an object literal finds a member for them although
    they are no keys of the literal. *)
Definition inheritedNames : list string :=
  [ "constructor"; "__defineGetter__"; "__defineSetter__"; "hasOwnProperty";
    "__lookupGetter__"; "__lookupSetter__"; "isPrototypeOf";
    "propertyIsEnumerable"; "toString"; "valueOf"; "__proto__";
    "toLocaleString" ].

Definition inherited (k : string) : bool := existsb (String.eqb k) inheritedNames.

(** No day name of the list is, in lower case, an inherited name. *)
Definition noInheritedDay (availableDays : list string) : bool :=
  forallb (fun d => negb (inherited (toLowerCase d))) availableDays.

(** [xs.filter(d => d !== undefined)] after a [map] into a lookup. *)
Fixpoint filter_defined {A : Type} (l : list (option A)) : list A :=
  match l with
  | [] => []
  | Some x :: r => x :: filter_defined r
  | None :: r => filter_defined r
  end.

(** [d !== k] where [k] may be [undefined]. *)
Definition differs (d : Z) (k : option Z) : bool :=
  match k with
  | Some k' => negb (d =? k')
  | None => true
  end.

Definition bindo {A B : Type} (x : option A) (f : A -> option B) : option B :=
  match x with
  | Some a => f a
  | None => None
  end.

Notation "'deref' x <- e ;; k" := (bindo e (fun x => k))
  (at level 10, x name, e at level 100, k at level 200).

(** ** Dates (date-fns), Monday-first weeks *)

Definition Date := Z.

Definition startOfWeek (d : Date) : Date := d - d mod 7.
Definition endOfWeek (d : Date) : Date := startOfWeek d + 6.
Definition addDays (d : Date) (n : Z) : Date := d + n.
Definition addWeeks (d : Date) (n : Z) : Date := d + 7 * n.
Definition subWeeks (d : Date) (n : Z) : Date := d - 7 * n.
Definition differenceInWeeks (later earlier : Date) : Z := Z.quot (later - earlier) 7.

(** Day of the week, 0 = Sunday .. 6 = Saturday. *)
Definition getDay (d : Date) : Z := (d mod 7 + 1) mod 7.

(** ** Tables *)

Module Goal.
Record t := mk {
  id : Z;
  user_id : Z;
  race_distance : string;
  race_date : Date;
  target_time : option Z;
  experience_level : string;
  current_frequency : Q;
  longest_recent_run : Q;
  available_days : list string;
  max_weekday_time : Q;
  max_weekend_time : Q;
  is_active : Z
}.

End Goal.

Module TrainingPlan.
Record t := mk {
  id : Z;
  goal_id : Z;
  user_id : Z;
  start_date : Date;
  end_date : Date
}.
End TrainingPlan.

Module Workout.
Record t := mk {
  id : Z;
  plan_id : Z;
  user_id : Z;
  date : Date;
  week_number : Z;
  workout_type : string;
  title : string;
  description : string;
  duration_minutes : Q;
  intensity : string;
  tired_alternative : string;
  is_key_workout : Z;
  is_long_run : Z;
  completed : Z
}.

Definition set_duration_minutes (d : Q) (w : t) : t :=
  mk (id w) (plan_id w) (user_id w) (date w) (week_number w)
     (workout_type w) (title w) (description w) d (intensity w)
     (tired_alternative w) (is_key_workout w) (is_long_run w) (completed w).
End Workout.

Module RunLog.
Record t := mk {
  id : Z;
  user_id : Z;
  workout_id : option Z;
  date : Date;
  completed : Z;
  duration_minutes : Z;
  effort_level : Z;
  pain_level : option Z
}.
End RunLog.

Inductive AdjustmentType := reduce | maintain | increase.

Module WeeklyAdjustment.
Record t := mk {
  id : Z;
  user_id : Z;
  plan_id : Z;
  week_number : Z;
  adjustment_type : AdjustmentType;
  reason : string
}.
End WeeklyAdjustment.

Record DB := mkDB {
  goals : list Goal.t;
  training_plans : list TrainingPlan.t;
  workouts : list Workout.t;
  run_logs : list RunLog.t;
  weekly_adjustments : list WeeklyAdjustment.t;
  seq_training_plans : Z;
  seq_workouts : Z;
  seq_weekly_adjustments : Z
}.

Definition set_workouts (ws : list Workout.t) (db : DB) : DB :=
  mkDB (goals db) (training_plans db) ws (run_logs db) (weekly_adjustments db)
       (seq_training_plans db) (seq_workouts db) (seq_weekly_adjustments db).

(** [INSERT INTO training_plans (goal_id, user_id, start_date, end_date)];
    the result is [lastInsertRowid] and the new store. *)
Definition insertTrainingPlan (goalId userId : Z) (startDate endDate : Date)
    (db : DB) : Z * DB :=
  let rowid := seq_training_plans db + 1 in
  (rowid,
   mkDB (goals db)
        (training_plans db ++ [TrainingPlan.mk rowid goalId userId startDate endDate])
        (workouts db) (run_logs db) (weekly_adjustments db)
        rowid (seq_workouts db) (seq_weekly_adjustments db)).

(** The prepared statement [insertWorkout] run on its twelve values;
    [completed] takes its column default 0. *)
Definition insertWorkout (planId userId : Z) (date : Date) (weekNumber : Z)
    (workoutType title description : string) (duration : Q)
    (intensity tiredAlternative : string) (isKey isLong : Z) (db : DB) : DB :=
  let rowid := seq_workouts db + 1 in
  mkDB (goals db) (training_plans db)
       (workouts db ++
        [Workout.mk rowid planId userId date weekNumber workoutType title
           description duration intensity tiredAlternative isKey isLong 0])
       (run_logs db) (weekly_adjustments db)
       (seq_training_plans db) rowid (seq_weekly_adjustments db).

(** [DELETE FROM workouts WHERE plan_id = ? AND user_id = ? AND week_number = ?] *)
Definition inWeek (planId userId weekNumber : Z) (w : Workout.t) : bool :=
  (Workout.plan_id w =? planId) && (Workout.user_id w =? userId)
  && (Workout.week_number w =? weekNumber).

Definition deleteWeek (planId userId weekNumber : Z) (db : DB) : DB :=
  set_workouts (filter (fun w => negb (inWeek planId userId weekNumber w)) (workouts db)) db.

(** ** trainingPlan.ts *)

Record RaceConfig := mkRaceConfig {
  baseWeeks : Q;
  peakLongRun : Q;
  peakWeeklyMinutes : Q
}.

Definition RACE_CONFIGS (k : string) : option RaceConfig :=
  if String.eqb k "5k" then Some (mkRaceConfig 8 45 150)
  else if String.eqb k "10k" then Some (mkRaceConfig 10 60 200)
  else if String.eqb k "half" then Some (mkRaceConfig 12 90 280)
  else if String.eqb k "marathon" then Some (mkRaceConfig 16 150 360)
  else None.

Definition EXPERIENCE_MULTIPLIERS (k : string) : option Q :=
  if String.eqb k "beginner" then Some 0.7%Q
  else if String.eqb k "intermediate" then Some 1.0%Q
  else if String.eqb k "advanced" then Some 1.3%Q
  else None.

Definition DAY_MAP (k : string) : option Z :=
  if String.eqb k "sunday" then Some 0
  else if String.eqb k "monday" then Some 1
  else if String.eqb k "tuesday" then Some 2
  else if String.eqb k "wednesday" then Some 3
  else if String.eqb k "thursday" then Some 4
  else if String.eqb k "friday" then Some 5
  else if String.eqb k "saturday" then Some 6
  else None.

Inductive Phase := build | peak | taper.

Module WorkoutTemplate.
Record t := mk {
  type : string;
  title : string;
  description : string;
  durationMultiplier : Q;
  intensity : string;
  isKeyWorkout : bool;
  isLongRun : bool;
  tiredAlternative : string
}.
End WorkoutTemplate.

Definition dquote : string := String (ascii_of_nat 34) EmptyString.

Definition phase_eqb (a b : Phase) : bool :=
  match a, b with
  | build, build | peak, peak | taper, taper => true
  | _, _ => false
  end.

Definition getWorkoutTemplates (experienceLevel : string) (weekPhase : Phase)
    : list WorkoutTemplate.t :=
  let isAdvanced := String.eqb experienceLevel "advanced" in
  let isBeginner := String.eqb experienceLevel "beginner" in
  let templates :=
    [ WorkoutTemplate.mk "easy" "Easy Run"
        "Run at a comfortable, conversational pace. You should be able to hold a conversation throughout."
        1.0%Q "low" false false
        "Take a complete rest day or do a 20-minute walk instead.";
      WorkoutTemplate.mk "long" "Long Run"
        "Your weekly long run. Start slow and maintain an easy, sustainable pace throughout. Focus on time on feet."
        1.5%Q "low" true true
        "Reduce duration by 20-30% but still complete the run at an easy effort." ] in
  let templates :=
    if negb isBeginner then
      templates ++
      [ WorkoutTemplate.mk "tempo" "Tempo Run"
          ("Warm up for 10 minutes, then run at a " ++ dquote ++ "comfortably hard"
           ++ dquote ++ " pace for the main portion. Cool down for 10 minutes.")%string
          1.1%Q "moderate" true false
          "Convert to an easy run at the same duration." ]
    else templates in
  let templates :=
    if isAdvanced || (String.eqb experienceLevel "intermediate" && phase_eqb weekPhase peak) then
      templates ++
      [ WorkoutTemplate.mk "interval" "Interval Training"
          "Warm up 10 minutes. Run hard efforts with recovery jogs between. Intensity should be challenging but controlled."
          0.9%Q "high" true false
          "Reduce the number of intervals by half, or convert to a tempo run." ]
    else templates in
  templates.

Section VolumeCurve.
Variable totalWeeks : Z.
Variable raceConfig : RaceConfig.
Variables experienceMultiplier currentFrequency longestRecentRun : Q.

Definition buildPhaseEnd : Z := Math_floor (inject_Z totalWeeks * 0.6).
Definition peakPhaseEnd : Z := Math_floor (inject_Z totalWeeks * 0.85).

(** [baseVolume] as it stands after [baseVolume *= experienceMultiplier]. *)
Definition baseVolume (weekNumber : Z) : Q :=
  (let v :=
     if weekNumber <=? buildPhaseEnd then
       let progress := inject_Z weekNumber / inject_Z buildPhaseEnd in
       let startVolume := Qmax (currentFrequency * 30) (longestRecentRun * 2) in
       startVolume + (peakWeeklyMinutes raceConfig * 0.7 - startVolume) * progress
     else if weekNumber <=? peakPhaseEnd then
       let progress :=
         inject_Z (weekNumber - buildPhaseEnd) / inject_Z (peakPhaseEnd - buildPhaseEnd) in
       peakWeeklyMinutes raceConfig * (0.7 + 0.3 * progress)
     else
       let weeksToRace := (totalWeeks - weekNumber)%Z in
       let taperMultiplier :=
         0.4 + (inject_Z weeksToRace / inject_Z (totalWeeks - peakPhaseEnd)) * 0.4 in
       peakWeeklyMinutes raceConfig * taperMultiplier
   in v * experienceMultiplier)%Q.

(** The self-call of [calculateWeeklyVolume] goes from [weekNumber] to
    [weekNumber - 1] while [weekNumber > 1]; [calls] counts the
    self-calls still to come. *)
Fixpoint calculateWeeklyVolume_calls (calls : nat) (weekNumber : Z) : Q :=
  let previousWeekVolume :=
    if 1 <? weekNumber then
      match calls with
      | S c => calculateWeeklyVolume_calls c (weekNumber - 1)
      | O => (currentFrequency * 30)%Q
      end
    else (currentFrequency * 30)%Q in
  Qmin (baseVolume weekNumber) (previousWeekVolume * 1.1)%Q.

Definition calculateWeeklyVolume (weekNumber : Z) : Q :=
  calculateWeeklyVolume_calls (Z.to_nat (weekNumber - 1)) weekNumber.
End VolumeCurve.

Definition isWeekendDay (d : Z) : bool := (d =? 0) || (d =? 6).

Definition dayOffset (d : Z) : Z := if d =? 0 then 6 else d - 1.

Definition dayNumbersOf (availableDays : list string) : list Z :=
  filter_defined (map (fun d => DAY_MAP (toLowerCase d)) availableDays).

Definition typeIs (k : string) (t : WorkoutTemplate.t) : bool :=
  String.eqb (WorkoutTemplate.type t) k.

Definition generateWeekWorkouts (planId userId weekNumber : Z) (weekStart : Date)
    (availableDays : list string) (weeklyVolume : Q) (experienceLevel : string)
    (maxWeekdayTime maxWeekendTime : Q) (phase : Phase) (db : DB) : option DB :=
  let templates := getWorkoutTemplates experienceLevel phase in
  let dayNumbers := dayNumbersOf availableDays in
  if len dayNumbers =? 0 then Some db else
  let weekendDays := filter isWeekendDay dayNumbers in
  let longRunDay :=
    if 0 <? len weekendDays then Math_max weekendDays else Math_max dayNumbers in
  let keyWorkoutCandidates :=
    filter (fun d => negb (d =? longRunDay)
                     && (1 <? Z.abs (d - longRunDay))
                     && negb (Z.abs (d - longRunDay) =? 6)) dayNumbers in
  let keyWorkoutDay : option Z :=
    if 0 <? len keyWorkoutCandidates
    then nth_error keyWorkoutCandidates (Z.to_nat (len keyWorkoutCandidates / 2))
    else find (fun d => negb (d =? longRunDay)) dayNumbers in
  let longRunTemplate := find (typeIs "long") templates in
  let longRunDuration :=
    Qmin (Math_round (weeklyVolume * 0.35))
         (if isWeekendDay longRunDay then maxWeekendTime else maxWeekdayTime) in
  let remainingVolume := (weeklyVolume - longRunDuration)%Q in
  let easyDays :=
    filter (fun d => negb (d =? longRunDay) && differs d keyWorkoutDay) dayNumbers in
  let longRunDate := addDays weekStart (dayOffset longRunDay) in
  deref lt <- longRunTemplate ;;
  let db := insertWorkout planId userId longRunDate weekNumber
              "long" (WorkoutTemplate.title lt) (WorkoutTemplate.description lt)
              longRunDuration (WorkoutTemplate.intensity lt)
              (WorkoutTemplate.tiredAlternative lt) 1 1 db in
  deref st <-
    match keyWorkoutDay with
    | Some kd =>
        if negb (String.eqb experienceLevel "beginner") then
          deref kt <-
            match find (fun t => typeIs "tempo" t || typeIs "interval" t) templates with
            | Some t => Some t
            | None => nth_error templates 0
            end ;;
          let keyWorkoutDuration :=
            Qmin (Math_round (remainingVolume * 0.3))
                 (if isWeekendDay kd then maxWeekendTime else maxWeekdayTime) in
          let keyWorkoutDate := addDays weekStart (dayOffset kd) in
          Some (insertWorkout planId userId keyWorkoutDate weekNumber
                  (WorkoutTemplate.type kt) (WorkoutTemplate.title kt)
                  (WorkoutTemplate.description kt) keyWorkoutDuration
                  (WorkoutTemplate.intensity kt) (WorkoutTemplate.tiredAlternative kt)
                  1 0 db,
                (remainingVolume - keyWorkoutDuration)%Q)
        else Some (db, remainingVolume)
    | None => Some (db, remainingVolume)
    end ;;
  let '(db, remainingVolume) := st in
  let easyTemplate := find (typeIs "easy") templates in
  let easyRunCount := len easyDays in
  if 0 <? easyRunCount then
    let easyRunDuration := Math_round (remainingVolume / inject_Z easyRunCount) in
    fold_left
      (fun acc day =>
         deref db <- acc ;;
         deref et <- easyTemplate ;;
         let maxTime := if isWeekendDay day then maxWeekendTime else maxWeekdayTime in
         let duration := Qmin easyRunDuration maxTime in
         let workoutDate := addDays weekStart (dayOffset day) in
         Some (insertWorkout planId userId workoutDate weekNumber
                 "easy" (WorkoutTemplate.title et) (WorkoutTemplate.description et)
                 duration (WorkoutTemplate.intensity et)
                 (WorkoutTemplate.tiredAlternative et) 0 0 db))
      easyDays (Some db)
  else Some db.

(** [for (let week = 1; week <= totalWeeks; week++)] *)
Definition weeksOf (totalWeeks : Z) : list Z :=
  map Z.of_nat (seq 1 (Z.to_nat totalWeeks)).

Definition totalWeeksOf (now : Date) (goal : Goal.t) : Z :=
  Z.max 1 (differenceInWeeks (Goal.race_date goal) now).

Definition raceConfigOf (goal : Goal.t) : RaceConfig :=
  match RACE_CONFIGS (Goal.race_distance goal) with
  | Some c => c
  | None => mkRaceConfig 8 45 150
  end.

Definition experienceMultiplierOf (goal : Goal.t) : Q :=
  match EXPERIENCE_MULTIPLIERS (Goal.experience_level goal) with
  | Some m => m
  | None => 1.0%Q
  end.

(** The race distance, the experience level and the day names of the
    goal are looked up as the tables above have them. *)
Definition ownNames (goal : Goal.t) : Prop :=
  inherited (Goal.race_distance goal) = false
  /\ inherited (Goal.experience_level goal) = false
  /\ noInheritedDay (Goal.available_days goal) = true.

(** A goal of ordinary size: a running frequency, a longest recent run
    and a number of weeks at which the doubles of the volume curve are
    finite and within a thousandth of a minute of the rationals, and the
    recursion of [calculateWeeklyVolume] is at most a thousand calls
    deep. *)
Definition ordinarySize (now : Date) (goal : Goal.t) : Prop :=
  (0 <= Goal.current_frequency goal <= 1000)%Q
  /\ (0 <= Goal.longest_recent_run goal <= 10000)%Q
  /\ totalWeeksOf now goal <= 1000.

(** The number of weeks does not depend on the time of day of the clock:
    counted from today and from tomorrow it is the same (it differs when
    the race is a whole number of weeks, two or more, ahead). *)
Definition weekCountSettled (now : Date) (goal : Goal.t) : Prop :=
  totalWeeksOf (addDays now 1) goal = totalWeeksOf now goal.

Definition phaseOf (week totalWeeks : Z) : Phase :=
  if Qleb (inject_Z week) (inject_Z totalWeeks * 0.6) then build
  else if Qleb (inject_Z week) (inject_Z totalWeeks * 0.85) then peak
  else taper.

Definition generateTrainingPlan (now : Date) (goal : Goal.t) (db : DB)
    : option (Z * DB) :=
  let availableDays := Goal.available_days goal in
  let today := now in
  let totalWeeks := totalWeeksOf now goal in
  let raceConfig := raceConfigOf goal in
  let experienceMultiplier := experienceMultiplierOf goal in
  let '(planId, db) :=
    insertTrainingPlan (Goal.id goal) (Goal.user_id goal) today (Goal.race_date goal) db in
  deref db <-
    fold_left
      (fun acc week =>
         deref db <- acc ;;
         let weekStart := addWeeks (startOfWeek today) (week - 1) in
         let weeklyVolume :=
           calculateWeeklyVolume totalWeeks raceConfig experienceMultiplier
             (Goal.current_frequency goal) (Goal.longest_recent_run goal) week in
         generateWeekWorkouts planId (Goal.user_id goal) week weekStart availableDays
           weeklyVolume (Goal.experience_level goal)
           (Goal.max_weekday_time goal) (Goal.max_weekend_time goal)
           (phaseOf week totalWeeks) db)
      (weeksOf totalWeeks) (Some db) ;;
  Some (planId, db).

Definition includes (l : list Z) (d : Z) : bool := existsb (Z.eqb d) l.

Definition isLongRunRow (w : Workout.t) : bool := Workout.is_long_run w =? 1.
Definition isKeyRow (w : Workout.t) : bool :=
  (Workout.is_key_workout w =? 1) && (Workout.is_long_run w =? 0).
Definition isEasyRow (w : Workout.t) : bool :=
  (Workout.is_key_workout w =? 0) && (Workout.is_long_run w =? 0).

(** [Math.abs(d - longDay) > 1 && Math.abs(d - longDay) !== 6], where
    [longDay = usedDays[0]] may be [undefined]: the difference is then
    [NaN] and the first comparison is false. *)
Definition notAdjacent (longDay : option Z) (d : Z) : bool :=
  match longDay with
  | Some ld => (1 <? Z.abs (d - ld)) && negb (Z.abs (d - ld) =? 6)
  | None => false
  end.

Definition rescheduleWeek (planId userId weekNumber : Z)
    (newAvailableDays : list string) (db : DB) : DB :=
  let workouts := filter (inWeek planId userId weekNumber) (workouts db) in
  match workouts with
  | [] => db
  | first :: _ =>
    let longRun := find isLongRunRow workouts in
    let keyWorkout := find isKeyRow workouts in
    let easyRuns := filter isEasyRow workouts in
    let firstWorkoutDate := Workout.date first in
    let weekStart := startOfWeek firstWorkoutDate in
    let db := deleteWeek planId userId weekNumber db in
    let dayNumbers := dayNumbersOf newAvailableDays in
    if len dayNumbers =? 0 then db else
    let weekendDays := filter isWeekendDay dayNumbers in
    let usedDays : list Z := [] in
    let '(db, usedDays) :=
      match longRun with
      | Some longRun =>
          let longRunDay :=
            if 0 <? len weekendDays then Math_max weekendDays else Math_max dayNumbers in
          let longRunDate := addDays weekStart (dayOffset longRunDay) in
          (insertWorkout planId userId longRunDate weekNumber
             (Workout.workout_type longRun) (Workout.title longRun)
             (Workout.description longRun) (Workout.duration_minutes longRun)
             (Workout.intensity longRun) (Workout.tired_alternative longRun) 1 1 db,
           usedDays ++ [longRunDay])
      | None => (db, usedDays)
      end in
    let '(db, usedDays) :=
      match keyWorkout with
      | Some keyWorkout =>
          if 1 <? len dayNumbers then
            let availableForKey := filter (fun d => negb (includes usedDays d)) dayNumbers in
            let nonAdjacentDays :=
              filter (notAdjacent (nth_error usedDays 0)) availableForKey in
            let keyDay :=
              if 0 <? len nonAdjacentDays
              then nth_error nonAdjacentDays (Z.to_nat (len nonAdjacentDays / 2))
              else nth_error availableForKey 0 in
            match keyDay with
            | Some keyDay =>
                let keyDate := addDays weekStart (dayOffset keyDay) in
                (insertWorkout planId userId keyDate weekNumber
                   (Workout.workout_type keyWorkout) (Workout.title keyWorkout)
                   (Workout.description keyWorkout) (Workout.duration_minutes keyWorkout)
                   (Workout.intensity keyWorkout) (Workout.tired_alternative keyWorkout)
                   1 0 db,
                 usedDays ++ [keyDay])
            | None => (db, usedDays)
            end
          else (db, usedDays)
      | None => (db, usedDays)
      end in
    let remainingDays := filter (fun d => negb (includes usedDays d)) dayNumbers in
    let easyToPlace := Z.min (len easyRuns) (len remainingDays) in
    (* for (let i = 0; i < easyToPlace; i++): both indexings stay in range *)
    fold_left
      (fun db i =>
         match nth_error remainingDays i, nth_error easyRuns i with
         | Some day, Some easyRun =>
             let easyDate := addDays weekStart (dayOffset day) in
             insertWorkout planId userId easyDate weekNumber
               (Workout.workout_type easyRun) (Workout.title easyRun)
               (Workout.description easyRun) (Workout.duration_minutes easyRun)
               (Workout.intensity easyRun) (Workout.tired_alternative easyRun) 0 0 db
         | _, _ => db
         end)
      (seq 0 (Z.to_nat easyToPlace)) db
  end.

(** ** autoAdjust.js *)

Record WeeklyStats := mkStats {
  totalRuns : Z;
  completedRuns : Z;
  plannedRuns : Z;
  averageEffort : Q;
  averagePain : Q;
  totalMinutes : Z;
  missedKeyWorkouts : Z
}.

Record AdjustmentRecommendation := mkRec {
  type : AdjustmentType;
  reason : string;
  volumeMultiplier : Q;
  intensityAdjustment : Z
}.

Record AdjustmentResult := mkResult {
  applied : bool;
  adjustment : option AdjustmentRecommendation
}.

Definition inRange (lo hi d : Date) : bool := (lo <=? d) && (d <=? hi).

(** [workouts w LEFT JOIN run_logs rl ON w.id = rl.workout_id]: a workout
    with no log yields one row with the log columns null. *)
Definition leftJoinLogs (logs : list RunLog.t) (w : Workout.t)
    : list (Workout.t * option RunLog.t) :=
  match filter (fun rl => match RunLog.workout_id rl with
                          | Some k => Workout.id w =? k
                          | None => false
                          end) logs with
  | [] => [(w, None)]
  | ls => map (fun rl => (w, Some rl)) ls
  end.

Definition log_completed (r : Workout.t * option RunLog.t) : bool :=
  match snd r with
  | Some rl => RunLog.completed rl =? 1
  | None => false
  end.

Definition sumZ (l : list Z) : Z := fold_left Z.add l 0.

(** The planned workouts of [userId] between [weekStart] and [weekEnd]. *)
Definition plannedInRange (userId : Z) (weekStart weekEnd : Date) (db : DB)
    : list Workout.t :=
  filter (fun w => (Workout.user_id w =? userId)
                   && inRange weekStart weekEnd (Workout.date w)) (workouts db).

Definition analyzeWeeklyPerformance (now : Date) (userId weekOffset : Z) (db : DB)
    : option WeeklyStats :=
  let targetWeek := subWeeks now weekOffset in
  let weekStart := startOfWeek targetWeek in
  let weekEnd := endOfWeek targetWeek in
  let plannedWorkouts :=
    flat_map (leftJoinLogs (run_logs db)) (plannedInRange userId weekStart weekEnd db) in
  if len plannedWorkouts =? 0 then None else
  let allLogs :=
    filter (fun l => (RunLog.user_id l =? userId)
                     && inRange weekStart weekEnd (RunLog.date l)) (run_logs db) in
  let completedPlanned := filter log_completed plannedWorkouts in
  let missedKeyWorkouts :=
    len (filter (fun r => ((Workout.is_key_workout (fst r) =? 1)
                           || (Workout.is_long_run (fst r) =? 1))
                          && negb (log_completed r)) plannedWorkouts) in
  let effortSum := sumZ (map RunLog.effort_level allLogs) in
  let painSum :=
    sumZ (map (fun l => match RunLog.pain_level l with Some p => p | None => 0 end)
              allLogs) in
  let totalMinutes := sumZ (map RunLog.duration_minutes allLogs) in
  Some (mkStats
          (len allLogs)
          (len completedPlanned)
          (len plannedWorkouts)
          (if 0 <? len allLogs then inject_Z effortSum / inject_Z (len allLogs) else 0)%Q
          (if 0 <? len allLogs then inject_Z painSum / inject_Z (len allLogs) else 0)%Q
          totalMinutes
          missedKeyWorkouts).

Definition getAdjustmentRecommendation (stats : WeeklyStats) : AdjustmentRecommendation :=
  if Qleb 5 (averagePain stats) then
    mkRec reduce "Pain levels are elevated. Reducing training to aid recovery."
          0.7%Q (-1)
  else
  let completionRate :=
    (if 0 <? plannedRuns stats
     then inject_Z (completedRuns stats) / inject_Z (plannedRuns stats)
     else 0)%Q in
  if Qltb completionRate 0.5 then
    mkRec reduce "Low workout completion rate. Adjusting plan to be more achievable."
          0.8%Q 0
  else if 2 <=? missedKeyWorkouts stats then
    mkRec reduce "Missing key workouts. Reducing volume to prioritize important sessions."
          0.85%Q 0
  else if Qleb 8 (averageEffort stats) && Qleb 0.8 completionRate then
    mkRec maintain "Training feels hard but manageable. Maintaining current level."
          1.0%Q 0
  else if Qltb (averageEffort stats) 6 && Qleb 0.9 completionRate
          && Qltb (averagePain stats) 2 then
    mkRec increase "Consistent training with low perceived effort. Gradually increasing."
          1.05%Q 0
  else
    mkRec maintain "Training is progressing well. Maintaining current plan."
          1.0%Q 0.

(** [SELECT tp.id FROM training_plans tp JOIN goals g ON tp.goal_id = g.id
     WHERE tp.user_id = ? AND g.is_active = 1], first row. *)
Definition activePlan (userId : Z) (db : DB) : option TrainingPlan.t :=
  find (fun tp => (TrainingPlan.user_id tp =? userId)
                  && existsb (fun g => (Goal.id g =? TrainingPlan.goal_id tp)
                                       && (Goal.is_active g =? 1)) (goals db))
       (training_plans db).

(** [ORDER BY date ASC LIMIT 1] *)
Definition earliest (l : list Workout.t) : option Workout.t :=
  fold_left (fun best w =>
               match best with
               | None => Some w
               | Some b => if Workout.date w <? Workout.date b then Some w else Some b
               end) l None.

Definition currentWorkoutOf (planId : Z) (weekStart : Date) (db : DB) : option Workout.t :=
  earliest (filter (fun w => (Workout.plan_id w =? planId)
                             && (weekStart <=? Workout.date w)) (workouts db)).

(** [WHERE plan_id = ? AND date >= ? AND completed = 0] *)
Definition isFuture (planId : Z) (weekStart : Date) (w : Workout.t) : bool :=
  (Workout.plan_id w =? planId) && (weekStart <=? Workout.date w)
  && (Workout.completed w =? 0).

(** [UPDATE workouts SET duration_minutes = ? WHERE id = ?] *)
Definition updateStmt (newDuration : Q) (id : Z) (db : DB) : DB :=
  set_workouts
    (map (fun r => if Workout.id r =? id
                   then Workout.set_duration_minutes newDuration r else r)
         (workouts db)) db.

Definition insertWeeklyAdjustment (userId planId weekNumber : Z)
    (ty : AdjustmentType) (why : string) (db : DB) : DB :=
  let rowid := seq_weekly_adjustments db + 1 in
  mkDB (goals db) (training_plans db) (workouts db) (run_logs db)
       (weekly_adjustments db ++
        [WeeklyAdjustment.mk rowid userId planId weekNumber ty why])
       (seq_training_plans db) (seq_workouts db) rowid.

Definition truthy (z : Z) : bool := negb (z =? 0).

Definition isReduce (ty : AdjustmentType) : bool :=
  match ty with reduce => true | _ => false end.

Definition isMaintain (ty : AdjustmentType) : bool :=
  match ty with maintain => true | _ => false end.

(** The multiplier the [forEach] body settles on for workout [w]. *)
Definition effectiveMultiplier (recommendation : AdjustmentRecommendation)
    (w : Workout.t) : Q :=
  let multiplier := volumeMultiplier recommendation in
  if (truthy (Workout.is_key_workout w) || truthy (Workout.is_long_run w))
     && isReduce (type recommendation)
  then Qmax multiplier 0.85
  else multiplier.

Definition applyWeeklyAdjustment (now : Date) (userId : Z) (db : DB)
    : AdjustmentResult * DB :=
  match analyzeWeeklyPerformance now userId 1 db with
  | None => (mkResult false None, db)
  | Some stats =>
    let recommendation := getAdjustmentRecommendation stats in
    if isMaintain (type recommendation) then (mkResult false (Some recommendation), db) else
    let today := now in
    let weekStart := startOfWeek today in
    match activePlan userId db with
    | None => (mkResult false (Some recommendation), db)
    | Some plan =>
      match currentWorkoutOf (TrainingPlan.id plan) weekStart db with
      | None => (mkResult false (Some recommendation), db)
      | Some currentWorkout =>
        let futureWorkouts := filter (isFuture (TrainingPlan.id plan) weekStart) (workouts db) in
        let db :=
          fold_left
            (fun db w =>
               let multiplier := effectiveMultiplier recommendation w in
               let newDuration := Math_round (jsMul (Workout.duration_minutes w) multiplier) in
               updateStmt newDuration (Workout.id w) db)
            futureWorkouts db in
        let db :=
          insertWeeklyAdjustment userId (TrainingPlan.id plan)
            (Workout.week_number currentWorkout)
            (type recommendation) (reason recommendation) db in
        (mkResult true (Some recommendation), db)
      end
    end
  end.

(** ** The classification table of the specification

    The rules of the adjustment engine as the specification lists them:
    tried in this order, the first rule whose condition holds decides the
    adjustment type and the volume multiplier. *)

Definition completionRate_spec (stats : WeeklyStats) : Q :=
  if plannedRuns stats =? 0 then 0%Q
  else (inject_Z (completedRuns stats) / inject_Z (plannedRuns stats))%Q.

Definition classification_rules
    : list ((WeeklyStats -> bool) * (AdjustmentType * Q)) :=
  [ (fun s => Qleb 5 (averagePain s), (reduce, 0.7%Q));
    (fun s => Qltb (completionRate_spec s) 0.5, (reduce, 0.8%Q));
    (fun s => 2 <=? missedKeyWorkouts s, (reduce, 0.85%Q));
    (fun s => Qleb 8 (averageEffort s) && Qleb 0.8 (completionRate_spec s),
     (maintain, 1.0%Q));
    (fun s => Qltb (averageEffort s) 6 && Qleb 0.9 (completionRate_spec s)
              && Qltb (averagePain s) 2,
     (increase, 1.05%Q)) ].

Fixpoint first_match {A B : Type} (rules : list ((A -> bool) * B)) (default : B)
    (a : A) : B :=
  match rules with
  | [] => default
  | (cond, out) :: rest => if cond a then out else first_match rest default a
  end.

Definition classify_spec (stats : WeeklyStats) : AdjustmentType * Q :=
  first_match classification_rules (maintain, 1.0%Q) stats.

(** ** Sample stores *)

Definition durationOf (id : Z) (db : DB) : option Q :=
  option_map Workout.duration_minutes
    (find (fun w => Workout.id w =? id) (workouts db)).

(** Athlete 7 on a Wednesday (day 9) of the second week of plan 1: last
    week's easy run was logged as completed with effort 4 and no pain;
    this week's 60-minute easy run (workout 2) is still to come. *)
Definition compounding_now : Date := 9.

Definition compounding_store : DB :=
  mkDB
    [ Goal.mk 1 7 "5k" 60 None "intermediate" 3%Q 30%Q ["monday"; "thursday"]
        60%Q 90%Q 1 ]
    [ TrainingPlan.mk 1 1 7 0 60 ]
    [ Workout.mk 1 1 7 3 1 "easy" "Easy Run" "easy" 40%Q "low" "rest" 0 0 1;
      Workout.mk 2 1 7 10 2 "easy" "Easy Run" "easy" 60%Q "low" "rest" 0 0 0 ]
    [ RunLog.mk 1 7 (Some 1) 3 1 40 4 (Some 0) ]
    []
    1 2 0.

(** A week with the long run on Saturday, a tempo run on Tuesday and easy
    runs on Monday and Thursday (week 1 of plan 1, days 0..6). *)
Definition reschedule_store : DB :=
  mkDB
    []
    [ TrainingPlan.mk 1 1 7 0 60 ]
    [ Workout.mk 1 1 7 5 1 "long" "Long Run" "long run" 50%Q "low" "shorten" 1 1 0;
      Workout.mk 2 1 7 1 1 "tempo" "Tempo Run" "tempo run" 30%Q "moderate" "easy" 1 0 0;
      Workout.mk 3 1 7 0 1 "easy" "Easy Run" "monday run" 25%Q "low" "rest" 0 0 0;
      Workout.mk 4 1 7 3 1 "easy" "Easy Run" "thursday run" 26%Q "low" "rest" 0 0 0 ]
    [] []
    1 4 0.

(** Athlete 7 on day 9 again, but last week's run was logged with pain 6:
    the classification is reduce with multiplier 0.7.  This week holds a
    60-minute long run (workout 2) and a 40-minute easy run (workout 3). *)
Definition reduce_store : DB :=
  mkDB
    [ Goal.mk 1 7 "5k" 60 None "intermediate" 3%Q 30%Q ["monday"; "thursday"]
        60%Q 90%Q 1 ]
    [ TrainingPlan.mk 1 1 7 0 60 ]
    [ Workout.mk 1 1 7 3 1 "easy" "Easy Run" "easy" 40%Q "low" "rest" 0 0 1;
      Workout.mk 2 1 7 12 2 "long" "Long Run" "long" 60%Q "low" "shorten" 1 1 0;
      Workout.mk 3 1 7 10 2 "easy" "Easy Run" "easy" 40%Q "low" "rest" 0 0 0 ]
    [ RunLog.mk 1 7 (Some 1) 3 1 40 4 (Some 6) ]
    []
    1 3 0.

(** ** The rows a call inserts, as values

    A run of [insertWorkout] calls is described by the list of the rows it
    binds; [stored] is the row the table then holds. *)

Definition insertRow (v : Workout.t) (db : DB) : DB :=
  insertWorkout (Workout.plan_id v) (Workout.user_id v) (Workout.date v)
    (Workout.week_number v) (Workout.workout_type v) (Workout.title v)
    (Workout.description v) (Workout.duration_minutes v) (Workout.intensity v)
    (Workout.tired_alternative v) (Workout.is_key_workout v) (Workout.is_long_run v) db.

Definition stored (rowid : Z) (v : Workout.t) : Workout.t :=
  Workout.mk rowid (Workout.plan_id v) (Workout.user_id v) (Workout.date v)
    (Workout.week_number v) (Workout.workout_type v) (Workout.title v)
    (Workout.description v) (Workout.duration_minutes v) (Workout.intensity v)
    (Workout.tired_alternative v) (Workout.is_key_workout v) (Workout.is_long_run v) 0.

Fixpoint storedFrom (k : Z) (vs : list Workout.t) : list Workout.t :=
  match vs with
  | [] => []
  | v :: r => stored (k + 1) v :: storedFrom (k + 1) r
  end.

(** The content columns that a reschedule carries over. *)
Definition sameContent (o n : Workout.t) : Prop :=
  Workout.workout_type n = Workout.workout_type o
  /\ Workout.title n = Workout.title o
  /\ Workout.description n = Workout.description o
  /\ Workout.duration_minutes n = Workout.duration_minutes o
  /\ Workout.intensity n = Workout.intensity o
  /\ Workout.tired_alternative n = Workout.tired_alternative o.

Definition onDay (n : Workout.t) : Z := getDay (Workout.date n).

Definition longRunDayOf (dayNumbers : list Z) : Z :=
  if 0 <? len (filter isWeekendDay dayNumbers)
  then Math_max (filter isWeekendDay dayNumbers)
  else Math_max dayNumbers.

Section ReschedulePlan.
Variables planId userId weekNumber : Z.
Variable weekStart : Date.
Variable old : list Workout.t.
Variable dayNumbers : list Z.

Definition moved (isKey isLong : Z) (s : Workout.t * Z) : Workout.t :=
  Workout.mk 0 planId userId (addDays weekStart (dayOffset (snd s))) weekNumber
    (Workout.workout_type (fst s)) (Workout.title (fst s))
    (Workout.description (fst s)) (Workout.duration_minutes (fst s))
    (Workout.intensity (fst s)) (Workout.tired_alternative (fst s)) isKey isLong 0.

Definition longSlot : list (Workout.t * Z) :=
  match find isLongRunRow old with
  | Some longRun => [(longRun, longRunDayOf dayNumbers)]
  | None => []
  end.

Definition keyDayOf (usedDays : list Z) : option Z :=
  let availableForKey := filter (fun d => negb (includes usedDays d)) dayNumbers in
  let nonAdjacentDays := filter (notAdjacent (nth_error usedDays 0)) availableForKey in
  if 0 <? len nonAdjacentDays
  then nth_error nonAdjacentDays (Z.to_nat (len nonAdjacentDays / 2))
  else nth_error availableForKey 0.

Definition keySlot : list (Workout.t * Z) :=
  match find isKeyRow old with
  | Some keyWorkout =>
      if 1 <? len dayNumbers then
        match keyDayOf (map snd longSlot) with
        | Some keyDay => [(keyWorkout, keyDay)]
        | None => []
        end
      else []
  | None => []
  end.

Definition remainingDaysOf : list Z :=
  filter (fun d => negb (includes (map snd (longSlot ++ keySlot)) d)) dayNumbers.

Definition easySlots : list (Workout.t * Z) :=
  combine (filter isEasyRow old) remainingDaysOf.

Definition reschedulePlan : list Workout.t :=
  map (moved 1 1) longSlot ++ map (moved 1 0) keySlot ++ map (moved 0 0) easySlots.
End ReschedulePlan.

(** The week days taken by a list of rows. *)
Definition occupiedDays (rows : list Workout.t) : list Z := map onDay rows.


(** ** The week the generator lays out, as values *)

Definition easyTemplate : WorkoutTemplate.t :=
  WorkoutTemplate.mk "easy" "Easy Run"
    "Run at a comfortable, conversational pace. You should be able to hold a conversation throughout."
    1.0%Q "low" false false
    "Take a complete rest day or do a 20-minute walk instead.".

Definition longRunTemplate : WorkoutTemplate.t :=
  WorkoutTemplate.mk "long" "Long Run"
    "Your weekly long run. Start slow and maintain an easy, sustainable pace throughout. Focus on time on feet."
    1.5%Q "low" true true
    "Reduce duration by 20-30% but still complete the run at an easy effort.".

Definition tempoTemplate : WorkoutTemplate.t :=
  WorkoutTemplate.mk "tempo" "Tempo Run"
    ("Warm up for 10 minutes, then run at a " ++ dquote ++ "comfortably hard"
     ++ dquote ++ " pace for the main portion. Cool down for 10 minutes.")%string
    1.1%Q "moderate" true false
    "Convert to an easy run at the same duration.".

Section WeekPlan.
Variables planId userId weekNumber : Z.
Variable weekStart : Date.
Variable availableDays : list string.
Variable weeklyVolume : Q.
Variable experienceLevel : string.
Variables maxWeekdayTime maxWeekendTime : Q.

Definition ceilingOf (d : Z) : Q :=
  if isWeekendDay d then maxWeekendTime else maxWeekdayTime.

Definition keyWorkoutDayOf (dayNumbers : list Z) : option Z :=
  let longRunDay := longRunDayOf dayNumbers in
  let keyWorkoutCandidates :=
    filter (fun d => negb (d =? longRunDay)
                     && (1 <? Z.abs (d - longRunDay))
                     && negb (Z.abs (d - longRunDay) =? 6)) dayNumbers in
  if 0 <? len keyWorkoutCandidates
  then nth_error keyWorkoutCandidates (Z.to_nat (len keyWorkoutCandidates / 2))
  else find (fun d => negb (d =? longRunDay)) dayNumbers.

Definition laidOut (t : WorkoutTemplate.t) (type : string) (day : Z) (duration : Q)
    (isKey isLong : Z) : Workout.t :=
  Workout.mk 0 planId userId (addDays weekStart (dayOffset day)) weekNumber type
    (WorkoutTemplate.title t) (WorkoutTemplate.description t) duration
    (WorkoutTemplate.intensity t) (WorkoutTemplate.tiredAlternative t) isKey isLong 0.

Definition weekPlan : list Workout.t :=
  let dayNumbers := dayNumbersOf availableDays in
  match dayNumbers with
  | [] => []
  | _ :: _ =>
    let longRunDay := longRunDayOf dayNumbers in
    let keyWorkoutDay := keyWorkoutDayOf dayNumbers in
    let longRunDuration :=
      Qmin (Math_round (weeklyVolume * 0.35)) (ceilingOf longRunDay) in
    let remainingVolume := (weeklyVolume - longRunDuration)%Q in
    let easyDays :=
      filter (fun d => negb (d =? longRunDay) && differs d keyWorkoutDay) dayNumbers in
    let keyPart :=
      match keyWorkoutDay with
      | Some kd =>
          if negb (String.eqb experienceLevel "beginner") then
            let keyWorkoutDuration :=
              Qmin (Math_round (remainingVolume * 0.3)) (ceilingOf kd) in
            ([laidOut tempoTemplate "tempo" kd keyWorkoutDuration 1 0],
             (remainingVolume - keyWorkoutDuration)%Q)
          else ([], remainingVolume)
      | None => ([], remainingVolume)
      end in
    let easyRunDuration := Math_round (snd keyPart / inject_Z (len easyDays)) in
    laidOut longRunTemplate "long" longRunDay longRunDuration 1 1
    :: fst keyPart
    ++ map (fun day => laidOut easyTemplate "easy" day
                         (Qmin easyRunDuration (ceilingOf day)) 0 0) easyDays
  end.
End WeekPlan.

(** The rows [generateTrainingPlan] binds for week [week] of [goal]. *)
Definition planWeek (now : Date) (goal : Goal.t) (planId week : Z) : list Workout.t :=
  weekPlan planId (Goal.user_id goal) week (addWeeks (startOfWeek now) (week - 1))
    (Goal.available_days goal)
    (calculateWeeklyVolume (totalWeeksOf now goal) (raceConfigOf goal)
       (experienceMultiplierOf goal) (Goal.current_frequency goal)
       (Goal.longest_recent_run goal) week)
    (Goal.experience_level goal) (Goal.max_weekday_time goal) (Goal.max_weekend_time goal).

(** A 10k goal of athlete 7, intermediate, ten weeks ahead of day 2, on
    Tuesday, Thursday, Saturday and Sunday; and an empty store. *)
Definition sample_goal : Goal.t :=
  Goal.mk 1 7 "10k" 72 None "intermediate" 3%Q 45%Q
    ["Tuesday"; "Thursday"; "Saturday"; "Sunday"] 60%Q 90%Q 1.

Definition empty_store : DB := mkDB [] [] [] [] [] 0 0 0.

(** A 5k goal of athlete 7, a beginner, four weeks ahead of day 2, on
    Monday and Wednesday. *)
Definition beginner_goal : Goal.t :=
  Goal.mk 1 7 "5k" 30 None "beginner" 3%Q 30%Q ["Monday"; "Wednesday"] 60%Q 90%Q 1.


(** ** The UPDATE loop of the adjustment, row by row *)

(** The duration the loop body computes for workout [w]. *)
Definition newDurationOf (recommendation : AdjustmentRecommendation) (w : Workout.t) : Q :=
  Math_round (jsMul (Workout.duration_minutes w) (effectiveMultiplier recommendation w)).

(** What one [UPDATE ... WHERE id = w.id] does to row [r]. *)
Definition adjustRow (nd : Workout.t -> Q) (r w : Workout.t) : Workout.t :=
  if Workout.id r =? Workout.id w then Workout.set_duration_minutes (nd w) r else r.

(** Row [r] is what the table holds after binding the values [v]. *)
Definition linked (v r : Workout.t) : Prop := exists rowid, r = stored rowid v.

(** ** regeneratePlan, with the foreign-key actions of its DELETEs

    [foreign_keys = ON]: deleting a workout sets [workout_id] to NULL in
    the run logs that reference it ([ON DELETE SET NULL]); deleting a
    training plan deletes its workouts and its weekly adjustments
    ([ON DELETE CASCADE]). *)

Definition unlinkLog (gone : list Z) (l : RunLog.t) : RunLog.t :=
  match RunLog.workout_id l with
  | Some w =>
      if includes gone w
      then RunLog.mk (RunLog.id l) (RunLog.user_id l) None (RunLog.date l)
             (RunLog.completed l) (RunLog.duration_minutes l)
             (RunLog.effort_level l) (RunLog.pain_level l)
      else l
  | None => l
  end.

(** [DELETE FROM workouts WHERE ...] *)
Definition deleteWorkoutsWhere (p : Workout.t -> bool) (db : DB) : DB :=
  let gone := map Workout.id (filter p (workouts db)) in
  mkDB (goals db) (training_plans db)
       (filter (fun w => negb (p w)) (workouts db))
       (map (unlinkLog gone) (run_logs db)) (weekly_adjustments db)
       (seq_training_plans db) (seq_workouts db) (seq_weekly_adjustments db).

(** [DELETE FROM training_plans WHERE id = ?] *)
Definition deleteTrainingPlan (planId : Z) (db : DB) : DB :=
  let db := deleteWorkoutsWhere (fun w => Workout.plan_id w =? planId) db in
  mkDB (goals db)
       (filter (fun tp => negb (TrainingPlan.id tp =? planId)) (training_plans db))
       (workouts db) (run_logs db)
       (filter (fun a => negb (WeeklyAdjustment.plan_id a =? planId))
          (weekly_adjustments db))
       (seq_training_plans db) (seq_workouts db) (seq_weekly_adjustments db).

(** [userId] is not used by the source either. *)
Definition regeneratePlan (now : Date) (goalId userId : Z) (db : DB)
    : option (Z * DB) :=
  let existingPlan :=
    find (fun tp => TrainingPlan.goal_id tp =? goalId) (training_plans db) in
  let db :=
    match existingPlan with
    | Some existingPlan =>
        let db :=
          deleteWorkoutsWhere
            (fun w => Workout.plan_id w =? TrainingPlan.id existingPlan) db in
        deleteTrainingPlan (TrainingPlan.id existingPlan) db
    | None => db
    end in
  deref goal <- find (fun g => Goal.id g =? goalId) (goals db) ;;
  generateTrainingPlan now goal db.

(** ** routes/workouts.ts: POST /reschedule-week

    The handler on a request body whose [availableDays] is an array of
    strings, for the authenticated athlete [userId]; the result is the
    HTTP status and the store.  The DELETE inside [rescheduleWeek] also
    unlinks the run logs of the workouts it deletes. *)

(** [UPDATE goals SET available_days = ? WHERE id = ?] *)
Definition updateAvailableDays (availableDays : list string) (goalId : Z) (db : DB) : DB :=
  mkDB (map (fun g =>
               if Goal.id g =? goalId
               then Goal.mk (Goal.id g) (Goal.user_id g) (Goal.race_distance g)
                      (Goal.race_date g) (Goal.target_time g) (Goal.experience_level g)
                      (Goal.current_frequency g) (Goal.longest_recent_run g)
                      availableDays (Goal.max_weekday_time g) (Goal.max_weekend_time g)
                      (Goal.is_active g)
               else g) (goals db))
       (training_plans db) (workouts db) (run_logs db) (weekly_adjustments db)
       (seq_training_plans db) (seq_workouts db) (seq_weekly_adjustments db).

Definition rescheduleWeekRoute (now : Date) (userId : Z) (availableDays : list string)
    (db : DB) : Z * DB :=
  if len availableDays <? 2 then (400, db) else
  match activePlan userId db with
  | None => (404, db)
  | Some plan =>
    let today := now in
    let weekStart := startOfWeek today in
    match currentWorkoutOf (TrainingPlan.id plan) weekStart db with
    | None => (404, db)
    | Some currentWeekWorkout =>
      let weekNumber := Workout.week_number currentWeekWorkout in
      let gone :=
        map Workout.id
          (filter (inWeek (TrainingPlan.id plan) userId weekNumber) (workouts db)) in
      let db := rescheduleWeek (TrainingPlan.id plan) userId weekNumber availableDays db in
      let db :=
        mkDB (goals db) (training_plans db) (workouts db)
             (map (unlinkLog gone) (run_logs db)) (weekly_adjustments db)
             (seq_training_plans db) (seq_workouts db) (seq_weekly_adjustments db) in
      (200, updateAvailableDays availableDays (TrainingPlan.goal_id plan) db)
    end
  end.

(** The minutes a list of workouts plans in total. *)
Definition plannedMinutes (rows : list Workout.t) : Q :=
  fold_right Qplus 0%Q (map Workout.duration_minutes rows).

(** * Properties *)

(** ** VolumeCurve *)

Section VolumeCurveFacts.
Variable totalWeeks : Z.
Variable raceConfig : RaceConfig.
Variables experienceMultiplier currentFrequency longestRecentRun : Q.

Local Abbreviation volume :=
  (calculateWeeklyVolume totalWeeks raceConfig experienceMultiplier
     currentFrequency longestRecentRun).
Local Abbreviation base :=
  (baseVolume totalWeeks raceConfig experienceMultiplier
     currentFrequency longestRecentRun).

(** The defining equation of the source function: the call counter of
    the embedding never runs out. *)
Lemma calculateWeeklyVolume_eq (weekNumber : Z) :
  volume weekNumber =
  Qmin (base weekNumber)
       ((if 1 <? weekNumber then volume (weekNumber - 1)
         else currentFrequency * 30) * 1.1)%Q.
Proof.
  unfold calculateWeeklyVolume.
  destruct (Z.to_nat (weekNumber - 1)) as [|c] eqn:E; simpl.
  - destruct (Z.ltb_spec 1 weekNumber) as [H|H]; [lia | reflexivity].
  - destruct (Z.ltb_spec 1 weekNumber) as [H|H]; [|lia].
    replace (Z.to_nat (weekNumber - 1 - 1)) with c by lia.
    reflexivity.
Qed.

(** For the weeks of a plan every quotient of the phase formulas has a
    non-zero divisor. *)
Lemma phase_divisors_nonzero (weekNumber : Z) :
  1 <= totalWeeks -> 1 <= weekNumber ->
  (weekNumber <= buildPhaseEnd totalWeeks -> buildPhaseEnd totalWeeks <> 0)
  /\ (buildPhaseEnd totalWeeks < weekNumber <= peakPhaseEnd totalWeeks ->
      peakPhaseEnd totalWeeks - buildPhaseEnd totalWeeks <> 0)
  /\ totalWeeks - peakPhaseEnd totalWeeks <> 0.
Proof.
  intros HT HW. repeat split; try lia.
  assert (peakPhaseEnd totalWeeks < totalWeeks); [|lia].
  unfold peakPhaseEnd, Math_floor.
  rewrite Zlt_Qlt.
  eapply Qle_lt_trans; [apply Qfloor_le|].
  assert (0 < inject_Z totalWeeks)%Q as Hpos
    by (rewrite <- (Zlt_Qlt 0); lia).
  setoid_replace (inject_Z totalWeeks) with (inject_Z totalWeeks * 1)%Q at 2 by ring.
  apply Qmult_lt_l; [exact Hpos | reflexivity].
Qed.
End VolumeCurveFacts.

(** C1. Monotonic-growth guard: whatever the race configuration, the
    experience multiplier, the current frequency and the longest recent
    run, the volume of week N > 1 is at most 110% of the volume of week
    N - 1, and the volume of week 1 is at most 110% of the week-0 baseline
    [currentFrequency * 30]. *)
Theorem weekly_volume_growth_capped
    (raceConfig : RaceConfig) (experienceMultiplier currentFrequency longestRecentRun : Q)
    (totalWeeks N : Z) :
  1 <= totalWeeks -> 1 < N ->
  (calculateWeeklyVolume totalWeeks raceConfig experienceMultiplier
     currentFrequency longestRecentRun N
   <= 1.1 * calculateWeeklyVolume totalWeeks raceConfig experienceMultiplier
              currentFrequency longestRecentRun (N - 1))%Q
  /\ (calculateWeeklyVolume totalWeeks raceConfig experienceMultiplier
        currentFrequency longestRecentRun 1
      <= 1.1 * currentFrequency * 30)%Q.
Proof.
  intros _ HN. split.
  - rewrite calculateWeeklyVolume_eq.
    destruct (Z.ltb_spec 1 N) as [_|H]; [|lia].
    rewrite (Qmult_comm 1.1). apply Q.le_min_r.
  - rewrite calculateWeeklyVolume_eq.
    change (1 <? 1) with false; cbv iota.
    eapply Qle_trans; [apply Q.le_min_r|].
    apply Qle_lteq; right; ring.
Qed.

Lemma weekly_volume_growth_capped_witness :
  (calculateWeeklyVolume 10 (mkRaceConfig 10 60 200) 1 3 45 4
   <= 1.1 * calculateWeeklyVolume 10 (mkRaceConfig 10 60 200) 1 3 45 (4 - 1))%Q
  /\ (calculateWeeklyVolume 10 (mkRaceConfig 10 60 200) 1 3 45 1 <= 1.1 * 3 * 30)%Q.
Proof.
  apply (weekly_volume_growth_capped (mkRaceConfig 10 60 200) 1 3 45 10 4); lia.
Defined.

(** ** AdjustmentEngine: classification *)

Lemma completionRate_spec_eq (stats : WeeklyStats) :
  0 <= plannedRuns stats ->
  (if 0 <? plannedRuns stats
   then inject_Z (completedRuns stats) / inject_Z (plannedRuns stats)
   else 0)%Q = completionRate_spec stats.
Proof.
  intros H. unfold completionRate_spec.
  destruct (Z.ltb_spec 0 (plannedRuns stats)), (Z.eqb_spec (plannedRuns stats) 0);
    try reflexivity; lia.
Qed.

(** C6. [getAdjustmentRecommendation] is a function of the statistics
    alone that tries the rules in the fixed order pain, completion, missed
    key workouts, hard-but-manageable, low-effort, default, the first
    match winning; the pain rule carries intensity adjustment -1; and for
    average pain 6 with 4 of 4 planned runs completed the answer is reduce
    with multiplier 0.7 and intensity adjustment -1. *)
Theorem recommendation_first_match (stats : WeeklyStats) :
  0 <= plannedRuns stats ->
  (type (getAdjustmentRecommendation stats),
   volumeMultiplier (getAdjustmentRecommendation stats)) = classify_spec stats
  /\ (Qleb 5 (averagePain stats) = true ->
      intensityAdjustment (getAdjustmentRecommendation stats) = -1)
  /\ (forall total effort minutes missed,
        let r := getAdjustmentRecommendation (mkStats total 4 4 effort 6 minutes missed) in
        type r = reduce /\ volumeMultiplier r = 0.7%Q /\ intensityAdjustment r = -1).
Proof.
  intros Hp. split; [|split].
  - unfold getAdjustmentRecommendation, classify_spec, classification_rules, first_match.
    rewrite (completionRate_spec_eq stats Hp).
    repeat match goal with
           | |- context [if ?c then _ else _] => destruct c
           end; reflexivity.
  - intros H. unfold getAdjustmentRecommendation. rewrite H. reflexivity.
  - intros. repeat split.
Qed.

Lemma recommendation_first_match_witness :
  (type (getAdjustmentRecommendation (mkStats 3 1 4 5 1 90 1)),
   volumeMultiplier (getAdjustmentRecommendation (mkStats 3 1 4 5 1 90 1)))
  = (reduce, 0.8%Q).
Proof.
  exact (proj1 (recommendation_first_match (mkStats 3 1 4 5 1 90 1) ltac:(simpl; lia))).
Defined.

(** ** AdjustmentEngine: application *)

Lemma leftJoinLogs_nonempty (logs : list RunLog.t) (w : Workout.t) :
  leftJoinLogs logs w <> [].
Proof.
  unfold leftJoinLogs.
  destruct (filter _ logs) as [|rl ls]; discriminate.
Qed.

Lemma joined_rows_nil (logs : list RunLog.t) (ws : list Workout.t) :
  flat_map (leftJoinLogs logs) ws = [] <-> ws = [].
Proof.
  split.
  - destruct ws as [|w ws]; [reflexivity|]. simpl. intros H.
    apply app_eq_nil in H. destruct H as [H _].
    now apply leftJoinLogs_nonempty in H.
  - intros ->. reflexivity.
Qed.

Lemma len_zero {A : Type} (l : list A) : (len l =? 0) = true <-> l = [].
Proof.
  unfold len. destruct l; simpl; split; intros H;
    reflexivity || discriminate.
Qed.

Lemma analyze_none_iff (now : Date) (userId weekOffset : Z) (db : DB) :
  analyzeWeeklyPerformance now userId weekOffset db = None <->
  plannedInRange userId (startOfWeek (subWeeks now weekOffset))
    (endOfWeek (subWeeks now weekOffset)) db = [].
Proof.
  unfold analyzeWeeklyPerformance.
  destruct (len (flat_map _ _) =? 0) eqn:E.
  - apply len_zero, joined_rows_nil in E. split; [intros _; exact E | reflexivity].
  - split; [discriminate|]. intros H.
    rewrite <- joined_rows_nil, <- len_zero in H. rewrite H in E. discriminate.
Qed.

(** C9. No-op results instead of exceptions: [analyzeWeeklyPerformance]
    is null exactly when the athlete has no planned workout in the range
    of the target week; [applyWeeklyAdjustment] answers [applied: false]
    and leaves the whole store as it was (no duration changed, no
    adjustment row added) when the statistics are null, the
    recommendation is to maintain, there is no active plan, or the plan
    has no workout on or after the start of the current week; and
    [rescheduleWeek] leaves the store as it was when the week has no
    workouts. *)
Theorem nothing_to_do_is_a_noop
    (now : Date) (userId weekOffset planId weekNumber : Z)
    (newAvailableDays : list string) (db : DB) :
  (analyzeWeeklyPerformance now userId weekOffset db = None <->
   plannedInRange userId (startOfWeek (subWeeks now weekOffset))
     (endOfWeek (subWeeks now weekOffset)) db = [])
  /\ ((analyzeWeeklyPerformance now userId 1 db = None
       \/ (exists stats, analyzeWeeklyPerformance now userId 1 db = Some stats
                         /\ type (getAdjustmentRecommendation stats) = maintain)
       \/ activePlan userId db = None
       \/ (exists plan, activePlan userId db = Some plan
                        /\ currentWorkoutOf (TrainingPlan.id plan) (startOfWeek now) db = None))
      -> applied (fst (applyWeeklyAdjustment now userId db)) = false
         /\ snd (applyWeeklyAdjustment now userId db) = db)
  /\ (filter (inWeek planId userId weekNumber) (workouts db) = []
      -> rescheduleWeek planId userId weekNumber newAvailableDays db = db).
Proof.
  split; [apply analyze_none_iff|]. split.
  - intros H. unfold applyWeeklyAdjustment.
    destruct (analyzeWeeklyPerformance now userId 1 db) as [stats|] eqn:Ea;
      [|split; reflexivity].
    destruct (isMaintain (type (getAdjustmentRecommendation stats))) eqn:Em;
      [split; reflexivity|].
    destruct (activePlan userId db) as [plan|] eqn:Ep; [|split; reflexivity].
    destruct (currentWorkoutOf (TrainingPlan.id plan) (startOfWeek now) db) eqn:Ec;
      [|split; reflexivity].
    exfalso. destruct H as [H|[(s & Hs & Ht)|[H|(p & Hp & Hc)]]]; try discriminate.
    + injection Hs as <-. rewrite Ht in Em. discriminate.
    + injection Hp as <-. rewrite Hc in Ec. discriminate.
  - intros H. unfold rescheduleWeek. rewrite H. reflexivity.
Qed.

Lemma nothing_to_do_is_a_noop_witness :
  applied (fst (applyWeeklyAdjustment 9 8 compounding_store)) = false
  /\ snd (applyWeeklyAdjustment 9 8 compounding_store) = compounding_store.
Proof.
  apply (nothing_to_do_is_a_noop 9 8 1 1 1 [] compounding_store).
  left. reflexivity.
Defined.

(** C8. Applying the adjustment is not idempotent.  With last week fully
    completed at low effort the classification is increase (multiplier
    1.05); the first application takes the pending 60-minute workout to
    63 minutes, and a second application straight after takes it from 63
    to 66 minutes: the multiplier compounds on the adjusted duration. *)
Theorem adjustment_compounds :
  let first := applyWeeklyAdjustment compounding_now 7 compounding_store in
  let second := applyWeeklyAdjustment compounding_now 7 (snd first) in
  option_map type (adjustment (fst first)) = Some increase
  /\ option_map volumeMultiplier (adjustment (fst first)) = Some 1.05%Q
  /\ option_map type (adjustment (fst second)) = Some increase
  /\ applied (fst first) = true /\ applied (fst second) = true
  /\ durationOf 2 compounding_store = Some 60%Q
  /\ durationOf 2 (snd first) = Some (Math_round (60 * 1.05))
  /\ durationOf 2 (snd first) = Some 63%Q
  /\ durationOf 2 (snd second) = Some (Math_round (63 * 1.05))
  /\ durationOf 2 (snd second) = Some 66%Q
  /\ workouts (snd second) <> workouts (snd first).
Proof.
  vm_compute. repeat split; discriminate.
Qed.

(** *** The UPDATE loop *)

Lemma update_loop_rows (nd : Workout.t -> Q) (fw : list Workout.t) (db : DB) :
  fold_left (fun db w => updateStmt (nd w) (Workout.id w) db) fw db =
  set_workouts (map (fun r => fold_left (adjustRow nd) fw r) (workouts db)) db.
Proof.
  revert db. induction fw as [|w fw IH]; intros db; simpl.
  - rewrite map_id. destruct db; reflexivity.
  - rewrite IH. unfold updateStmt, set_workouts; simpl.
    rewrite map_map. reflexivity.
Qed.

Lemma adjustRow_fold (nd : Workout.t -> Q) (d : Q) (fw : list Workout.t) :
  forall r,
    (forall w, In w fw -> Workout.id w = Workout.id r -> nd w = d) ->
    fold_left (adjustRow nd) fw r =
    if existsb (fun w => Workout.id r =? Workout.id w) fw
    then Workout.set_duration_minutes d r else r.
Proof.
  induction fw as [|w fw IH]; intros r H; simpl; [reflexivity|].
  unfold adjustRow at 2.
  destruct (Z.eqb_spec (Workout.id r) (Workout.id w)) as [E|E]; simpl.
  - rewrite (H w (or_introl eq_refl) (eq_sym E)).
    rewrite IH by (intros w' Hin Hid; apply H; [right; exact Hin | exact Hid]).
    destruct (existsb _ fw); reflexivity.
  - apply IH. intros w' Hin Hid. apply H; [right; exact Hin | exact Hid].
Qed.

Lemma unique_id_row (ws : list Workout.t) (a b : Workout.t) :
  NoDup (map Workout.id ws) -> In a ws -> In b ws ->
  Workout.id a = Workout.id b -> a = b.
Proof.
  induction ws as [|x ws IH]; simpl; intros Hnd Ha Hb E; [contradiction|].
  inversion Hnd as [|? ? Hx Hnd']; subst.
  destruct Ha as [->|Ha], Hb as [->|Hb]; auto.
  - exfalso. apply Hx. rewrite E. now apply in_map.
  - exfalso. apply Hx. rewrite <- E. now apply in_map.
Qed.

(** With [id] a key of the table, the loop rewrites exactly the selected
    rows, each from its own previous duration, and touches nothing else. *)
Lemma update_loop_spec (nd : Workout.t -> Q) (sel : Workout.t -> bool) (db : DB) :
  NoDup (map Workout.id (workouts db)) ->
  fold_left (fun db w => updateStmt (nd w) (Workout.id w) db)
            (filter sel (workouts db)) db =
  set_workouts
    (map (fun r => if sel r then Workout.set_duration_minutes (nd r) r else r)
         (workouts db)) db.
Proof.
  intros Hnd. rewrite update_loop_rows. f_equal.
  apply map_ext_in. intros r Hr.
  rewrite (adjustRow_fold nd (nd r)).
  - destruct (sel r) eqn:Es.
    + replace (existsb _ _) with true; [reflexivity|].
      symmetry. apply existsb_exists. exists r. split.
      * apply filter_In. now split.
      * apply Z.eqb_refl.
    + replace (existsb _ _) with false; [reflexivity|].
      symmetry. apply not_true_is_false. intros H.
      apply existsb_exists in H. destruct H as (w & Hw & E).
      apply filter_In in Hw. destruct Hw as [Hw Hs].
      apply Z.eqb_eq in E.
      rewrite (unique_id_row _ r w Hnd Hr Hw E) in Es. congruence.
  - intros w Hw E. apply filter_In in Hw.
    now rewrite (unique_id_row _ w r Hnd (proj1 Hw) Hr E).
Qed.

Lemma reduce_multiplier_le (stats : WeeklyStats) :
  type (getAdjustmentRecommendation stats) = reduce ->
  (volumeMultiplier (getAdjustmentRecommendation stats) <= 0.85)%Q.
Proof.
  unfold getAdjustmentRecommendation.
  repeat match goal with
         | |- context [if ?c then _ else _] => destruct c
         end; simpl; intros H; try discriminate H; discriminate.
Qed.

(** ** Doubles *)

Lemma roundHalfEven_spec (x : Q) :
  (x - (1 # 2) <= inject_Z (roundHalfEven x) <= x + (1 # 2))%Q.
Proof.
  unfold roundHalfEven. cbv zeta.
  pose proof (Qfloor_le x) as Hlo. pose proof (Qlt_floor x) as Hhi.
  rewrite inject_Z_plus in Hhi. change (inject_Z 1) with 1%Q in Hhi.
  destruct (x - inject_Z (Qfloor x) ?= 1 # 2)%Q eqn:E.
  - apply Qeq_alt in E.
    destruct (Z.even (Qfloor x));
      [|rewrite inject_Z_plus; change (inject_Z 1) with 1%Q]; lra.
  - apply Qlt_alt in E. lra.
  - apply Qgt_alt in E. rewrite inject_Z_plus. change (inject_Z 1) with 1%Q. lra.
Qed.

Lemma two_power_pos (e : Z) : (0 < 2 ^ e)%Q.
Proof. apply Qpower_0_lt. reflexivity. Qed.

Lemma binade_lower (x : Q) : (0 < x)%Q -> (2 ^ (binade x + 52) <= x)%Q.
Proof.
  intros Hx. unfold binade. cbv zeta.
  set (n := Qnum x). set (d := Qden x).
  assert (0 < n) as Hn.
  { unfold Qlt in Hx. cbn in Hx. fold n in Hx. lia. }
  set (k := Z.log2 n - Z.log2 (Zpos d)).
  destruct (Qle_bool (2 ^ k) x) eqn:E.
  - apply Qle_bool_iff in E. replace (k - 52 + 52) with k by lia. exact E.
  - replace (k - 53 + 52) with (k - 1) by lia.
    destruct (Z.log2_spec n Hn) as [Hlo _].
    destruct (Z.log2_spec (Zpos d) (eq_refl : 0 < Zpos d)) as [_ Hhi].
    pose proof (Z.log2_nonneg n) as Ha. pose proof (Z.log2_nonneg (Zpos d)) as Hb.
    set (a := Z.log2 n) in *. set (b := Z.log2 (Zpos d)) in *.
    assert (2 ^ (k - 1) * 2 ^ (b + 1) == 2 ^ a)%Q as Hpow.
    { rewrite <- Qpower_plus by discriminate. unfold k. fold a b.
      replace (a - b - 1 + (b + 1)) with a by lia. reflexivity. }
    assert (inject_Z (Zpos d) <= 2 ^ (b + 1))%Q as Hd.
    { change 2%Q with (inject_Z 2). rewrite <- Zpower_Qpower by lia.
      rewrite <- Zle_Qle. unfold Z.succ in Hhi. lia. }
    assert (2 ^ a <= inject_Z n)%Q as Hnq.
    { change 2%Q with (inject_Z 2). rewrite <- Zpower_Qpower by lia.
      rewrite <- Zle_Qle. exact Hlo. }
    assert (x == inject_Z n / inject_Z (Zpos d))%Q as Hxq.
    { destruct x as [xn xd]. apply Qmake_Qdiv. }
    rewrite Hxq. apply Qle_shift_div_l.
    + change 0%Q with (inject_Z 0). rewrite <- Zlt_Qlt. reflexivity.
    + pose proof (two_power_pos (k - 1)) as Hp.
      set (p := (2 ^ (k - 1))%Q) in *. set (q := (2 ^ (b + 1))%Q) in *.
      set (D := inject_Z (Zpos d)) in *.
      assert (p * D <= p * q)%Q by (apply Qmult_le_l; [exact Hp | exact Hd]).
      lra.
Qed.

(** The nearest double lies within half a unit of the last place, a
    relative error of at most [2 ^ -53]. *)
Lemma nearest_error (x : Q) :
  (0 < x)%Q ->
  (x - x * (1 # 9007199254740992) <= nearest x
   <= x + x * (1 # 9007199254740992))%Q.
Proof.
  intros Hx. unfold nearest. cbv zeta.
  pose proof (binade_lower x Hx) as Hlow.
  set (e := binade x) in *.
  pose proof (roundHalfEven_spec (x / 2 ^ e)) as Hr.
  set (r := inject_Z (roundHalfEven (x / 2 ^ e))) in *.
  pose proof (two_power_pos e) as Hp.
  assert (2 ^ (e + 52) == 2 ^ e * 4503599627370496)%Q as Hsplit.
  { rewrite Qpower_plus by discriminate. reflexivity. }
  rewrite Hsplit in Hlow.
  assert (x / 2 ^ e * 2 ^ e == x)%Q as Hs by (field; lra).
  set (p := (2 ^ e)%Q) in *. set (s := (x / p)%Q) in *.
  assert ((s - (1 # 2)) * p <= r * p)%Q as H1 by (apply Qmult_le_compat_r; lra).
  assert (r * p <= (s + (1 # 2)) * p)%Q as H2 by (apply Qmult_le_compat_r; lra).
  split; lra.
Qed.

Lemma double_error (x : Q) :
  (0 <= x)%Q ->
  (x - x * (1 # 9007199254740992) <= double x
   <= x + x * (1 # 9007199254740992))%Q.
Proof.
  intros Hx. unfold double. cbv zeta.
  pose proof (Qred_correct x) as Hred.
  destruct (Qnum (Qred x)) eqn:En.
  - assert (Qred x == 0)%Q as Hz by (unfold Qeq; cbn; rewrite En; reflexivity).
    rewrite Hz in Hred. lra.
  - assert (0 < Qred x)%Q as Hpos by (unfold Qlt; cbn; rewrite En; reflexivity).
    pose proof (nearest_error (Qred x) Hpos) as H.
    set (y := nearest (Qred x)) in *. set (z := Qred x) in *. lra.
  - assert (Qred x < 0)%Q as Hneg by (unfold Qlt; cbn; rewrite En; reflexivity).
    lra.
Qed.

Lemma double_comp (x y : Q) : (x == y)%Q -> double x = double y.
Proof. intros H. unfold double. now rewrite (Qred_complete x y H). Qed.

Lemma jsMul_comp (a a' b b' : Q) :
  (a == a')%Q -> (b == b')%Q -> jsMul a b = jsMul a' b'.
Proof.
  intros Ha Hb. unfold jsMul.
  rewrite (double_comp a a' Ha), (double_comp b b' Hb). reflexivity.
Qed.

Lemma double_nonneg (x : Q) : (0 <= x)%Q -> (0 <= double x)%Q.
Proof. intros H. pose proof (double_error x H). lra. Qed.

(** The product the code computes lies within three roundings of the
    exact one. *)
Lemma jsMul_error (a b : Q) :
  (0 <= a)%Q -> (0 <= b)%Q ->
  (a * b * (999 # 1000) <= jsMul a b <= a * b * (1001 # 1000))%Q.
Proof.
  intros Ha Hb. unfold jsMul.
  pose proof (double_error a Ha) as Ea. pose proof (double_error b Hb) as Eb.
  pose proof (double_nonneg a Ha) as Na. pose proof (double_nonneg b Hb) as Nb.
  assert (0 <= double a * double b)%Q as Hab by (apply Qmult_le_0_compat; assumption).
  pose proof (double_error _ Hab) as Ep.
  set (x := double a) in *. set (y := double b) in *. set (z := double (x * y)) in *.
  split; nra.
Qed.

Lemma Math_round_comp (x y : Q) : (x == y)%Q -> Math_round x = Math_round y.
Proof.
  intros H. unfold Math_round. f_equal. apply Qfloor_comp. now rewrite H.
Qed.

(** [Math.round] gives a whole number at most half a unit away. *)
Lemma Math_round_near (x : Q) :
  exists m : Z,
    Math_round x = inject_Z m
    /\ (x - (501 # 1000) <= inject_Z m <= x + (501 # 1000))%Q.
Proof.
  exists (Qfloor (x + (1 # 2))). split; [reflexivity|].
  pose proof (Qfloor_le (x + (1 # 2))) as Hle.
  pose proof (Qlt_floor (x + (1 # 2))) as Hlt.
  rewrite inject_Z_plus in Hlt. change (inject_Z 1) with 1%Q in Hlt.
  split; lra.
Qed.

(** What an applied adjustment is made of. *)
Lemma applied_adjustment (now : Date) (userId : Z) (db db' : DB)
    (rec : AdjustmentRecommendation) (plan : TrainingPlan.t) :
  applyWeeklyAdjustment now userId db = (mkResult true (Some rec), db') ->
  activePlan userId db = Some plan ->
  exists stats currentWorkout,
    analyzeWeeklyPerformance now userId 1 db = Some stats
    /\ rec = getAdjustmentRecommendation stats
    /\ type rec <> maintain
    /\ currentWorkoutOf (TrainingPlan.id plan) (startOfWeek now) db = Some currentWorkout
    /\ db' =
       insertWeeklyAdjustment userId (TrainingPlan.id plan)
         (Workout.week_number currentWorkout) (type rec) (reason rec)
         (fold_left
            (fun db w => updateStmt (newDurationOf rec w) (Workout.id w) db)
            (filter (isFuture (TrainingPlan.id plan) (startOfWeek now)) (workouts db))
            db).
Proof.
  unfold applyWeeklyAdjustment. intros H Hp. rewrite Hp in H.
  destruct (analyzeWeeklyPerformance now userId 1 db) as [stats|]; [|discriminate].
  destruct (isMaintain (type (getAdjustmentRecommendation stats))) eqn:Em;
    [discriminate|].
  destruct (currentWorkoutOf (TrainingPlan.id plan) (startOfWeek now) db)
    as [cw|]; [|discriminate].
  injection H as Hr Hdb. subst rec.
  exists stats, cw. repeat split; auto.
  intros E. rewrite E in Em. discriminate.
Qed.

(** C5. When [applyWeeklyAdjustment] applies a reduce recommendation,
    every workout of the active plan that is not completed and dated on
    or after the start of the current week is rewritten in place with a
    new duration: round(old * max(volumeMultiplier, 0.85)) if it carries
    the key-workout or the long-run flag, which is at least
    round(old * 0.85), and round(old * volumeMultiplier) otherwise; the
    products are the double products the code rounds (45 * 0.7 is
    31.499999999999996 and rounds to 31). *)
Theorem reduce_protects_key_workouts
    (now : Date) (userId : Z) (db db' : DB)
    (rec : AdjustmentRecommendation) (plan : TrainingPlan.t) (w : Workout.t) :
  NoDup (map Workout.id (workouts db)) ->
  applyWeeklyAdjustment now userId db = (mkResult true (Some rec), db') ->
  type rec = reduce ->
  activePlan userId db = Some plan ->
  In w (workouts db) ->
  Workout.plan_id w = TrainingPlan.id plan ->
  startOfWeek now <= Workout.date w ->
  Workout.completed w = 0 ->
  exists newDuration,
    In (Workout.set_duration_minutes newDuration w) (workouts db')
    /\ (Workout.is_key_workout w <> 0 \/ Workout.is_long_run w <> 0 ->
        newDuration =
          Math_round (jsMul (Workout.duration_minutes w)
                        (Qmax (volumeMultiplier rec) 0.85))
        /\ (Math_round (jsMul (Workout.duration_minutes w) 0.85) <= newDuration)%Q)
    /\ (Workout.is_key_workout w = 0 /\ Workout.is_long_run w = 0 ->
        newDuration =
          Math_round (jsMul (Workout.duration_minutes w) (volumeMultiplier rec)))
    /\ Math_round (jsMul 45 0.7) = 31%Q.
Proof.
  intros Hnd Happ Hred Hplan Hin Hpid Hdate Hc.
  destruct (applied_adjustment _ _ _ _ _ _ Happ Hplan)
    as (stats & cw & Hst & Hrec & _ & _ & Hdb).
  exists (newDurationOf rec w). split; [|split; [|split]].
  - subst db'. rewrite update_loop_spec by exact Hnd. simpl.
    apply in_map_iff. exists w. split; [|exact Hin].
    unfold isFuture. rewrite Hpid, Z.eqb_refl, Hc.
    destruct (Z.leb_spec (startOfWeek now) (Workout.date w)); [reflexivity|lia].
  - intros Hflag. unfold newDurationOf, effectiveMultiplier, truthy.
    rewrite Hred. simpl isReduce. rewrite andb_true_r.
    assert ((negb (Workout.is_key_workout w =? 0)
             || negb (Workout.is_long_run w =? 0)) = true) as ->.
    { destruct (Z.eqb_spec (Workout.is_key_workout w) 0),
               (Z.eqb_spec (Workout.is_long_run w) 0); simpl; auto.
      destruct Hflag; contradiction. }
    split; [reflexivity|].
    apply Qle_lteq; right.
    assert (jsMul (Workout.duration_minutes w) 0.85 =
            jsMul (Workout.duration_minutes w) (Qmax (volumeMultiplier rec) 0.85))
      as ->; [|reflexivity].
    apply jsMul_comp; [reflexivity|].
    rewrite Q.max_r by (subst rec; now apply reduce_multiplier_le).
    reflexivity.
  - intros [Hk Hl]. unfold newDurationOf, effectiveMultiplier, truthy.
    rewrite Hk, Hl. reflexivity.
  - vm_compute. reflexivity.
Qed.

Lemma reduce_protects_key_workouts_witness :
  (exists newDuration,
     In (Workout.set_duration_minutes newDuration
           (Workout.mk 2 1 7 12 2 "long" "Long Run" "long" 60%Q "low" "shorten" 1 1 0))
        (workouts (snd (applyWeeklyAdjustment 9 7 reduce_store)))
     /\ (1 <> 0 \/ 1 <> 0 ->
         newDuration = Math_round (jsMul 60 (Qmax 0.7 0.85))
         /\ (Math_round (jsMul 60 0.85) <= newDuration)%Q)
     /\ (1 = 0 /\ 1 = 0 -> newDuration = Math_round (jsMul 60 0.7))
     /\ Math_round (jsMul 45 0.7) = 31%Q)
  /\ (exists newDuration,
        In (Workout.set_duration_minutes newDuration
              (Workout.mk 3 1 7 10 2 "easy" "Easy Run" "easy" 40%Q "low" "rest" 0 0 0))
           (workouts (snd (applyWeeklyAdjustment 9 7 reduce_store)))
        /\ (0 <> 0 \/ 0 <> 0 ->
            newDuration = Math_round (jsMul 40 (Qmax 0.7 0.85))
            /\ (Math_round (jsMul 40 0.85) <= newDuration)%Q)
        /\ (0 = 0 /\ 0 = 0 -> newDuration = Math_round (jsMul 40 0.7))
        /\ Math_round (jsMul 45 0.7) = 31%Q).
Proof.
  split.
  - apply (reduce_protects_key_workouts 9 7 reduce_store
             (snd (applyWeeklyAdjustment 9 7 reduce_store))
             (mkRec reduce "Pain levels are elevated. Reducing training to aid recovery."
                    0.7%Q (-1))
             (TrainingPlan.mk 1 1 7 0 60)
             (Workout.mk 2 1 7 12 2 "long" "Long Run" "long" 60%Q "low" "shorten" 1 1 0)).
    + simpl. repeat constructor; simpl; intuition discriminate.
    + vm_compute. reflexivity.
    + reflexivity.
    + reflexivity.
    + simpl. auto.
    + reflexivity.
    + vm_compute. discriminate.
    + reflexivity.
  - apply (reduce_protects_key_workouts 9 7 reduce_store
             (snd (applyWeeklyAdjustment 9 7 reduce_store))
             (mkRec reduce "Pain levels are elevated. Reducing training to aid recovery."
                    0.7%Q (-1))
             (TrainingPlan.mk 1 1 7 0 60)
             (Workout.mk 3 1 7 10 2 "easy" "Easy Run" "easy" 40%Q "low" "rest" 0 0 0)).
    + simpl. repeat constructor; simpl; intuition discriminate.
    + vm_compute. reflexivity.
    + reflexivity.
    + reflexivity.
    + simpl. auto.
    + reflexivity.
    + vm_compute. discriminate.
    + reflexivity.
Defined.

Lemma insertRows_eq (vs : list Workout.t) : forall db,
  fold_left (fun db v => insertRow v db) vs db =
  mkDB (goals db) (training_plans db)
       (workouts db ++ storedFrom (seq_workouts db) vs)
       (run_logs db) (weekly_adjustments db)
       (seq_training_plans db) (seq_workouts db + len vs) (seq_weekly_adjustments db).
Proof.
  induction vs as [|v vs IH]; intros db.
  - simpl. rewrite app_nil_r, Z.add_0_r. destruct db; reflexivity.
  - cbn [fold_left storedFrom]. rewrite IH.
    unfold insertRow, insertWorkout; cbn [goals training_plans workouts run_logs
      weekly_adjustments seq_training_plans seq_workouts seq_weekly_adjustments].
    rewrite <- app_assoc. cbn [app]. f_equal.
    unfold len. cbn [List.length]. rewrite Nat2Z.inj_succ. lia.
Qed.

Lemma fold_left_through_map {A B S : Type} (f : S -> B -> S) (g : A -> B) (l : list A) :
  forall s, fold_left f (map g l) s = fold_left (fun s x => f s (g x)) l s.
Proof. induction l as [|x l IH]; intros s; simpl; [reflexivity | apply IH]. Qed.

Lemma storedFrom_Forall2 (vs : list Workout.t) : forall k,
  Forall2 (fun v r => exists rowid, r = stored rowid v) vs (storedFrom k vs).
Proof.
  induction vs as [|v vs IH]; intros k; simpl; constructor; eauto.
Qed.

Lemma Forall2_filter {A B : Type} (R : A -> B -> Prop) (p : A -> bool) (q : B -> bool)
    (l1 : list A) (l2 : list B) :
  (forall a b, R a b -> p a = q b) ->
  Forall2 R l1 l2 -> Forall2 R (filter p l1) (filter q l2).
Proof.
  intros Hpq H. induction H as [|a b l1 l2 Hab H IH]; simpl; [constructor|].
  rewrite (Hpq a b Hab). destruct (q b); [constructor|]; assumption.
Qed.

Lemma Forall2_length_eq {A B : Type} (R : A -> B -> Prop) (l1 : list A) (l2 : list B) :
  Forall2 R l1 l2 -> List.length l1 = List.length l2.
Proof. induction 1; simpl; congruence. Qed.

Lemma filter_none {A : Type} (p : A -> bool) (l : list A) :
  (forall x, In x l -> p x = false) -> filter p l = [].
Proof.
  induction l as [|x l IH]; simpl; intros H; [reflexivity|].
  rewrite (H x (or_introl eq_refl)). apply IH. intros y Hy. apply H. now right.
Qed.

Lemma filter_all {A : Type} (p : A -> bool) (l : list A) :
  (forall x, In x l -> p x = true) -> filter p l = l.
Proof.
  induction l as [|x l IH]; simpl; intros H; [reflexivity|].
  rewrite (H x (or_introl eq_refl)). f_equal. apply IH. intros y Hy. apply H. now right.
Qed.

(** ** WeekRescheduler *)

(** The counting loop over [remainingDays[i]] and [easyRuns[i]] pairs the
    two arrays up to the shorter one. *)
Lemma index_loop_combine {S A B : Type} (f : A -> B -> S -> S) :
  forall (es : list A) (ds : list B) (s : S),
    fold_left
      (fun s i => match nth_error ds i, nth_error es i with
                  | Some d, Some e => f e d s
                  | _, _ => s
                  end)
      (seq 0 (Z.to_nat (Z.min (len es) (len ds)))) s =
    fold_left (fun s p => f (fst p) (snd p) s) (combine es ds) s.
Proof.
  intros es ds. unfold len.
  replace (Z.to_nat (Z.min (Z.of_nat (List.length es)) (Z.of_nat (List.length ds))))
    with (Nat.min (List.length es) (List.length ds)) by lia.
  revert ds. induction es as [|e es IH]; intros ds s; [reflexivity|].
  destruct ds as [|d ds]; [reflexivity|].
  cbn [List.length Nat.min seq fold_left nth_error combine fst snd].
  rewrite <- seq_shift, <- IH.
  generalize (f e d s). generalize (seq 0 (Nat.min (List.length es) (List.length ds))).
  intros l. induction l as [|i l IHl]; intros s'; simpl; [reflexivity|]. apply IHl.
Qed.

Lemma rescheduleWeek_plan (planId userId weekNumber : Z) (days : list string)
    (db : DB) (first : Workout.t) (rest : list Workout.t) :
  filter (inWeek planId userId weekNumber) (workouts db) = first :: rest ->
  dayNumbersOf days <> [] ->
  rescheduleWeek planId userId weekNumber days db =
  fold_left (fun db v => insertRow v db)
    (reschedulePlan planId userId weekNumber (startOfWeek (Workout.date first))
       (first :: rest) (dayNumbersOf days))
    (deleteWeek planId userId weekNumber db).
Proof.
  intros Hold Hdays. unfold rescheduleWeek. rewrite Hold.
  destruct (len (dayNumbersOf days) =? 0) eqn:E;
    [apply len_zero in E; contradiction|].
  unfold reschedulePlan, easySlots, remainingDaysOf, keySlot, longSlot, longRunDayOf.
  rewrite !fold_left_app.
  generalize (first :: rest) as old. intros old.
  destruct (find isLongRunRow old) as [lr|];
    destruct (find isKeyRow old) as [kw|];
    cbn [map snd fst app];
    try destruct (1 <? len (dayNumbersOf days));
    unfold keyDayOf; cbn [map snd fst app];
    try destruct (if 0 <? len (filter (notAdjacent _) _) then _ else _);
    cbn [map snd fst app fold_left];
    rewrite index_loop_combine, fold_left_through_map; reflexivity.
Qed.

Lemma DAY_MAP_range (k : string) (d : Z) : DAY_MAP k = Some d -> 0 <= d <= 6.
Proof.
  unfold DAY_MAP.
  repeat match goal with
         | |- context [if ?c then _ else _] => destruct c
         end; intros H; inversion H; lia.
Qed.

Lemma filter_defined_In {A : Type} (l : list (option A)) (x : A) :
  In x (filter_defined l) <-> In (Some x) l.
Proof.
  induction l as [|[y|] l IH]; simpl; [tauto| |].
  - rewrite IH. split; intros [H|H]; auto; left; congruence.
  - rewrite IH. split; [auto|]. intros [H|H]; [discriminate | exact H].
Qed.

Lemma dayNumbers_range (days : list string) (d : Z) :
  In d (dayNumbersOf days) -> 0 <= d <= 6.
Proof.
  unfold dayNumbersOf. rewrite filter_defined_In, in_map_iff.
  intros (k & Hk & _). now apply DAY_MAP_range in Hk.
Qed.

Lemma Math_max_fold_spec (l : list Z) : forall x,
  (In (fold_left Z.max l x) (x :: l))
  /\ (forall y, In y (x :: l) -> y <= fold_left Z.max l x).
Proof.
  induction l as [|a l IH]; intros x; simpl.
  - split; [auto|]. intros y [->|[]]. lia.
  - destruct (IH (Z.max x a)) as [Hin Hge]. split.
    + destruct Hin as [H|H]; [|auto].
      rewrite <- H. destruct (Z.max_spec x a) as [[_ ->]|[_ ->]]; auto.
    + intros y Hy.
      assert (Z.max x a <= fold_left Z.max l (Z.max x a)) by (apply Hge; now left).
      destruct Hy as [->|[->|Hy]]; [lia | lia |].
      apply Hge. now right.
Qed.

Lemma Math_max_In (l : list Z) : l <> [] -> In (Math_max l) l.
Proof.
  destruct l as [|x l]; [congruence|]. intros _. apply Math_max_fold_spec.
Qed.

Lemma Math_max_ge (l : list Z) (y : Z) : In y l -> y <= Math_max l.
Proof.
  destruct l as [|x l]; [contradiction|]. apply Math_max_fold_spec.
Qed.

Lemma len_pos {A : Type} (l : list A) : (0 <? len l) = true <-> l <> [].
Proof.
  unfold len. destruct l as [|x l]; simpl; split; intros H.
  - discriminate H.
  - now contradiction H.
  - discriminate.
  - reflexivity.
Qed.

Lemma longRunDayOf_In (dayNumbers : list Z) :
  dayNumbers <> [] -> In (longRunDayOf dayNumbers) dayNumbers.
Proof.
  intros H. unfold longRunDayOf.
  destruct (0 <? len (filter isWeekendDay dayNumbers)) eqn:E.
  - apply len_pos, Math_max_In in E. now apply filter_In in E.
  - now apply Math_max_In.
Qed.

(** The date computed for day number [d] of the week falls on week day
    [d], in the week that starts at [weekStart]. *)
Lemma getDay_dayOffset (x : Date) (d : Z) :
  0 <= d <= 6 ->
  getDay (addDays (startOfWeek x) (dayOffset d)) = d
  /\ startOfWeek (addDays (startOfWeek x) (dayOffset d)) = startOfWeek x.
Proof.
  intros Hd. unfold getDay, addDays, startOfWeek, dayOffset.
  assert (x mod 7 = x - 7 * (x / 7)) as Hx by (rewrite Z.mod_eq; lia).
  assert (forall o, 0 <= o <= 6 -> (x - x mod 7 + o) mod 7 = o) as Hm.
  { intros o Ho. rewrite Hx.
    replace (x - (x - 7 * (x / 7)) + o) with (o + (x / 7) * 7) by lia.
    rewrite Z.mod_add by lia. apply Z.mod_small. lia. }
  destruct (Z.eqb_spec d 0) as [->|Hn].
  - rewrite Hm by lia. split; [reflexivity | lia].
  - rewrite Hm by lia. split; [|lia].
    replace (d - 1 + 1) with d by lia. apply Z.mod_small. lia.
Qed.

Lemma combine_fst {A B : Type} (a : list A) : forall (b : list B),
  map fst (combine a b) = firstn (Nat.min (length a) (length b)) a.
Proof.
  induction a as [|x a IH]; intros [|y b]; simpl; try reflexivity.
  now rewrite IH.
Qed.

Lemma combine_snd {A B : Type} (a : list A) : forall (b : list B),
  map snd (combine a b) = firstn (Nat.min (length a) (length b)) b.
Proof.
  induction a as [|x a IH]; intros [|y b]; simpl; try reflexivity.
  now rewrite IH.
Qed.

Lemma combine_len {A B : Type} (a : list A) : forall (b : list B),
  length (combine a b) = Nat.min (length a) (length b).
Proof.
  induction a as [|x a IH]; intros [|y b]; simpl; try reflexivity.
  now rewrite IH.
Qed.

Lemma Forall2_map_eq {A B C : Type} (R : A -> B -> Prop) (f : A -> C) (g : B -> C)
    (l1 : list A) (l2 : list B) :
  (forall a b, R a b -> f a = g b) -> Forall2 R l1 l2 -> map f l1 = map g l2.
Proof.
  intros H F. induction F as [|a b l1 l2 Hab F IH]; simpl; [reflexivity|].
  now rewrite (H a b Hab), IH.
Qed.

Lemma Forall2_through_map {A B C : Type} (P : C -> B -> Prop) (f : A -> C)
    (l1 : list A) (l2 : list B) :
  Forall2 (fun c b => P c b) (map f l1) l2 -> Forall2 (fun a b => P (f a) b) l1 l2.
Proof.
  revert l2. induction l1 as [|a l1 IH]; intros l2 H; inversion H; subst;
    constructor; auto.
Qed.

Lemma Forall2_weaken {A B : Type} (P Q : A -> B -> Prop) (l1 : list A) (l2 : list B) :
  (forall a b, In a l1 -> P a b -> Q a b) -> Forall2 P l1 l2 -> Forall2 Q l1 l2.
Proof.
  intros H F. induction F as [|a b l1 l2 Hab F IH]; constructor.
  - apply H; [now left | exact Hab].
  - apply IH. intros a' b' Hin. apply H. now right.
Qed.

Lemma storedFrom_In (vs : list Workout.t) (r : Workout.t) : forall k,
  In r (storedFrom k vs) -> exists v rowid, In v vs /\ r = stored rowid v.
Proof.
  induction vs as [|v vs IH]; intros k; simpl; [contradiction|].
  intros [<-|H].
  - exists v, (k + 1). auto.
  - destruct (IH _ H) as (v' & i & Hv & ->). exists v', i. auto.
Qed.

Section RescheduleFacts.
Variables planId userId weekNumber : Z.
Variable days : list string.
Variable db : DB.

Local Abbreviation old := (filter (inWeek planId userId weekNumber) (workouts db)).
Local Abbreviation db' := (rescheduleWeek planId userId weekNumber days db).
Local Abbreviation D := (dayNumbersOf days).


Lemma slot_days (s : Workout.t * Z) :
  D <> [] ->
  In s (longSlot old D) \/ In s (keySlot old D) \/ In s (easySlots old D) ->
  In (snd s) D.
Proof.
  intros HD. unfold longSlot, keySlot, easySlots, remainingDaysOf.
  intros [H|[H|H]].
  - destruct (find isLongRunRow old); [|contradiction].
    destruct H as [<-|[]]. now apply longRunDayOf_In.
  - destruct (find isKeyRow old); [|contradiction].
    destruct (1 <? len D); [|contradiction].
    destruct (keyDayOf D _) as [kd|] eqn:E; [|contradiction].
    destruct H as [<-|[]]. simpl. unfold keyDayOf in E.
    destruct (0 <? len _) in E; apply nth_error_In in E;
      repeat (apply filter_In in E; destruct E as [E _]); exact E.
  - destruct s as [e d]. apply in_combine_r in H.
    now apply filter_In in H.
Qed.

(** The rows of the week after a reschedule, in insertion order. *)
Lemma week_after_reschedule (first : Workout.t) (rest : list Workout.t) :
  old = first :: rest -> D <> [] ->
  filter (inWeek planId userId weekNumber) (workouts db') =
  storedFrom (seq_workouts db)
    (reschedulePlan planId userId weekNumber (startOfWeek (Workout.date first)) old D).
Proof.
  intros Hold HD.
  rewrite (rescheduleWeek_plan _ _ _ _ _ first rest Hold HD), insertRows_eq.
  cbn [workouts deleteWeek set_workouts seq_workouts].
  rewrite filter_app, filter_none, <- Hold; cbn [app].
  - apply filter_all. intros r Hr.
    apply storedFrom_In in Hr. destruct Hr as (v & i & Hv & ->).
    unfold reschedulePlan in Hv. rewrite !in_app_iff, !in_map_iff in Hv.
    destruct Hv as [(s & <- & _)|[(s & <- & _)|(s & <- & _)]];
      unfold inWeek; simpl; now rewrite !Z.eqb_refl.
  - intros r Hr. apply filter_In in Hr. destruct Hr as [_ Hr].
    now apply negb_true_iff in Hr.
Qed.
End RescheduleFacts.

Lemma reschedule_empty_week (planId userId weekNumber : Z) (days : list string) (db : DB) :
  filter (inWeek planId userId weekNumber) (workouts db) = [] ->
  rescheduleWeek planId userId weekNumber days db = db.
Proof. intros H. unfold rescheduleWeek. now rewrite H. Qed.

Lemma reschedule_no_days (planId userId weekNumber : Z) (days : list string) (db : DB) :
  filter (inWeek planId userId weekNumber) (workouts db) <> [] ->
  dayNumbersOf days = [] ->
  filter (inWeek planId userId weekNumber)
    (workouts (rescheduleWeek planId userId weekNumber days db)) = [].
Proof.
  intros Hold HD. unfold rescheduleWeek.
  destruct (filter (inWeek planId userId weekNumber) (workouts db)) as [|first rest];
    [congruence|].
  rewrite HD. cbn [len List.length Z.of_nat Z.eqb deleteWeek set_workouts workouts].
  apply filter_none. intros r Hr. apply filter_In in Hr.
  destruct Hr as [_ Hr]. now apply negb_true_iff in Hr.
Qed.



Section EasyRuns.
Variables planId userId weekNumber : Z.
Variable days : list string.
Variable db : DB.
Variable first : Workout.t.
Variable rest : list Workout.t.

Local Abbreviation old := (filter (inWeek planId userId weekNumber) (workouts db)).
Local Abbreviation new :=
  (filter (inWeek planId userId weekNumber)
     (workouts (rescheduleWeek planId userId weekNumber days db))).
Local Abbreviation D := (dayNumbersOf days).
Local Abbreviation weekStart := (startOfWeek (Workout.date first)).
Local Abbreviation mv := (moved planId userId weekNumber weekStart).

Hypothesis Hold : old = first :: rest.
Hypothesis HD : D <> [].

Lemma easy_rows_linked :
  Forall2 linked (map (mv 0 0) (easySlots old D)) (filter isEasyRow new).
Proof.
  assert (Forall2 linked
            (filter isEasyRow
               (reschedulePlan planId userId weekNumber weekStart old D))
            (filter isEasyRow new)) as H.
  { apply Forall2_filter.
    - intros v r (i & ->). reflexivity.
    - rewrite (week_after_reschedule planId userId weekNumber days db first rest Hold HD).
      apply storedFrom_Forall2. }
  unfold reschedulePlan in H. rewrite !filter_app in H.
  rewrite (filter_none isEasyRow (map _ (longSlot _ _))) in H
    by (intros x Hx; apply in_map_iff in Hx; destruct Hx as (s & <- & _); reflexivity).
  rewrite (filter_none isEasyRow (map _ (keySlot _ _))) in H
    by (intros x Hx; apply in_map_iff in Hx; destruct Hx as (s & <- & _); reflexivity).
  rewrite (filter_all _ (map _ (easySlots _ _))) in H
    by (intros x Hx; apply in_map_iff in Hx; destruct Hx as (s & <- & _); reflexivity).
  exact H.
Qed.

Lemma placed_rows_linked :
  Forall2 linked
    (map (mv 1 1) (longSlot old D) ++ map (mv 1 0) (keySlot old D))
    (filter (fun r => negb (isEasyRow r)) new).
Proof.
  assert (Forall2 linked
            (filter (fun r => negb (isEasyRow r))
               (reschedulePlan planId userId weekNumber weekStart old D))
            (filter (fun r => negb (isEasyRow r)) new)) as H.
  { apply Forall2_filter.
    - intros v r (i & ->). reflexivity.
    - rewrite (week_after_reschedule planId userId weekNumber days db first rest Hold HD).
      apply storedFrom_Forall2. }
  unfold reschedulePlan in H. rewrite !filter_app in H.
  rewrite (filter_all _ (map _ (longSlot _ _))) in H
    by (intros x Hx; apply in_map_iff in Hx; destruct Hx as (s & <- & _); reflexivity).
  rewrite (filter_all _ (map _ (keySlot _ _))) in H
    by (intros x Hx; apply in_map_iff in Hx; destruct Hx as (s & <- & _); reflexivity).
  rewrite (filter_none _ (map _ (easySlots _ _))), app_nil_r in H
    by (intros x Hx; apply in_map_iff in Hx; destruct Hx as (s & <- & _); reflexivity).
  exact H.
Qed.

Lemma slot_onDay (k l : Z) (s : Workout.t * Z) (r : Workout.t) :
  In s (longSlot old D) \/ In s (keySlot old D) \/ In s (easySlots old D) ->
  linked (mv k l s) r -> onDay r = snd s.
Proof.
  intros Hs (i & ->). unfold onDay, stored, moved. simpl.
  apply getDay_dayOffset. apply (dayNumbers_range days).
  apply (slot_days planId userId weekNumber days db s HD Hs).
Qed.

Lemma linked_days (k l : Z) (slots : list (Workout.t * Z)) (rows : list Workout.t) :
  (forall s, In s slots ->
     In s (longSlot old D) \/ In s (keySlot old D) \/ In s (easySlots old D)) ->
  Forall2 linked (map (mv k l) slots) rows ->
  map onDay rows = map snd slots.
Proof.
  intros Hs H. apply Forall2_through_map in H. symmetry.
  apply (Forall2_map_eq (fun s r => In s slots /\ linked (mv k l s) r)).
  - intros s r [Hin Hl]. symmetry. apply (slot_onDay k l); auto.
  - clear Hs. induction H as [|s r sl rl Hsr H IH]; constructor.
    + split; [now left | exact Hsr].
    + eapply Forall2_weaken; [|exact IH].
      intros a b _ [Ha Hb]. split; [now right | exact Hb].
Qed.

(** The days the re-created long run and key workout take are the
    [usedDays] of the source. *)
Lemma occupied_usedDays :
  occupiedDays (filter (fun r => negb (isEasyRow r)) new) =
  map snd (longSlot old D ++ keySlot old D).
Proof.
  pose proof placed_rows_linked as H.
  apply Forall2_app_inv_l in H. destruct H as (rl & rk & Hl & Hk & ->).
  unfold occupiedDays. rewrite !map_app. f_equal.
  - apply (linked_days 1 1); auto.
  - apply (linked_days 1 0); auto.
Qed.

Lemma remaining_days_after :
  filter (fun d => negb (includes
                           (occupiedDays (filter (fun r => negb (isEasyRow r)) new)) d)) D
  = remainingDaysOf old D.
Proof. rewrite occupied_usedDays. reflexivity. Qed.

Lemma easy_count :
  length (filter isEasyRow new) =
  Nat.min (length (filter isEasyRow old)) (length (remainingDaysOf old D)).
Proof.
  rewrite <- (Forall2_length_eq _ _ _ easy_rows_linked), length_map.
  apply combine_len.
Qed.

Lemma easy_order :
  Forall2 sameContent
    (firstn (length (filter isEasyRow new)) (filter isEasyRow old))
    (filter isEasyRow new).
Proof.
  rewrite easy_count, <- combine_fst.
  pose proof easy_rows_linked as H. apply Forall2_through_map in H.
  fold (easySlots old D).
  induction H as [|s r sl rl (i & ->) H IH]; simpl; constructor; auto.
  repeat split.
Qed.

Lemma easy_days :
  map onDay (filter isEasyRow new) =
  firstn (length (filter isEasyRow new)) (remainingDaysOf old D).
Proof.
  rewrite easy_count, <- combine_snd. fold (easySlots old D).
  apply (linked_days 0 0); auto. apply easy_rows_linked.
Qed.
End EasyRuns.

Lemma filter_nil_none {A : Type} (p : A -> bool) (l : list A) :
  filter p l = [] -> forall x, In x l -> p x = false.
Proof.
  intros H x Hx. apply not_true_is_false. intros Hp.
  assert (In x (filter p l)) as Hin by (apply filter_In; now split).
  rewrite H in Hin. contradiction.
Qed.

(** After a reschedule the table holds the rows of the other weeks as
    they were, followed by the rows re-created for the week. *)
Lemma reschedule_table (planId userId weekNumber : Z) (days : list string) (db : DB) :
  workouts (rescheduleWeek planId userId weekNumber days db)
  = filter (fun w => negb (inWeek planId userId weekNumber w)) (workouts db)
    ++ filter (inWeek planId userId weekNumber)
         (workouts (rescheduleWeek planId userId weekNumber days db)).
Proof.
  destruct (filter (inWeek planId userId weekNumber) (workouts db))
    as [|first rest] eqn:Hold.
  { rewrite (reschedule_empty_week _ _ _ _ _ Hold), Hold, app_nil_r.
    symmetry. apply filter_all. intros x Hx.
    now rewrite (filter_nil_none _ _ Hold x Hx). }
  destruct (dayNumbersOf days) as [|d0 ds] eqn:HD.
  { rewrite reschedule_no_days by congruence. rewrite app_nil_r.
    unfold rescheduleWeek. rewrite Hold, HD. reflexivity. }
  assert (dayNumbersOf days <> []) as HD' by congruence.
  rewrite (week_after_reschedule planId userId weekNumber days db first rest Hold HD').
  rewrite (rescheduleWeek_plan _ _ _ _ _ first rest Hold HD'), insertRows_eq.
  rewrite Hold. reflexivity.
Qed.

(** C7. After [rescheduleWeek] onto day names none of which is, in lower
    case, a name every JavaScript object inherits, the week holds
    min(original easy workouts, permitted days left once the long run and
    the key workout are placed) easy workouts; they are the first
    original easy workouts in list order, placed on the first remaining
    days in order, so the excess easy workouts are deleted and not
    inserted again.  For long run Saturday, tempo Tuesday, easy Monday and
    Thursday rescheduled to Sunday and Wednesday, the long run goes to
    Sunday, the tempo run to Wednesday and no easy workout is left. *)
Theorem reschedule_easy_runs
    (planId userId weekNumber : Z) (days : list string) (db : DB) :
  noInheritedDay days = true ->
  (let old := filter (inWeek planId userId weekNumber) (workouts db) in
   let new := filter (inWeek planId userId weekNumber)
                (workouts (rescheduleWeek planId userId weekNumber days db)) in
   let easyOld := filter isEasyRow old in
   let easyNew := filter isEasyRow new in
   let placed := filter (fun r => negb (isEasyRow r)) new in
   let remaining :=
     filter (fun d => negb (includes (occupiedDays placed) d)) (dayNumbersOf days) in
   length easyNew = Nat.min (length easyOld) (length remaining)
   /\ Forall2 sameContent (firstn (length easyNew) easyOld) easyNew
   /\ map onDay easyNew = firstn (length easyNew) remaining
   /\ workouts (rescheduleWeek planId userId weekNumber days db)
      = filter (fun w => negb (inWeek planId userId weekNumber w)) (workouts db) ++ new)
  /\ (let new := filter (inWeek 1 7 1)
                   (workouts (rescheduleWeek 1 7 1 ["Sunday"; "Wednesday"]
                                reschedule_store)) in
      map (fun r => (Workout.workout_type r, onDay r)) new = [("long", 0); ("tempo", 3)]
      /\ filter isEasyRow new = []
      /\ length (filter isEasyRow (filter (inWeek 1 7 1) (workouts reschedule_store)))
         = 2%nat).
Proof.
  intros _.
  split; [|vm_compute; auto].
  cbv zeta.
  assert (forall A B C T : Prop, A /\ B /\ C -> T -> A /\ B /\ C /\ T) as Hand by tauto.
  apply Hand; [|apply reschedule_table]. clear Hand.
  destruct (filter (inWeek planId userId weekNumber) (workouts db))
    as [|first rest] eqn:Hold.
  { rewrite (reschedule_empty_week _ _ _ _ _ Hold), Hold. simpl.
    split; [reflexivity|]. split; [constructor | reflexivity]. }
  destruct (dayNumbersOf days) as [|d0 ds] eqn:HD.
  { rewrite reschedule_no_days by congruence. simpl.
    split; [now rewrite Nat.min_0_r|]. split; [constructor | reflexivity]. }
  assert (dayNumbersOf days <> []) as HD' by congruence.
  rewrite <- HD, <- Hold.
  rewrite (remaining_days_after planId userId weekNumber days db first rest Hold HD').
  split; [|split].
  - apply (easy_count planId userId weekNumber days db first rest Hold HD').
  - apply (easy_order planId userId weekNumber days db first rest Hold HD').
  - apply (easy_days planId userId weekNumber days db first rest Hold HD').
Qed.

Lemma reschedule_easy_runs_witness :
  noInheritedDay ["Sunday"; "Wednesday"] = true
  /\ (let old := filter (inWeek 1 7 1) (workouts reschedule_store) in
      let new := filter (inWeek 1 7 1)
                   (workouts (rescheduleWeek 1 7 1 ["Sunday"; "Wednesday"]
                                reschedule_store)) in
      let easyOld := filter isEasyRow old in
      let easyNew := filter isEasyRow new in
      let placed := filter (fun r => negb (isEasyRow r)) new in
      let remaining :=
        filter (fun d => negb (includes (occupiedDays placed) d))
          (dayNumbersOf ["Sunday"; "Wednesday"]) in
      length easyNew = Nat.min (length easyOld) (length remaining)
      /\ Forall2 sameContent (firstn (length easyNew) easyOld) easyNew
      /\ map onDay easyNew = firstn (length easyNew) remaining
      /\ workouts (rescheduleWeek 1 7 1 ["Sunday"; "Wednesday"] reschedule_store)
         = filter (fun w => negb (inWeek 1 7 1 w)) (workouts reschedule_store) ++ new).
Proof.
  split; [reflexivity|].
  apply (reschedule_easy_runs 1 7 1 ["Sunday"; "Wednesday"] reschedule_store).
  reflexivity.
Defined.

(** ** PlanGenerator *)

Lemma templates_found (experienceLevel : string) (phase : Phase) :
  let templates := getWorkoutTemplates experienceLevel phase in
  find (typeIs "long") templates = Some longRunTemplate
  /\ find (typeIs "easy") templates = Some easyTemplate
  /\ (String.eqb experienceLevel "beginner" = false ->
      find (fun t => typeIs "tempo" t || typeIs "interval" t) templates
      = Some tempoTemplate).
Proof.
  unfold getWorkoutTemplates.
  destruct (String.eqb experienceLevel "beginner"),
           (String.eqb experienceLevel "advanced"),
           (String.eqb experienceLevel "intermediate"), (phase_eqb phase peak);
    cbv zeta; repeat split; try reflexivity; intros H; discriminate H.
Qed.

Lemma easy_loop_rows (F : option DB -> Z -> option DB) (f : Z -> Workout.t)
    (easyDays : list Z) :
  (forall acc day, F acc day = deref db <- acc ;; Some (insertRow (f day) db)) ->
  forall db,
    fold_left F easyDays (Some db)
    = Some (fold_left (fun db v => insertRow v db) (map f easyDays) db).
Proof.
  intros H. induction easyDays as [|d l IH]; intros db; [reflexivity|].
  cbn [fold_left map]. rewrite H. cbn [bindo]. apply IH.
Qed.

Lemma generateWeekWorkouts_plan (planId userId weekNumber : Z) (weekStart : Date)
    (availableDays : list string) (weeklyVolume : Q) (experienceLevel : string)
    (maxWeekdayTime maxWeekendTime : Q) (phase : Phase) (db : DB) :
  generateWeekWorkouts planId userId weekNumber weekStart availableDays weeklyVolume
    experienceLevel maxWeekdayTime maxWeekendTime phase db
  = Some (fold_left (fun db v => insertRow v db)
            (weekPlan planId userId weekNumber weekStart availableDays weeklyVolume
               experienceLevel maxWeekdayTime maxWeekendTime) db).
Proof.
  unfold generateWeekWorkouts, weekPlan.
  destruct (templates_found experienceLevel phase) as (Hl & He & Hk).
  cbv zeta in Hl, He, Hk. rewrite Hl, He.
  fold (longRunDayOf (dayNumbersOf availableDays)).
  fold (keyWorkoutDayOf (dayNumbersOf availableDays)).
  destruct (dayNumbersOf availableDays) as [|d0 ds] eqn:HD; [reflexivity|].
  replace (len (d0 :: ds) =? 0) with false by (symmetry; apply not_true_is_false;
    intros H; apply len_zero in H; discriminate H).
  cbn [bindo].
  destruct (keyWorkoutDayOf (d0 :: ds)) as [kd|].
  - destruct (String.eqb experienceLevel "beginner") eqn:Eb; cbn [negb bindo fst snd].
    + destruct (0 <? len _) eqn:En.
      * cbn [fold_left app]. apply easy_loop_rows. reflexivity.
      * apply not_true_iff_false in En. rewrite len_pos in En.
        destruct (filter _ (d0 :: ds)); [reflexivity | exfalso; apply En; discriminate].
    + rewrite (Hk eq_refl). cbn [bindo fst snd].
      destruct (0 <? len _) eqn:En.
      * cbn [fold_left app]. apply easy_loop_rows. reflexivity.
      * apply not_true_iff_false in En. rewrite len_pos in En.
        destruct (filter _ (d0 :: ds)); [reflexivity | exfalso; apply En; discriminate].
  - cbn [bindo fst snd].
    destruct (0 <? len _) eqn:En.
    + cbn [fold_left app]. apply easy_loop_rows. reflexivity.
    + apply not_true_iff_false in En. rewrite len_pos in En.
      destruct (filter _ (d0 :: ds)); [reflexivity | exfalso; apply En; discriminate].
Qed.

Lemma week_loop_rows (F : option DB -> Z -> option DB) (wp : Z -> list Workout.t)
    (weeks : list Z) :
  (forall db week,
     F (Some db) week = Some (fold_left (fun db v => insertRow v db) (wp week) db)) ->
  forall db,
    fold_left F weeks (Some db)
    = Some (fold_left (fun db v => insertRow v db) (flat_map wp weeks) db).
Proof.
  intros H. induction weeks as [|w l IH]; intros db; [reflexivity|].
  cbn [fold_left flat_map]. rewrite H, fold_left_app. apply IH.
Qed.

(** The plan [generateTrainingPlan] creates: it never raises, the plan id
    is the next key of [training_plans], and the workouts table grows by
    the rows of weeks 1 .. totalWeeks in order. *)
Lemma generateTrainingPlan_rows (now : Date) (goal : Goal.t) (db : DB) :
  let planId := seq_training_plans db + 1 in
  exists db',
    generateTrainingPlan now goal db = Some (planId, db')
    /\ workouts db' =
       workouts db ++
       storedFrom (seq_workouts db)
         (flat_map (planWeek now goal planId) (weeksOf (totalWeeksOf now goal))).
Proof.
  intros planId. unfold generateTrainingPlan, insertTrainingPlan.
  rewrite (week_loop_rows _ (planWeek now goal planId)).
  - cbn [bindo]. eexists. split; [reflexivity|].
    rewrite insertRows_eq. reflexivity.
  - intros db0 week. cbn [bindo]. apply generateWeekWorkouts_plan.
Qed.

Lemma weekPlan_week_number (planId userId weekNumber : Z) (weekStart : Date)
    (availableDays : list string) (weeklyVolume : Q) (experienceLevel : string)
    (maxWeekdayTime maxWeekendTime : Q) (v : Workout.t) :
  In v (weekPlan planId userId weekNumber weekStart availableDays weeklyVolume
          experienceLevel maxWeekdayTime maxWeekendTime) ->
  Workout.week_number v = weekNumber /\ Workout.plan_id v = planId.
Proof.
  unfold weekPlan. destruct (dayNumbersOf availableDays) as [|d0 ds]; [contradiction|].
  cbv zeta. intros [<-|H]; [split; reflexivity|].
  apply in_app_iff in H. destruct H as [H|H].
  - destruct (keyWorkoutDayOf (d0 :: ds)); [|contradiction].
    destruct (negb _); [|contradiction].
    destruct H as [<-|[]]. split; reflexivity.
  - apply in_map_iff in H. destruct H as (d & <- & _). split; reflexivity.
Qed.

Lemma weeks_filter (f : Z -> list Workout.t) (week : Z) :
  (forall x v, In v (f x) -> Workout.week_number v = x) ->
  forall n s,
    filter (fun v => Workout.week_number v =? week)
           (flat_map f (map Z.of_nat (seq s n)))
    = if (Z.of_nat s <=? week) && (week <? Z.of_nat (s + n)) then f week else [].
Proof.
  intros Hf. induction n as [|n IH]; intros s.
  - simpl. rewrite Nat.add_0_r.
    destruct (Z.leb_spec (Z.of_nat s) week), (Z.ltb_spec week (Z.of_nat s));
      try reflexivity; lia.
  - cbn [seq map flat_map]. rewrite filter_app, IH.
    destruct (Z.eq_dec (Z.of_nat s) week) as [E|E].
    + rewrite filter_all
        by (intros v Hv; apply Hf in Hv; rewrite Hv; apply Z.eqb_eq; exact E).
      rewrite E.
      destruct (Z.leb_spec (Z.of_nat (S s)) week); [lia|].
      destruct (Z.leb_spec week week); [|lia].
      destruct (Z.ltb_spec week (Z.of_nat (s + S n))); [|lia].
      simpl. apply app_nil_r.
    + rewrite filter_none
        by (intros v Hv; apply Hf in Hv; rewrite Hv; apply Z.eqb_neq; exact E).
      replace (S s + n)%nat with (s + S n)%nat by lia.
      destruct (Z.leb_spec (Z.of_nat (S s)) week), (Z.leb_spec (Z.of_nat s) week);
        try reflexivity; lia.
Qed.

Lemma plan_week_filter (now : Date) (goal : Goal.t) (planId week : Z) :
  1 <= week <= totalWeeksOf now goal ->
  filter (fun v => Workout.week_number v =? week)
    (flat_map (planWeek now goal planId) (weeksOf (totalWeeksOf now goal)))
  = planWeek now goal planId week.
Proof.
  intros Hw. unfold weeksOf. rewrite weeks_filter.
  - destruct (Z.leb_spec (Z.of_nat 1) week); [|lia].
    destruct (Z.ltb_spec week (Z.of_nat (1 + Z.to_nat (totalWeeksOf now goal))));
      [reflexivity | lia].
  - intros x v Hv. now apply weekPlan_week_number in Hv.
Qed.

(** The rows of week [week] in the table are the rows laid out for it. *)
Lemma plan_week_rows (now : Date) (goal : Goal.t) (planId week k : Z) :
  1 <= week <= totalWeeksOf now goal ->
  Forall2 (fun v r => exists rowid, r = stored rowid v)
    (planWeek now goal planId week)
    (filter (fun r => Workout.week_number r =? week)
       (storedFrom k
          (flat_map (planWeek now goal planId) (weeksOf (totalWeeksOf now goal))))).
Proof.
  intros Hw. rewrite <- (plan_week_filter now goal planId week Hw) at 1.
  apply Forall2_filter; [|apply storedFrom_Forall2].
  intros v r (i & ->). reflexivity.
Qed.

Lemma longRunDayOf_spec (dayNumbers : list Z) :
  dayNumbers <> [] ->
  let day := longRunDayOf dayNumbers in
  In day dayNumbers
  /\ ((exists d, In d dayNumbers /\ (d = 0 \/ d = 6)) ->
      (day = 0 \/ day = 6)
      /\ forall d, In d dayNumbers -> d = 0 \/ d = 6 -> d <= day)
  /\ ((forall d, In d dayNumbers -> d <> 0 /\ d <> 6) ->
      forall d, In d dayNumbers -> d <= day).
Proof.
  intros HD day. split; [now apply longRunDayOf_In|].
  assert (forall d, isWeekendDay d = true <-> d = 0 \/ d = 6) as Hwe.
  { intros d. unfold isWeekendDay. rewrite orb_true_iff, !Z.eqb_eq. tauto. }
  unfold day, longRunDayOf. split.
  - intros (d & Hd & Hwd).
    assert (filter isWeekendDay dayNumbers <> []) as Hne.
    { intros E. assert (In d (filter isWeekendDay dayNumbers)) as Hin
        by (apply filter_In; split; [exact Hd | now apply Hwe]).
      rewrite E in Hin. contradiction. }
    rewrite (proj2 (len_pos _) Hne). split.
    + apply Math_max_In in Hne. apply filter_In in Hne. now apply Hwe.
    + intros d' Hd' Hwd'. apply Math_max_ge. apply filter_In.
      split; [exact Hd' | now apply Hwe].
  - intros Hnone.
    rewrite filter_none.
    + intros d Hd. now apply Math_max_ge.
    + intros d Hd. apply not_true_is_false. intros H. apply Hwe in H.
      destruct (Hnone d Hd). destruct H; contradiction.
Qed.

Lemma weekStart_aligned (now : Date) (k : Z) :
  addWeeks (startOfWeek now) k = startOfWeek (addWeeks (startOfWeek now) k).
Proof.
  unfold addWeeks, startOfWeek.
  assert (now mod 7 = now - 7 * (now / 7)) as Hx by (rewrite Z.mod_eq; lia).
  rewrite Hx.
  replace (now - (now - 7 * (now / 7)) + 7 * k) with (0 + (now / 7 + k) * 7) by lia.
  rewrite Z.mod_add by lia. rewrite Z.mod_0_l by lia. lia.
Qed.

Lemma weekPlan_long_runs (planId userId weekNumber : Z) (weekStart : Date)
    (availableDays : list string) (weeklyVolume : Q) (experienceLevel : string)
    (maxWeekdayTime maxWeekendTime : Q) :
  dayNumbersOf availableDays <> [] ->
  filter isLongRunRow
    (weekPlan planId userId weekNumber weekStart availableDays weeklyVolume
       experienceLevel maxWeekdayTime maxWeekendTime)
  = [ laidOut planId userId weekNumber weekStart longRunTemplate "long"
        (longRunDayOf (dayNumbersOf availableDays))
        (Qmin (Math_round (weeklyVolume * 0.35))
              (ceilingOf maxWeekdayTime maxWeekendTime
                 (longRunDayOf (dayNumbersOf availableDays)))) 1 1 ].
Proof.
  intros HD. unfold weekPlan.
  destruct (dayNumbersOf availableDays) as [|d0 ds]; [congruence|].
  cbv zeta. cbn [filter]. change (isLongRunRow (laidOut _ _ _ _ _ _ _ _ 1 1)) with true.
  cbv iota. f_equal. rewrite filter_app.
  rewrite (filter_none isLongRunRow (map _ _))
    by (intros x Hx; apply in_map_iff in Hx; destruct Hx as (d & <- & _); reflexivity).
  rewrite app_nil_r. apply filter_none. intros x Hx.
  destruct (keyWorkoutDayOf (d0 :: ds)); [|contradiction].
  destruct (negb _); [|contradiction].
  destruct Hx as [<-|[]]. reflexivity.
Qed.



Lemma weekPlan_beginner (planId userId weekNumber : Z) (weekStart : Date)
    (availableDays : list string) (weeklyVolume : Q)
    (maxWeekdayTime maxWeekendTime : Q) (v : Workout.t) :
  In v (weekPlan planId userId weekNumber weekStart availableDays weeklyVolume
          "beginner" maxWeekdayTime maxWeekendTime) ->
  Workout.workout_type v = "easy" \/ Workout.workout_type v = "long".
Proof.
  unfold weekPlan. destruct (dayNumbersOf availableDays) as [|d0 ds]; [contradiction|].
  cbv zeta. intros [<-|H]; [right; reflexivity|].
  apply in_app_iff in H. destruct H as [H|H].
  - destruct (keyWorkoutDayOf (d0 :: ds)); contradiction.
  - apply in_map_iff in H. destruct H as (d & <- & _). left; reflexivity.
Qed.

Lemma weekPlan_beginner_monday_wednesday (planId userId weekNumber : Z)
    (weekStart : Date) (weeklyVolume : Q) (maxWeekdayTime maxWeekendTime : Q) :
  weekPlan planId userId weekNumber weekStart ["Monday"; "Wednesday"] weeklyVolume
    "beginner" maxWeekdayTime maxWeekendTime
  = [ laidOut planId userId weekNumber weekStart longRunTemplate "long" 3
        (Qmin (Math_round (weeklyVolume * 0.35)) maxWeekdayTime) 1 1 ].
Proof. reflexivity. Qed.

(** C3. A beginner goal only ever gets easy and long workouts, never
    tempo or interval.  For a beginner on Monday and Wednesday (the 5k
    goal included) the generator reserves Monday for a key workout that a
    beginner is not given and leaves it out of the easy days, so every
    week holds one workout, the long run on Wednesday, where two were
    expected. *)
Theorem beginner_weeks (now : Date) (goal : Goal.t) (db : DB) :
  Goal.experience_level goal = "beginner" ->
  exists planId db' rows,
    generateTrainingPlan now goal db = Some (planId, db')
    /\ workouts db' = workouts db ++ rows
    /\ (forall r, In r rows ->
          Workout.workout_type r = "easy" \/ Workout.workout_type r = "long")
    /\ (Goal.available_days goal = ["Monday"; "Wednesday"] ->
        forall week, 1 <= week <= totalWeeksOf now goal ->
          exists longRun,
            filter (fun r => Workout.week_number r =? week) rows = [longRun]
            /\ Workout.workout_type longRun = "long"
            /\ Workout.date longRun
               = addDays (addWeeks (startOfWeek now) (week - 1)) (dayOffset 3)).
Proof.
  intros Hb.
  destruct (generateTrainingPlan_rows now goal db) as (db' & Hgen & Hrows).
  cbv zeta in Hgen, Hrows.
  eexists _, db', _. split; [exact Hgen|]. split; [exact Hrows|]. split.
  - intros r Hr. apply storedFrom_In in Hr. destruct Hr as (v & i & Hv & ->).
    apply in_flat_map in Hv. destruct Hv as (w & _ & Hv).
    unfold planWeek in Hv. rewrite Hb in Hv.
    apply weekPlan_beginner in Hv. exact Hv.
  - intros Hdays week Hw.
    pose proof (plan_week_rows now goal (seq_training_plans db + 1) week
                  (seq_workouts db) Hw) as H.
    unfold planWeek in H at 1.
    rewrite Hb, Hdays, weekPlan_beginner_monday_wednesday in H.
    inversion H as [|v r l1 l2 (i & Hr) Hnil Hv Heq]; subst.
    inversion Hnil; subst.
    eexists. split; [reflexivity|]. split; reflexivity.
Qed.

Lemma beginner_weeks_witness :
  exists planId db' rows,
    generateTrainingPlan 2 beginner_goal empty_store = Some (planId, db')
    /\ workouts db' = workouts empty_store ++ rows
    /\ (forall r, In r rows ->
          Workout.workout_type r = "easy" \/ Workout.workout_type r = "long")
    /\ (Goal.available_days beginner_goal = ["Monday"; "Wednesday"] ->
        forall week, 1 <= week <= totalWeeksOf 2 beginner_goal ->
          exists longRun,
            filter (fun r => Workout.week_number r =? week) rows = [longRun]
            /\ Workout.workout_type longRun = "long"
            /\ Workout.date longRun
               = addDays (addWeeks (startOfWeek 2) (week - 1)) (dayOffset 3)).
Proof.
  apply (beginner_weeks 2 beginner_goal empty_store). reflexivity.
Defined.

(** The plan generated for the beginner 5k goal on Monday and Wednesday:
    four weeks, one long run each. *)
Example beginner_goal_plan :
  option_map
    (fun r => map (fun w => (Workout.week_number w, Workout.workout_type w, onDay w))
                  (workouts (snd r)))
    (generateTrainingPlan 2 beginner_goal empty_store)
  = Some [(1, "long", 3); (2, "long", 3); (3, "long", 3); (4, "long", 3)].
Proof. vm_compute. reflexivity. Qed.



(** ** Unrecognised enum values *)



(** * Further properties of the code *)

(** ** VolumeCurve: bounds *)

Section VolumeBounds.
Variable totalWeeks : Z.
Variable raceConfig : RaceConfig.
Variables experienceMultiplier currentFrequency longestRecentRun : Q.

Local Abbreviation volume :=
  (calculateWeeklyVolume totalWeeks raceConfig experienceMultiplier
     currentFrequency longestRecentRun).
Local Abbreviation base :=
  (baseVolume totalWeeks raceConfig experienceMultiplier
     currentFrequency longestRecentRun).

Lemma volume_le_base (weekNumber : Z) : (volume weekNumber <= base weekNumber)%Q.
Proof. rewrite calculateWeeklyVolume_eq. apply Q.le_min_l. Qed.

Lemma volume_compound (n : nat) :
  (volume (Z.of_nat (S n)) <= currentFrequency * 30 * 1.1 ^ Z.of_nat (S n))%Q.
Proof.
  induction n as [|n IH].
  - rewrite calculateWeeklyVolume_eq. change (1 <? Z.of_nat 1) with false. cbv iota.
    eapply Qle_trans; [apply Q.le_min_r|]. apply Qle_lteq; right.
    change (1.1 ^ Z.of_nat 1)%Q with (1.1 * 1)%Q. ring.
  - rewrite calculateWeeklyVolume_eq.
    destruct (Z.ltb_spec 1 (Z.of_nat (S (S n)))) as [_|H]; [|lia].
    eapply Qle_trans; [apply Q.le_min_r|].
    replace (Z.of_nat (S (S n)) - 1) with (Z.of_nat (S n)) by lia.
    replace (Z.of_nat (S (S n))) with (Z.of_nat (S n) + 1) by lia.
    rewrite Qpower_plus by (intros E; discriminate E).
    change (1.1 ^ 1)%Q with (1.1 * 1)%Q.
    set (v := volume (Z.of_nat (S n))) in *.
    set (g := (1.1 ^ Z.of_nat (S n))%Q) in *.
    nra.
Qed.

Lemma phase_ends_below_total :
  1 <= totalWeeks ->
  buildPhaseEnd totalWeeks < totalWeeks /\ peakPhaseEnd totalWeeks < totalWeeks.
Proof.
  intros HT.
  assert (0 < inject_Z totalWeeks)%Q as Hpos by (rewrite <- (Zlt_Qlt 0); lia).
  unfold buildPhaseEnd, peakPhaseEnd, Math_floor. split; rewrite Zlt_Qlt.
  - eapply Qle_lt_trans; [apply Qfloor_le|]. nra.
  - eapply Qle_lt_trans; [apply Qfloor_le|]. nra.
Qed.

Lemma phase_ends_nonneg :
  0 <= totalWeeks ->
  0 <= buildPhaseEnd totalWeeks /\ buildPhaseEnd totalWeeks <= peakPhaseEnd totalWeeks.
Proof.
  intros HT.
  assert (0 <= inject_Z totalWeeks)%Q as Hpos by (rewrite <- (Zle_Qle 0); lia).
  unfold buildPhaseEnd, peakPhaseEnd, Math_floor. split.
  - change 0 with (Qfloor 0). apply Qfloor_resp_le. nra.
  - apply Qfloor_resp_le. nra.
Qed.

Lemma race_week_base :
  1 <= totalWeeks ->
  (base totalWeeks == peakWeeklyMinutes raceConfig * 0.4 * experienceMultiplier)%Q.
Proof.
  intros HT. destruct (phase_ends_below_total HT) as [Hb Hp].
  unfold baseVolume.
  destruct (Z.leb_spec totalWeeks (buildPhaseEnd totalWeeks)); [lia|].
  destruct (Z.leb_spec totalWeeks (peakPhaseEnd totalWeeks)); [lia|].
  cbv zeta. rewrite Z.sub_diag.
  setoid_replace (inject_Z 0 / inject_Z (totalWeeks - peakPhaseEnd totalWeeks))%Q
    with 0%Q by (unfold Qdiv; ring).
  ring.
Qed.

Lemma ratio_unit (a b : Z) :
  0 <= a <= b -> 0 < b -> (0 <= inject_Z a / inject_Z b <= 1)%Q.
Proof.
  intros Ha Hb.
  assert (0 < inject_Z b)%Q as Hb' by (rewrite <- (Zlt_Qlt 0); lia).
  assert (0 <= inject_Z a)%Q as Ha0 by (rewrite <- (Zle_Qle 0); lia).
  assert (inject_Z a <= inject_Z b)%Q as Hab by (rewrite <- Zle_Qle; lia).
  split.
  - apply Qle_shift_div_l; [exact Hb'|]. nra.
  - apply Qle_shift_div_r; [exact Hb'|]. nra.
Qed.

Hypothesis peak_nonneg : (0 <= peakWeeklyMinutes raceConfig)%Q.
Hypothesis multiplier_nonneg : (0 <= experienceMultiplier)%Q.
Hypothesis frequency_nonneg : (0 <= currentFrequency)%Q.

Lemma base_nonneg (weekNumber : Z) :
  1 <= weekNumber <= totalWeeks -> (0 <= base weekNumber)%Q.
Proof.
  intros Hw.
  assert (1 <= totalWeeks) as HT by lia.
  destruct (phase_ends_below_total HT) as [Hb Hp].
  unfold baseVolume.
  set (P := peakWeeklyMinutes raceConfig) in *.
  destruct (Z.leb_spec weekNumber (buildPhaseEnd totalWeeks)) as [Hbuild|Hbuild].
  - cbv zeta.
    destruct (ratio_unit weekNumber (buildPhaseEnd totalWeeks)) as [Hp0 Hp1]; [lia|lia|].
    set (p := (inject_Z weekNumber / inject_Z (buildPhaseEnd totalWeeks))%Q) in *.
    assert (0 <= Qmax (currentFrequency * 30) (longestRecentRun * 2))%Q as Hs.
    { eapply Qle_trans; [|apply Q.le_max_l]. nra. }
    set (s0 := Qmax (currentFrequency * 30) (longestRecentRun * 2)) in *.
    apply Qmult_le_0_compat; [|exact multiplier_nonneg]. nra.
  - destruct (Z.leb_spec weekNumber (peakPhaseEnd totalWeeks)) as [Hpeak|Hpeak].
    + cbv zeta.
      destruct (ratio_unit (weekNumber - buildPhaseEnd totalWeeks)
                  (peakPhaseEnd totalWeeks - buildPhaseEnd totalWeeks)) as [Hp0 Hp1];
        [lia|lia|].
      set (p := (inject_Z (weekNumber - buildPhaseEnd totalWeeks)
                 / inject_Z (peakPhaseEnd totalWeeks - buildPhaseEnd totalWeeks))%Q) in *.
      apply Qmult_le_0_compat; [|exact multiplier_nonneg]. nra.
    + cbv zeta.
      destruct (ratio_unit (totalWeeks - weekNumber)
                  (totalWeeks - peakPhaseEnd totalWeeks)) as [Hp0 Hp1]; [lia|lia|].
      set (p := (inject_Z (totalWeeks - weekNumber)
                 / inject_Z (totalWeeks - peakPhaseEnd totalWeeks))%Q) in *.
      apply Qmult_le_0_compat; [|exact multiplier_nonneg]. nra.
Qed.

Lemma volume_nonneg_nat (n : nat) :
  Z.of_nat (S n) <= totalWeeks -> (0 <= volume (Z.of_nat (S n)))%Q.
Proof.
  induction n as [|n IH]; intros Hn.
  - rewrite calculateWeeklyVolume_eq. change (1 <? Z.of_nat 1) with false. cbv iota.
    apply Q.min_glb; [apply base_nonneg; lia | nra].
  - rewrite calculateWeeklyVolume_eq.
    destruct (Z.ltb_spec 1 (Z.of_nat (S (S n)))) as [_|H]; [|lia].
    replace (Z.of_nat (S (S n)) - 1) with (Z.of_nat (S n)) by lia.
    apply Q.min_glb; [apply base_nonneg; lia|].
    assert (0 <= volume (Z.of_nat (S n)))%Q as Hv by (apply IH; lia).
    set (v := volume (Z.of_nat (S n))) in *. nra.
Qed.
End VolumeBounds.

(** X1. The cap compounds: the volume of week N >= 1 never exceeds the
    phase formula of that week, nor the week-0 baseline grown by 10% per
    week, [currentFrequency * 30 * 1.1 ^ N]. *)
Theorem weekly_volume_compound_bound
    (raceConfig : RaceConfig) (experienceMultiplier currentFrequency longestRecentRun : Q)
    (totalWeeks N : Z) :
  1 <= N ->
  (calculateWeeklyVolume totalWeeks raceConfig experienceMultiplier
     currentFrequency longestRecentRun N
   <= baseVolume totalWeeks raceConfig experienceMultiplier
        currentFrequency longestRecentRun N)%Q
  /\ (calculateWeeklyVolume totalWeeks raceConfig experienceMultiplier
        currentFrequency longestRecentRun N
      <= currentFrequency * 30 * 1.1 ^ N)%Q.
Proof.
  intros HN. split; [apply volume_le_base|].
  replace N with (Z.of_nat (S (Z.to_nat (N - 1)))) by lia.
  apply volume_compound.
Qed.

Lemma weekly_volume_compound_bound_witness :
  (calculateWeeklyVolume 10 (mkRaceConfig 10 60 200) 1 3 45 4
   <= baseVolume 10 (mkRaceConfig 10 60 200) 1 3 45 4)%Q
  /\ (calculateWeeklyVolume 10 (mkRaceConfig 10 60 200) 1 3 45 4 <= 3 * 30 * 1.1 ^ 4)%Q.
Proof.
  apply (weekly_volume_compound_bound (mkRaceConfig 10 60 200) 1 3 45 10 4). lia.
Defined.

(** X2. With a non-negative peak, multiplier and current frequency, the
    volume of every week 1 .. totalWeeks of a plan is non-negative. *)
Theorem weekly_volume_nonneg
    (raceConfig : RaceConfig) (experienceMultiplier currentFrequency longestRecentRun : Q)
    (totalWeeks N : Z) :
  (0 <= peakWeeklyMinutes raceConfig)%Q -> (0 <= experienceMultiplier)%Q ->
  (0 <= currentFrequency)%Q ->
  1 <= N <= totalWeeks ->
  (0 <= calculateWeeklyVolume totalWeeks raceConfig experienceMultiplier
          currentFrequency longestRecentRun N)%Q.
Proof.
  intros HP HM HF HN.
  replace N with (Z.of_nat (S (Z.to_nat (N - 1)))) by lia.
  apply volume_nonneg_nat; auto. lia.
Qed.

Lemma weekly_volume_nonneg_witness :
  (0 <= calculateWeeklyVolume 10 (mkRaceConfig 10 60 200) 1 3 45 4)%Q.
Proof.
  apply (weekly_volume_nonneg (mkRaceConfig 10 60 200) 1 3 45 10 4);
    try (vm_compute; discriminate); lia.
Defined.

(** X3. The race week (week totalWeeks) always lies in the taper phase,
    and its volume is at most 40% of the peak weekly minutes times the
    experience multiplier. *)
Theorem race_week_volume
    (raceConfig : RaceConfig) (experienceMultiplier currentFrequency longestRecentRun : Q)
    (totalWeeks : Z) :
  1 <= totalWeeks ->
  peakPhaseEnd totalWeeks < totalWeeks
  /\ (calculateWeeklyVolume totalWeeks raceConfig experienceMultiplier
        currentFrequency longestRecentRun totalWeeks
      <= peakWeeklyMinutes raceConfig * 0.4 * experienceMultiplier)%Q.
Proof.
  intros HT. split; [now apply phase_ends_below_total|].
  eapply Qle_trans; [apply volume_le_base|].
  rewrite race_week_base by exact HT. apply Qle_refl.
Qed.

Lemma race_week_volume_witness :
  peakPhaseEnd 10 < 10
  /\ (calculateWeeklyVolume 10 (mkRaceConfig 10 60 200) 1 3 45 10 <= 200 * 0.4 * 1)%Q.
Proof.
  apply (race_week_volume (mkRaceConfig 10 60 200) 1 3 45 10). lia.
Defined.

(** ** WorkoutCatalog *)

(** X4. The catalog of a level and phase: easy and long always come
    first, tempo is offered exactly to non-beginners, interval exactly to
    advanced athletes and to intermediate ones in the peak phase; of the
    templates only long carries the long-run flag, and easy is the only
    one that is not a key workout. *)
Theorem catalog_contents (experienceLevel : string) (phase : Phase) :
  let templates := getWorkoutTemplates experienceLevel phase in
  let types := map WorkoutTemplate.type templates in
  firstn 2 types = ["easy"; "long"]
  /\ NoDup types
  /\ (In "tempo" types <-> experienceLevel <> "beginner")
  /\ (In "interval" types <->
      experienceLevel = "advanced"
      \/ (experienceLevel = "intermediate" /\ phase = peak))
  /\ (forall t, In t templates ->
        (WorkoutTemplate.isLongRun t = true <-> WorkoutTemplate.type t = "long")
        /\ (WorkoutTemplate.isKeyWorkout t = false <-> WorkoutTemplate.type t = "easy")).
Proof.
  cbv zeta. unfold getWorkoutTemplates.
  destruct (String.eqb_spec experienceLevel "beginner") as [Eb|Eb];
    destruct (String.eqb_spec experienceLevel "advanced") as [Ea|Ea];
    destruct (String.eqb_spec experienceLevel "intermediate") as [Ei|Ei];
    try (rewrite Eb in Ea; discriminate Ea);
    try (rewrite Eb in Ei; discriminate Ei);
    try (rewrite Ea in Ei; discriminate Ei);
    destruct phase; cbn [negb orb andb phase_eqb app map firstn WorkoutTemplate.type];
    (split; [reflexivity|]);
    (split; [repeat constructor; simpl; intuition discriminate|]);
    (split; [split; [intros H; try (simpl in H; intuition discriminate); congruence
                    | intros H; simpl; tauto || congruence ] |]);
    (split; [split; [intros H; simpl in H; intuition (try discriminate; auto)
                    | intros [H|[H1 H2]]; simpl;
                      try congruence; try discriminate; auto 6 ] |]);
    intros t Ht; simpl in Ht;
    repeat (destruct Ht as [<-|Ht]; [simpl; split; split; intros H;
                                     reflexivity || discriminate H|]);
    contradiction.
Qed.

(** ** AdjustmentEngine: the recommendation *)

Lemma recommendation_cases (stats : WeeklyStats) :
  let r := getAdjustmentRecommendation stats in
  (0.7 <= volumeMultiplier r <= 1.05)%Q
  /\ (type r = reduce <-> (volumeMultiplier r < 1)%Q)
  /\ (type r = maintain <-> (volumeMultiplier r == 1)%Q)
  /\ (type r = increase <-> (1 < volumeMultiplier r)%Q)
  /\ (intensityAdjustment r = -1 <-> (5 <= averagePain stats)%Q)
  /\ (intensityAdjustment r = -1 \/ intensityAdjustment r = 0)
  /\ ((5 <= averagePain stats)%Q -> type r = reduce)
  /\ (type r = increase ->
      (averagePain stats < 2)%Q /\ (averageEffort stats < 6)%Q
      /\ missedKeyWorkouts stats < 2).
Proof.
  cbv zeta. unfold getAdjustmentRecommendation.
  destruct (Qleb 5 (averagePain stats)) eqn:Ep.
  { apply Qle_bool_iff in Ep. cbn.
    repeat split; intros; try discriminate; try lra; auto. }
  assert (~ (5 <= averagePain stats)%Q) as Hp
    by (intros H; apply Qle_bool_iff in H; unfold Qleb in Ep; congruence).
  cbv zeta.
  destruct (Qltb _ 0.5).
  { cbn. repeat split; intros; try discriminate; try lra; try lia; auto; tauto. }
  destruct (Z.leb_spec 2 (missedKeyWorkouts stats)) as [Hm|Hm].
  { cbn. repeat split; intros; try discriminate; try lra; try lia; auto; tauto. }
  destruct (Qleb 8 (averageEffort stats) && Qleb 0.8 _)%bool.
  { cbn. repeat split; intros; try discriminate; try lra; try lia; auto; tauto. }
  destruct (Qltb (averageEffort stats) 6 && Qleb 0.9 _ && Qltb (averagePain stats) 2)%bool
    eqn:Ei.
  - apply andb_true_iff in Ei. destruct Ei as [Ei Epain].
    apply andb_true_iff in Ei. destruct Ei as [Eeff _].
    unfold Qltb in Epain, Eeff. apply negb_true_iff in Epain, Eeff.
    assert (averagePain stats < 2)%Q as Hpain
      by (apply Qnot_le_lt; intros H; apply Qle_bool_iff in H; congruence).
    assert (averageEffort stats < 6)%Q as Heff
      by (apply Qnot_le_lt; intros H; apply Qle_bool_iff in H; congruence).
    cbn. repeat split; intros; try discriminate; try lra; try lia; auto; tauto.
  - cbn. repeat split; intros; try discriminate; try lra; try lia; auto; tauto.
Qed.

Lemma recommendation_values (stats : WeeklyStats) :
  let r := getAdjustmentRecommendation stats in
  (type r = reduce ->
   volumeMultiplier r = 0.7%Q \/ volumeMultiplier r = 0.8%Q \/ volumeMultiplier r = 0.85%Q)
  /\ (type r = maintain -> volumeMultiplier r = 1.0%Q)
  /\ (type r = increase -> volumeMultiplier r = 1.05%Q).
Proof.
  cbv zeta. unfold getAdjustmentRecommendation.
  repeat match goal with
         | |- context [if ?b then _ else _] => destruct b
         end;
    cbn [type volumeMultiplier];
    (split; [|split]); intros H; try discriminate H; auto.
Qed.

(** X5. Every recommendation is coherent: reduce goes with a multiplier
    below 1, which is 0.7, 0.8 or 0.85; maintain with exactly 1; increase
    with exactly 1.05; the intensity is lowered (by 1) exactly under the
    pain rule; average pain of 5 or more always gives reduce; and
    increase is only given when average pain is below 2, average effort
    below 6 and fewer than two key workouts were missed. *)
Theorem recommendation_coherent (stats : WeeklyStats) :
  let r := getAdjustmentRecommendation stats in
  (0.7 <= volumeMultiplier r <= 1.05)%Q
  /\ (type r = reduce <-> (volumeMultiplier r < 1)%Q)
  /\ (type r = maintain <-> (volumeMultiplier r == 1)%Q)
  /\ (type r = increase <-> (1 < volumeMultiplier r)%Q)
  /\ (type r = reduce ->
      (volumeMultiplier r == 0.7)%Q \/ (volumeMultiplier r == 0.8)%Q
      \/ (volumeMultiplier r == 0.85)%Q)
  /\ (type r = increase -> (volumeMultiplier r == 1.05)%Q)
  /\ (intensityAdjustment r = -1 <-> (5 <= averagePain stats)%Q)
  /\ (intensityAdjustment r = -1 \/ intensityAdjustment r = 0)
  /\ ((5 <= averagePain stats)%Q -> type r = reduce)
  /\ (type r = increase ->
      (averagePain stats < 2)%Q /\ (averageEffort stats < 6)%Q
      /\ missedKeyWorkouts stats < 2).
Proof.
  cbv zeta.
  destruct (recommendation_cases stats) as (H1 & H2 & H3 & H4 & H5).
  destruct (recommendation_values stats) as (Hr & _ & Hi).
  cbv zeta in *.
  split; [exact H1|]. split; [exact H2|]. split; [exact H3|]. split; [exact H4|].
  split; [|split; [|exact H5]].
  - intros H. destruct (Hr H) as [E|[E|E]]; rewrite E; auto with qarith.
  - intros H. rewrite (Hi H). reflexivity.
Qed.

(** ** AdjustmentEngine: the weekly statistics *)

Lemma filter_disjoint_length {A : Type} (p q : A -> bool) (l : list A) :
  (forall x, In x l -> p x = true -> q x = false) ->
  (length (filter p l) + length (filter q l) <= length l)%nat.
Proof.
  induction l as [|x l IH]; intros H; simpl; [lia|].
  assert (length (filter p l) + length (filter q l) <= length l)%nat as IH'
    by (apply IH; intros y Hy; apply H; now right).
  destruct (p x) eqn:Ep.
  - rewrite (H x (or_introl eq_refl) Ep). simpl. lia.
  - destruct (q x); simpl; lia.
Qed.

(** X6. Statistics that are not null are consistent: at least one
    planned run, the completed and the missed key workouts are disjoint
    parts of the planned ones, and with no log in the week both averages
    are 0 rather than a division by zero. *)
Theorem weekly_stats_consistent (now : Date) (userId weekOffset : Z) (db : DB)
    (stats : WeeklyStats) :
  analyzeWeeklyPerformance now userId weekOffset db = Some stats ->
  1 <= plannedRuns stats
  /\ 0 <= completedRuns stats
  /\ 0 <= missedKeyWorkouts stats
  /\ completedRuns stats + missedKeyWorkouts stats <= plannedRuns stats
  /\ 0 <= totalRuns stats
  /\ (totalRuns stats = 0 -> averageEffort stats = 0%Q /\ averagePain stats = 0%Q).
Proof.
  unfold analyzeWeeklyPerformance.
  set (planned := flat_map _ _). set (logs := filter _ (run_logs db)).
  destruct (len planned =? 0) eqn:E; [discriminate|].
  intros H. injection H as <-. cbn [plannedRuns completedRuns missedKeyWorkouts
    totalRuns averageEffort averagePain].
  apply Z.eqb_neq in E. unfold len in *.
  pose proof (filter_disjoint_length log_completed
                (fun r => ((Workout.is_key_workout (fst r) =? 1)
                           || (Workout.is_long_run (fst r) =? 1))
                          && negb (log_completed r)) planned) as Hd.
  repeat split; try lia.
  - assert (forall x, In x planned -> log_completed x = true ->
              ((Workout.is_key_workout (fst x) =? 1) || (Workout.is_long_run (fst x) =? 1))
              && negb (log_completed x) = false) as Hx
      by (intros x _ Hc; rewrite Hc; apply andb_false_r).
    specialize (Hd Hx). lia.
  - destruct (Z.ltb_spec 0 (Z.of_nat (length logs))); [lia | reflexivity].
  - destruct (Z.ltb_spec 0 (Z.of_nat (length logs))); [lia | reflexivity].
Qed.

Lemma weekly_stats_consistent_witness :
  1 <= 1 /\ 0 <= 1 /\ 0 <= 0 /\ 1 + 0 <= 1 /\ 0 <= 1
  /\ (1 = 0 -> (4 # 1) = 0%Q /\ (0 # 1) = 0%Q).
Proof.
  apply (weekly_stats_consistent compounding_now 7 1 compounding_store
           (mkStats 1 1 1 (4 # 1) (0 # 1) 40 0)).
  vm_compute. reflexivity.
Defined.

Lemma adjustment_of_stats (now : Date) (userId : Z) (db : DB) :
  adjustment (fst (applyWeeklyAdjustment now userId db))
  = option_map getAdjustmentRecommendation (analyzeWeeklyPerformance now userId 1 db).
Proof.
  unfold applyWeeklyAdjustment.
  destruct (analyzeWeeklyPerformance now userId 1 db) as [stats|]; [|reflexivity].
  destruct (isMaintain _); [reflexivity|].
  destruct (activePlan userId db) as [plan|]; [|reflexivity].
  destruct (currentWorkoutOf _ _ db); reflexivity.
Qed.

Lemma nothing_completed_recommendation (stats : WeeklyStats) :
  completedRuns stats = 0 ->
  let r := getAdjustmentRecommendation stats in
  type r = reduce
  /\ ((5 <= averagePain stats)%Q ->
      volumeMultiplier r = 0.7%Q /\ intensityAdjustment r = -1)
  /\ (~ (5 <= averagePain stats)%Q ->
      volumeMultiplier r = 0.8%Q /\ intensityAdjustment r = 0).
Proof.
  intros Hc. cbv zeta. unfold getAdjustmentRecommendation.
  destruct (Qleb 5 (averagePain stats)) eqn:Ep.
  { apply Qle_bool_iff in Ep.
    split; [reflexivity|]. split; [now split | contradiction]. }
  assert (~ (5 <= averagePain stats)%Q) as Hp
    by (intros H; apply Qle_bool_iff in H; unfold Qleb in Ep; congruence).
  cbv zeta. rewrite Hc.
  assert (Qltb (if 0 <? plannedRuns stats
                then inject_Z 0 / inject_Z (plannedRuns stats) else 0) 0.5 = true) as ->.
  { unfold Qltb. apply negb_true_iff. apply not_true_is_false. intros H.
    apply Qle_bool_iff in H.
    destruct (0 <? plannedRuns stats).
    - assert (inject_Z 0 / inject_Z (plannedRuns stats) == 0)%Q as E
        by (unfold Qdiv; ring).
      rewrite E in H. lra.
    - lra. }
  split; [reflexivity|]. split; [contradiction | now split].
Qed.

(** X7. Analysis, classification and application together: when the
    athlete had planned workouts last week and none of them has a
    completing log, the adjustment recommended is always reduce: with
    multiplier 0.7 and the intensity lowered by 1 when the average pain
    of last week's logs is 5 or more (the pain rule), with multiplier 0.8
    and the intensity unchanged otherwise. *)
Theorem nothing_completed_means_reduce (now : Date) (userId : Z) (db : DB) :
  let lastWeek :=
    plannedInRange userId (startOfWeek (subWeeks now 1)) (endOfWeek (subWeeks now 1)) db in
  lastWeek <> [] ->
  (forall w l, In w lastWeek -> In l (run_logs db) ->
     RunLog.workout_id l = Some (Workout.id w) -> RunLog.completed l <> 1) ->
  exists stats r,
    analyzeWeeklyPerformance now userId 1 db = Some stats
    /\ adjustment (fst (applyWeeklyAdjustment now userId db)) = Some r
    /\ type r = reduce
    /\ ((5 <= averagePain stats)%Q ->
        volumeMultiplier r = 0.7%Q /\ intensityAdjustment r = -1)
    /\ (~ (5 <= averagePain stats)%Q ->
        volumeMultiplier r = 0.8%Q /\ intensityAdjustment r = 0).
Proof.
  intros lastWeek Hne Hlogs. rewrite adjustment_of_stats.
  destruct (analyzeWeeklyPerformance now userId 1 db) as [stats|] eqn:Ea.
  - exists stats, (getAdjustmentRecommendation stats).
    split; [reflexivity|]. split; [reflexivity|].
    apply nothing_completed_recommendation.
    unfold analyzeWeeklyPerformance in Ea. fold lastWeek in Ea.
    destruct (len (flat_map (leftJoinLogs (run_logs db)) lastWeek) =? 0); [discriminate|].
    injection Ea as <-. cbn [completedRuns].
    rewrite filter_none; [reflexivity|].
    intros [w [l|]] Hin; [|reflexivity].
    apply in_flat_map in Hin. destruct Hin as (w' & Hw' & Hin).
    unfold leftJoinLogs in Hin.
    set (matching := filter _ (run_logs db)) in Hin.
    assert (In (w, Some l) (map (fun rl => (w', Some rl)) matching)) as Hin'.
    { destruct matching; [|exact Hin]. destruct Hin as [H|[]]. discriminate H. }
    apply in_map_iff in Hin'. destruct Hin' as (l' & E & Hl').
    injection E as <- <-. apply filter_In in Hl'. destruct Hl' as [Hl' Hid].
    destruct (RunLog.workout_id l') as [k|] eqn:Ek; [|discriminate].
    apply Z.eqb_eq in Hid. subst k.
    unfold log_completed. cbn [snd]. apply Z.eqb_neq.
    apply (Hlogs w' l' Hw' Hl' Ek).
  - exfalso. apply analyze_none_iff in Ea. contradiction.
Qed.

Lemma nothing_completed_means_reduce_witness :
  exists stats r,
    analyzeWeeklyPerformance 16 7 1 compounding_store = Some stats
    /\ adjustment (fst (applyWeeklyAdjustment 16 7 compounding_store)) = Some r
    /\ type r = reduce
    /\ ((5 <= averagePain stats)%Q ->
        volumeMultiplier r = 0.7%Q /\ intensityAdjustment r = -1)
    /\ (~ (5 <= averagePain stats)%Q ->
        volumeMultiplier r = 0.8%Q /\ intensityAdjustment r = 0).
Proof.
  apply (nothing_completed_means_reduce 16 7 compounding_store).
  - vm_compute. discriminate.
  - vm_compute. intros w l [<-|[]] [<-|[]] H. discriminate H.
Defined.

(** ** AdjustmentEngine: what an applied adjustment touches *)

Lemma applied_store (now : Date) (userId : Z) (db db' : DB)
    (rec : AdjustmentRecommendation) (plan : TrainingPlan.t) :
  NoDup (map Workout.id (workouts db)) ->
  applyWeeklyAdjustment now userId db = (mkResult true (Some rec), db') ->
  activePlan userId db = Some plan ->
  exists stats currentWorkout,
    analyzeWeeklyPerformance now userId 1 db = Some stats
    /\ rec = getAdjustmentRecommendation stats
    /\ type rec <> maintain
    /\ currentWorkoutOf (TrainingPlan.id plan) (startOfWeek now) db = Some currentWorkout
    /\ db' =
       mkDB (goals db) (training_plans db)
         (map (fun r => if isFuture (TrainingPlan.id plan) (startOfWeek now) r
                        then Workout.set_duration_minutes (newDurationOf rec r) r
                        else r) (workouts db))
         (run_logs db)
         (weekly_adjustments db ++
          [WeeklyAdjustment.mk (seq_weekly_adjustments db + 1) userId
             (TrainingPlan.id plan) (Workout.week_number currentWorkout)
             (type rec) (reason rec)])
         (seq_training_plans db) (seq_workouts db) (seq_weekly_adjustments db + 1).
Proof.
  intros Hnd Happ Hplan.
  destruct (applied_adjustment _ _ _ _ _ _ Happ Hplan)
    as (stats & cw & Hst & Hrec & Hty & Hcw & Hdb).
  exists stats, cw. repeat split; auto.
  rewrite Hdb, update_loop_spec by exact Hnd. reflexivity.
Qed.

Lemma earliest_In (l : list Workout.t) (w : Workout.t) :
  earliest l = Some w -> In w l.
Proof.
  unfold earliest.
  assert (forall best, fold_left
            (fun best w => match best with
                           | None => Some w
                           | Some b => if Workout.date w <? Workout.date b
                                       then Some w else Some b
                           end) l best = Some w ->
          In w l \/ best = Some w) as H.
  { induction l as [|x l IH]; intros best Hf; simpl in Hf; [now right|].
    apply IH in Hf. destruct Hf as [Hf|Hf]; [left; now right|].
    destruct best as [b|].
    - destruct (Workout.date x <? Workout.date b).
      + injection Hf as <-. left. now left.
      + now right.
    - injection Hf as <-. left. now left. }
  intros Hf. destruct (H None Hf) as [Hin|E]; [exact Hin | discriminate E].
Qed.

(** X8. An applied adjustment appends exactly one audit row (athlete,
    active plan, the week number of one of the plan's workouts of this
    week or later, the recommendation's type and reason), leaves goals,
    plans and run logs alone, and rewrites the workouts table row by row:
    only duration_minutes can change, and a row that is completed, dated
    before this week, or of another plan is not changed at all. *)
Theorem applied_adjustment_frame (now : Date) (userId : Z) (db db' : DB)
    (rec : AdjustmentRecommendation) (plan : TrainingPlan.t) :
  NoDup (map Workout.id (workouts db)) ->
  applyWeeklyAdjustment now userId db = (mkResult true (Some rec), db') ->
  activePlan userId db = Some plan ->
  goals db' = goals db /\ training_plans db' = training_plans db
  /\ run_logs db' = run_logs db
  /\ (exists w,
        In w (workouts db) /\ Workout.plan_id w = TrainingPlan.id plan
        /\ startOfWeek now <= Workout.date w
        /\ weekly_adjustments db' =
           weekly_adjustments db ++
           [WeeklyAdjustment.mk (seq_weekly_adjustments db + 1) userId
              (TrainingPlan.id plan) (Workout.week_number w) (type rec) (reason rec)])
  /\ Forall2
       (fun o n =>
          n = Workout.set_duration_minutes (Workout.duration_minutes n) o
          /\ (Workout.completed o <> 0 \/ Workout.date o < startOfWeek now
              \/ Workout.plan_id o <> TrainingPlan.id plan -> n = o))
       (workouts db) (workouts db').
Proof.
  intros Hnd Happ Hplan.
  destruct (applied_store _ _ _ _ _ _ Hnd Happ Hplan)
    as (stats & cw & _ & _ & _ & Hcw & ->).
  cbn [goals training_plans run_logs weekly_adjustments workouts].
  split; [reflexivity|]. split; [reflexivity|]. split; [reflexivity|]. split.
  - exists cw. unfold currentWorkoutOf in Hcw. apply earliest_In in Hcw.
    apply filter_In in Hcw. destruct Hcw as [Hin Hsel].
    apply andb_true_iff in Hsel. destruct Hsel as [Hp Hd].
    apply Z.eqb_eq in Hp. apply Z.leb_le in Hd. auto.
  - generalize (workouts db) as l. clear. intros l.
    induction l as [|o l IH]; simpl; constructor; [|exact IH].
    unfold isFuture.
    destruct (Z.eqb_spec (Workout.plan_id o) (TrainingPlan.id plan)) as [Ep|Ep];
      destruct (Z.leb_spec (startOfWeek now) (Workout.date o)) as [Ed|Ed];
      destruct (Z.eqb_spec (Workout.completed o) 0) as [Ec|Ec]; cbn [andb];
      (split; [destruct o; reflexivity|]); intros H; try reflexivity;
      exfalso; destruct H as [H|[H|H]]; try contradiction; lia.
Qed.

Lemma applied_adjustment_frame_witness :
  goals (snd (applyWeeklyAdjustment 9 7 reduce_store)) = goals reduce_store
  /\ training_plans (snd (applyWeeklyAdjustment 9 7 reduce_store))
     = training_plans reduce_store
  /\ run_logs (snd (applyWeeklyAdjustment 9 7 reduce_store)) = run_logs reduce_store
  /\ (exists w,
        In w (workouts reduce_store) /\ Workout.plan_id w = 1
        /\ startOfWeek 9 <= Workout.date w
        /\ weekly_adjustments (snd (applyWeeklyAdjustment 9 7 reduce_store)) =
           weekly_adjustments reduce_store ++
           [WeeklyAdjustment.mk (seq_weekly_adjustments reduce_store + 1) 7 1
              (Workout.week_number w) reduce
              "Pain levels are elevated. Reducing training to aid recovery."])
  /\ Forall2
       (fun o n =>
          n = Workout.set_duration_minutes (Workout.duration_minutes n) o
          /\ (Workout.completed o <> 0 \/ Workout.date o < startOfWeek 9
              \/ Workout.plan_id o <> 1 -> n = o))
       (workouts reduce_store)
       (workouts (snd (applyWeeklyAdjustment 9 7 reduce_store))).
Proof.
  apply (applied_adjustment_frame 9 7 reduce_store
           (snd (applyWeeklyAdjustment 9 7 reduce_store))
           (mkRec reduce "Pain levels are elevated. Reducing training to aid recovery."
                  0.7%Q (-1))
           (TrainingPlan.mk 1 1 7 0 60)).
  - simpl. repeat constructor; simpl; intuition discriminate.
  - vm_compute. reflexivity.
  - reflexivity.
Defined.

Lemma Math_round_integer (d : Z) : Math_round (inject_Z d) = inject_Z d.
Proof.
  unfold Math_round. f_equal.
  pose proof (Qfloor_le (inject_Z d + (1 # 2))) as Hlo.
  pose proof (Qlt_floor (inject_Z d + (1 # 2))) as Hhi.
  set (f := Qfloor (inject_Z d + (1 # 2))) in *.
  assert (f <= d) as H1.
  { apply Z.lt_succ_r. apply Z.nle_gt. intros Hc.
    assert (inject_Z (Z.succ d) <= inject_Z f)%Q as Hq by (rewrite <- Zle_Qle; exact Hc).
    unfold Z.succ in Hq. rewrite inject_Z_plus in Hq.
    change (inject_Z 1) with 1%Q in Hq. lra. }
  assert (d <= f) as H2.
  { apply Z.lt_succ_r. apply Z.nle_gt. intros Hc.
    assert (inject_Z (f + 1) <= inject_Z d)%Q as Hq
      by (rewrite <- Zle_Qle; unfold Z.succ in Hc; lia).
    lra. }
  lia.
Qed.

Lemma Math_round_mono (x y : Q) : (x <= y)%Q -> (Math_round x <= Math_round y)%Q.
Proof.
  intros H. unfold Math_round. rewrite <- Zle_Qle. apply Qfloor_resp_le. lra.
Qed.

(** X9. The direction of an applied adjustment on a selected workout
    whose duration is a whole, non-negative number of minutes (as every
    stored duration is): a reduce never lengthens it and an increase
    never shortens it. *)
Theorem adjustment_direction (now : Date) (userId : Z) (db db' : DB)
    (rec : AdjustmentRecommendation) (plan : TrainingPlan.t) (w : Workout.t) (d : Z) :
  NoDup (map Workout.id (workouts db)) ->
  applyWeeklyAdjustment now userId db = (mkResult true (Some rec), db') ->
  activePlan userId db = Some plan ->
  In w (workouts db) ->
  Workout.plan_id w = TrainingPlan.id plan ->
  startOfWeek now <= Workout.date w ->
  Workout.completed w = 0 ->
  Workout.duration_minutes w = inject_Z d -> 0 <= d ->
  exists newDuration,
    In (Workout.set_duration_minutes newDuration w) (workouts db')
    /\ (type rec = reduce \/ type rec = increase)
    /\ (type rec = reduce -> (newDuration <= Workout.duration_minutes w)%Q)
    /\ (type rec = increase -> (Workout.duration_minutes w <= newDuration)%Q).
Proof.
  intros Hnd Happ Hplan Hin Hpid Hdate Hc Hd Hd0.
  destruct (applied_store _ _ _ _ _ _ Hnd Happ Hplan)
    as (stats & cw & _ & Hrec & Hty & _ & ->).
  assert (0 <= inject_Z d)%Q as Hq by (rewrite <- (Zle_Qle 0); exact Hd0).
  exists (newDurationOf rec w). split; [|split; [|split]].
  - cbn [workouts]. apply in_map_iff. exists w. split; [|exact Hin].
    unfold isFuture. rewrite Hpid, Z.eqb_refl, Hc.
    destruct (Z.leb_spec (startOfWeek now) (Workout.date w)); [reflexivity|lia].
  - destruct (type rec); auto. congruence.
  - intros Hred. unfold newDurationOf. rewrite Hd.
    rewrite <- (Math_round_integer d) at 2. apply Math_round_mono.
    assert (0 <= effectiveMultiplier rec w <= 0.85)%Q as He.
    { pose proof (reduce_multiplier_le stats) as Hm.
      rewrite <- Hrec in Hm. specialize (Hm Hred).
      assert (0 <= volumeMultiplier rec)%Q as Hm0.
      { subst rec. unfold getAdjustmentRecommendation.
        repeat match goal with
               | |- context [if ?c then _ else _] => destruct c
               end; cbn; discriminate. }
      unfold effectiveMultiplier. destruct (_ && _)%bool; [|split; assumption].
      split; [|apply Q.max_lub; [exact Hm | lra]].
      eapply Qle_trans; [exact Hm0 | apply Q.le_max_l]. }
    pose proof (jsMul_error (inject_Z d) (effectiveMultiplier rec w) Hq (proj1 He))
      as Hmul.
    nra.
  - intros Hinc. unfold newDurationOf. rewrite Hd.
    rewrite <- (Math_round_integer d) at 1. apply Math_round_mono.
    assert (effectiveMultiplier rec w = 1.05%Q) as ->.
    { unfold effectiveMultiplier. rewrite Hinc. cbn [isReduce]. rewrite andb_false_r.
      subst rec. revert Hinc. unfold getAdjustmentRecommendation.
      repeat match goal with
             | |- context [if ?c then _ else _] => destruct c
             end; cbn; intros H; try discriminate H; reflexivity. }
    assert (0 <= 1.05)%Q as H105 by discriminate.
    pose proof (jsMul_error (inject_Z d) 1.05 Hq H105) as Hmul.
    nra.
Qed.

Lemma adjustment_direction_witness :
  exists newDuration,
    In (Workout.set_duration_minutes newDuration
          (Workout.mk 3 1 7 10 2 "easy" "Easy Run" "easy" 40%Q "low" "rest" 0 0 0))
       (workouts (snd (applyWeeklyAdjustment 9 7 reduce_store)))
    /\ (reduce = reduce \/ reduce = increase)
    /\ (reduce = reduce -> (newDuration <= 40)%Q)
    /\ (reduce = increase -> (40 <= newDuration)%Q).
Proof.
  apply (adjustment_direction 9 7 reduce_store
           (snd (applyWeeklyAdjustment 9 7 reduce_store))
           (mkRec reduce "Pain levels are elevated. Reducing training to aid recovery."
                  0.7%Q (-1))
           (TrainingPlan.mk 1 1 7 0 60)
           (Workout.mk 3 1 7 10 2 "easy" "Easy Run" "easy" 40%Q "low" "rest" 0 0 0) 40).
  - simpl. repeat constructor; simpl; intuition discriminate.
  - vm_compute. reflexivity.
  - reflexivity.
  - simpl. auto.
  - reflexivity.
  - vm_compute. discriminate.
  - reflexivity.
  - reflexivity.
  - lia.
Defined.

(** ** PlanGenerator: the rows of a plan *)

Lemma keyWorkoutDayOf_spec (dayNumbers : list Z) (kd : Z) :
  keyWorkoutDayOf dayNumbers = Some kd ->
  In kd dayNumbers /\ kd <> longRunDayOf dayNumbers.
Proof.
  unfold keyWorkoutDayOf. cbv zeta.
  destruct (0 <? len _).
  - intros H. apply nth_error_In in H. apply filter_In in H. destruct H as [Hin H].
    apply andb_true_iff in H. destruct H as [H _].
    apply andb_true_iff in H. destruct H as [H _].
    apply negb_true_iff, Z.eqb_neq in H. auto.
  - intros H. apply find_some in H. destruct H as [Hin H].
    apply negb_true_iff, Z.eqb_neq in H. auto.
Qed.

Lemma weekPlan_row_shape (planId userId weekNumber : Z) (weekStart : Date)
    (availableDays : list string) (weeklyVolume : Q) (experienceLevel : string)
    (maxWeekdayTime maxWeekendTime : Q) (v : Workout.t) :
  In v (weekPlan planId userId weekNumber weekStart availableDays weeklyVolume
          experienceLevel maxWeekdayTime maxWeekendTime) ->
  exists day duration,
    In day (dayNumbersOf availableDays)
    /\ (duration <= ceilingOf maxWeekdayTime maxWeekendTime day)%Q
    /\ (v = laidOut planId userId weekNumber weekStart longRunTemplate "long"
              day duration 1 1
        \/ (v = laidOut planId userId weekNumber weekStart tempoTemplate "tempo"
                  day duration 1 0
            /\ experienceLevel <> "beginner")
        \/ v = laidOut planId userId weekNumber weekStart easyTemplate "easy"
                 day duration 0 0).
Proof.
  unfold weekPlan.
  destruct (dayNumbersOf availableDays) as [|d0 ds] eqn:HD; [contradiction|].
  cbv zeta. intros [<-|H].
  - eexists _, _. split; [apply longRunDayOf_In; discriminate|].
    split; [apply Q.le_min_r|]. now left.
  - apply in_app_iff in H. destruct H as [H|H].
    + destruct (keyWorkoutDayOf (d0 :: ds)) as [kd|] eqn:Ek; [|contradiction].
      destruct (String.eqb_spec experienceLevel "beginner") as [Eb|Eb];
        [contradiction|].
      destruct H as [<-|[]].
      eexists _, _. split; [apply (keyWorkoutDayOf_spec _ _ Ek)|].
      split; [apply Q.le_min_r|]. right. left. split; [reflexivity | exact Eb].
    + apply in_map_iff in H. destruct H as (d & <- & Hd).
      apply filter_In in Hd. destruct Hd as [Hd _].
      eexists _, _. split; [exact Hd|].
      split; [apply Q.le_min_r|]. right. right. reflexivity.
Qed.

Lemma storedFrom_ids (vs : list Workout.t) : forall k,
  map Workout.id (storedFrom k vs) = map (fun i => k + Z.of_nat i) (seq 1 (length vs)).
Proof.
  induction vs as [|v vs IH]; intros k; [reflexivity|].
  cbn [storedFrom map length seq Workout.id stored].
  rewrite IH, <- (seq_shift (length vs) 1), map_map.
  replace (k + Z.of_nat 1) with (k + 1) by lia. f_equal.
  apply map_ext. intros i. lia.
Qed.

Lemma storedFrom_length (vs : list Workout.t) : forall k,
  length (storedFrom k vs) = length vs.
Proof. induction vs as [|v vs IH]; intros k; simpl; [reflexivity | now rewrite IH]. Qed.

(** The whole store after [generateTrainingPlan]. *)
Lemma generateTrainingPlan_store (now : Date) (goal : Goal.t) (db : DB) :
  let planId := seq_training_plans db + 1 in
  let rows := flat_map (planWeek now goal planId) (weeksOf (totalWeeksOf now goal)) in
  generateTrainingPlan now goal db =
  Some (planId,
        mkDB (goals db)
          (training_plans db ++
           [TrainingPlan.mk planId (Goal.id goal) (Goal.user_id goal) now
              (Goal.race_date goal)])
          (workouts db ++ storedFrom (seq_workouts db) rows)
          (run_logs db) (weekly_adjustments db)
          planId (seq_workouts db + len rows) (seq_weekly_adjustments db)).
Proof.
  intros planId rows. unfold generateTrainingPlan, insertTrainingPlan.
  rewrite (week_loop_rows _ (planWeek now goal planId)).
  - cbn [bindo]. rewrite insertRows_eq. reflexivity.
  - intros db0 week. cbn [bindo]. apply generateWeekWorkouts_plan.
Qed.

Lemma planWeek_weeks (now : Date) (goal : Goal.t) (planId : Z) (v : Workout.t) :
  In v (flat_map (planWeek now goal planId) (weeksOf (totalWeeksOf now goal))) ->
  exists week, 1 <= week <= totalWeeksOf now goal
               /\ In v (planWeek now goal planId week).
Proof.
  intros H. apply in_flat_map in H. destruct H as (week & Hw & Hv).
  exists week. split; [|exact Hv].
  unfold weeksOf in Hw. apply in_map_iff in Hw. destruct Hw as (n & <- & Hn).
  apply in_seq in Hn. lia.
Qed.

(** X10. The frame of plan generation, for a goal of ordinary size whose
    race distance, level and day names are not names every JavaScript
    object inherits: one plan row is appended (the goal, its athlete,
    today as start and the race date as end) under the next key; goals,
    run logs and adjustments are untouched; the workouts already stored
    stay as they are and the new rows follow them with fresh consecutive
    ids, all of the new plan and the goal's athlete, not completed, with
    week numbers from 1 to totalWeeks. *)
Theorem generated_plan_frame (now : Date) (goal : Goal.t) (db : DB) :
  ownNames goal ->
  ordinarySize now goal ->
  exists planId db' rows,
    generateTrainingPlan now goal db = Some (planId, db')
    /\ planId = seq_training_plans db + 1
    /\ training_plans db' =
       training_plans db ++
       [TrainingPlan.mk planId (Goal.id goal) (Goal.user_id goal) now (Goal.race_date goal)]
    /\ goals db' = goals db /\ run_logs db' = run_logs db
    /\ weekly_adjustments db' = weekly_adjustments db
    /\ workouts db' = workouts db ++ rows
    /\ map Workout.id rows
       = map (fun i => seq_workouts db + Z.of_nat i) (seq 1 (length rows))
    /\ seq_workouts db' = seq_workouts db + len rows
    /\ forall r, In r rows ->
         Workout.plan_id r = planId /\ Workout.user_id r = Goal.user_id goal
         /\ Workout.completed r = 0
         /\ 1 <= Workout.week_number r <= totalWeeksOf now goal.
Proof.
  intros _ _.
  pose proof (generateTrainingPlan_store now goal db) as H. cbv zeta in H.
  eexists _, _, _. split; [exact H|].
  cbn [training_plans goals run_logs weekly_adjustments workouts seq_workouts].
  repeat (split; [reflexivity|]).
  split; [rewrite storedFrom_length; apply storedFrom_ids|]. split.
  - unfold len. now rewrite storedFrom_length.
  - intros r Hr. apply storedFrom_In in Hr. destruct Hr as (v & i & Hv & ->).
    apply planWeek_weeks in Hv. destruct Hv as (week & Hw & Hv).
    unfold planWeek in Hv.
    destruct (weekPlan_week_number _ _ _ _ _ _ _ _ _ _ Hv) as (Hwn & Hpid).
    apply weekPlan_row_shape in Hv.
    destruct Hv as (day & dur & _ & _ & [->|[[-> _]| ->]]);
      cbn; repeat split; lia.
Qed.

Lemma generated_plan_frame_witness :
  ownNames sample_goal
  /\ ordinarySize 3 sample_goal
  /\ (exists planId db' rows,
       generateTrainingPlan 3 sample_goal empty_store = Some (planId, db')
       /\ planId = seq_training_plans empty_store + 1
       /\ training_plans db' =
          training_plans empty_store ++
          [TrainingPlan.mk planId (Goal.id sample_goal) (Goal.user_id sample_goal) 3 (Goal.race_date sample_goal)]
       /\ goals db' = goals empty_store /\ run_logs db' = run_logs empty_store
       /\ weekly_adjustments db' = weekly_adjustments empty_store
       /\ workouts db' = workouts empty_store ++ rows
       /\ map Workout.id rows
          = map (fun i => seq_workouts empty_store + Z.of_nat i) (seq 1 (length rows))
       /\ seq_workouts db' = seq_workouts empty_store + len rows
       /\ forall r, In r rows ->
            Workout.plan_id r = planId /\ Workout.user_id r = Goal.user_id sample_goal
            /\ Workout.completed r = 0
            /\ 1 <= Workout.week_number r <= totalWeeksOf 3 sample_goal).
Proof.
  split; [repeat split; reflexivity|].
  split; [repeat split; vm_compute; discriminate|].
  apply (generated_plan_frame 3 sample_goal empty_store).
  - repeat split; reflexivity.
  - repeat split; vm_compute; discriminate.
Defined.

(** X11. The kinds of workout a plan holds, whatever the level, for a
    goal of ordinary size whose race distance, level and day names are
    not names every JavaScript object inherits: a long run (key and
    long-run flags), a tempo run (key flag only, never for a beginner)
    or an easy run (no flag), each with its template's title and
    intensity. The key workout is always the tempo run: no interval
    workout is ever scheduled, not even for the levels and phases whose
    catalog offers one. *)
Theorem generated_workout_kinds (now : Date) (goal : Goal.t) (db : DB) :
  ownNames goal ->
  ordinarySize now goal ->
  exists planId db' rows,
    generateTrainingPlan now goal db = Some (planId, db')
    /\ workouts db' = workouts db ++ rows
    /\ forall r, In r rows ->
         Workout.workout_type r <> "interval"
         /\ ((Workout.workout_type r = "long" /\ Workout.title r = "Long Run"
              /\ Workout.intensity r = "low"
              /\ Workout.is_key_workout r = 1 /\ Workout.is_long_run r = 1)
             \/ (Workout.workout_type r = "tempo" /\ Workout.title r = "Tempo Run"
                 /\ Workout.intensity r = "moderate"
                 /\ Workout.is_key_workout r = 1 /\ Workout.is_long_run r = 0
                 /\ Goal.experience_level goal <> "beginner")
             \/ (Workout.workout_type r = "easy" /\ Workout.title r = "Easy Run"
                 /\ Workout.intensity r = "low"
                 /\ Workout.is_key_workout r = 0 /\ Workout.is_long_run r = 0)).
Proof.
  intros _ _.
  destruct (generateTrainingPlan_rows now goal db) as (db' & Hgen & Hrows).
  cbv zeta in Hgen, Hrows.
  eexists _, db', _. split; [exact Hgen|]. split; [exact Hrows|].
  intros r Hr. apply storedFrom_In in Hr. destruct Hr as (v & i & Hv & ->).
  apply planWeek_weeks in Hv. destruct Hv as (week & _ & Hv).
  unfold planWeek in Hv. apply weekPlan_row_shape in Hv.
  destruct Hv as (day & dur & _ & _ & [->|[[-> Hb]| ->]]); cbn.
  - split; [discriminate|]. left. repeat split.
  - split; [discriminate|]. right. left. repeat split. exact Hb.
  - split; [discriminate|]. right. right. repeat split.
Qed.

Lemma generated_workout_kinds_witness :
  ownNames sample_goal
  /\ ordinarySize 3 sample_goal
  /\ (exists planId db' rows,
       generateTrainingPlan 3 sample_goal empty_store = Some (planId, db')
       /\ workouts db' = workouts empty_store ++ rows
       /\ forall r, In r rows ->
            Workout.workout_type r <> "interval"
            /\ ((Workout.workout_type r = "long" /\ Workout.title r = "Long Run"
                 /\ Workout.intensity r = "low"
                 /\ Workout.is_key_workout r = 1 /\ Workout.is_long_run r = 1)
                \/ (Workout.workout_type r = "tempo" /\ Workout.title r = "Tempo Run"
                    /\ Workout.intensity r = "moderate"
                    /\ Workout.is_key_workout r = 1 /\ Workout.is_long_run r = 0
                    /\ Goal.experience_level sample_goal <> "beginner")
                \/ (Workout.workout_type r = "easy" /\ Workout.title r = "Easy Run"
                    /\ Workout.intensity r = "low"
                    /\ Workout.is_key_workout r = 0 /\ Workout.is_long_run r = 0))).
Proof.
  split; [repeat split; reflexivity|].
  split; [repeat split; vm_compute; discriminate|].
  apply (generated_workout_kinds 3 sample_goal empty_store).
  - repeat split; reflexivity.
  - repeat split; vm_compute; discriminate.
Defined.

Lemma laidOut_onDay (planId userId week : Z) (now : Date) (t : WorkoutTemplate.t)
    (type : string) (day : Z) (duration : Q) (isKey isLong rowid : Z) :
  0 <= day <= 6 ->
  onDay (stored rowid
           (laidOut planId userId week (addWeeks (startOfWeek now) (week - 1))
              t type day duration isKey isLong)) = day.
Proof.
  intros Hd. unfold onDay, stored, laidOut. cbn [Workout.date].
  rewrite weekStart_aligned. now apply getDay_dayOffset.
Qed.

(** X12. Time budget, for a goal of ordinary size whose race distance,
    level and day names are not names every JavaScript object inherits:
    every workout of a generated plan falls on a permitted day and lasts
    at most that day's ceiling, the weekend ceiling on Saturday and
    Sunday and the weekday ceiling otherwise. *)
Theorem generated_durations_within_ceiling (now : Date) (goal : Goal.t) (db : DB) :
  ownNames goal ->
  ordinarySize now goal ->
  exists planId db' rows,
    generateTrainingPlan now goal db = Some (planId, db')
    /\ workouts db' = workouts db ++ rows
    /\ forall r, In r rows ->
         In (onDay r) (dayNumbersOf (Goal.available_days goal))
         /\ (Workout.duration_minutes r
             <= if (onDay r =? 0) || (onDay r =? 6)
                then Goal.max_weekend_time goal
                else Goal.max_weekday_time goal)%Q.
Proof.
  intros _ _.
  destruct (generateTrainingPlan_rows now goal db) as (db' & Hgen & Hrows).
  cbv zeta in Hgen, Hrows.
  eexists _, db', _. split; [exact Hgen|]. split; [exact Hrows|].
  intros r Hr. apply storedFrom_In in Hr. destruct Hr as (v & i & Hv & ->).
  apply planWeek_weeks in Hv. destruct Hv as (week & _ & Hv).
  unfold planWeek in Hv. apply weekPlan_row_shape in Hv.
  destruct Hv as (day & dur & Hday & Hdur & Hv).
  assert (0 <= day <= 6) as Hrange
    by (apply (dayNumbers_range (Goal.available_days goal)); exact Hday).
  destruct Hv as [->|[[-> _]| ->]]; rewrite laidOut_onDay by exact Hrange;
    (split; [exact Hday | exact Hdur]).
Qed.

Lemma generated_durations_within_ceiling_witness :
  ownNames sample_goal
  /\ ordinarySize 3 sample_goal
  /\ (exists planId db' rows,
       generateTrainingPlan 3 sample_goal empty_store = Some (planId, db')
       /\ workouts db' = workouts empty_store ++ rows
       /\ forall r, In r rows ->
            In (onDay r) (dayNumbersOf (Goal.available_days sample_goal))
            /\ (Workout.duration_minutes r
                <= if (onDay r =? 0) || (onDay r =? 6)
                   then Goal.max_weekend_time sample_goal
                   else Goal.max_weekday_time sample_goal)%Q).
Proof.
  split; [repeat split; reflexivity|].
  split; [repeat split; vm_compute; discriminate|].
  apply (generated_durations_within_ceiling 3 sample_goal empty_store).
  - repeat split; reflexivity.
  - repeat split; vm_compute; discriminate.
Defined.

(** X13. For a goal of ordinary size with no recognised weekday name
    among the available days, whose race distance, level and day names
    are not names every JavaScript object inherits, the plan row is
    still created, and no workout at all. *)
Theorem plan_without_recognised_days (now : Date) (goal : Goal.t) (db : DB) :
  ownNames goal ->
  ordinarySize now goal ->
  dayNumbersOf (Goal.available_days goal) = [] ->
  exists db',
    generateTrainingPlan now goal db = Some (seq_training_plans db + 1, db')
    /\ workouts db' = workouts db
    /\ training_plans db' =
       training_plans db ++
       [TrainingPlan.mk (seq_training_plans db + 1) (Goal.id goal) (Goal.user_id goal)
          now (Goal.race_date goal)].
Proof.
  intros _ _.
  intros HD.
  assert (flat_map (planWeek now goal (seq_training_plans db + 1))
            (weeksOf (totalWeeksOf now goal)) = []) as Hrows.
  { induction (weeksOf (totalWeeksOf now goal)) as [|w l IH]; [reflexivity|].
    cbn [flat_map]. rewrite IH. unfold planWeek, weekPlan. now rewrite HD. }
  pose proof (generateTrainingPlan_store now goal db) as H. cbv zeta in H.
  eexists. split; [exact H|]. cbn [workouts training_plans].
  split; [|reflexivity].
  rewrite Hrows. cbn. apply app_nil_r.
Qed.

Lemma plan_without_recognised_days_witness :
  exists db',
    generateTrainingPlan 2 (Goal.mk 1 7 "5k" 30 None "beginner" 3%Q 30%Q
                              ["Mon"; "Wed"] 60%Q 90%Q 1) empty_store
    = Some (seq_training_plans empty_store + 1, db')
    /\ workouts db' = workouts empty_store
    /\ training_plans db' =
       training_plans empty_store ++
       [TrainingPlan.mk (seq_training_plans empty_store + 1) 1 7 2 30].
Proof.
  apply (plan_without_recognised_days 2
           (Goal.mk 1 7 "5k" 30 None "beginner" 3%Q 30%Q ["Mon"; "Wed"] 60%Q 90%Q 1)
           empty_store).
  - repeat split; reflexivity.
  - repeat split; vm_compute; discriminate.
  - reflexivity.
Defined.

(** ** PlanGenerator: days of the week *)

Lemma perm_extract (l : list Z) (a : Z) :
  NoDup l -> In a l -> Permutation (a :: filter (fun d => negb (d =? a)) l) l.
Proof.
  induction l as [|x l IH]; intros Hnd Hin; [contradiction|].
  inversion Hnd as [|? ? Hx Hnd']; subst. cbn [filter].
  destruct (Z.eqb_spec x a) as [->|Hne]; cbn [negb].
  - rewrite filter_all; [reflexivity|].
    intros y Hy. apply negb_true_iff, Z.eqb_neq. intros ->. contradiction.
  - destruct Hin as [E|Hin]; [contradiction|].
    etransitivity; [apply perm_swap|]. apply perm_skip. now apply IH.
Qed.

Lemma filter_filter {A : Type} (p q : A -> bool) (l : list A) :
  filter p (filter q l) = filter (fun x => q x && p x) l.
Proof.
  induction l as [|x l IH]; [reflexivity|]. cbn [filter].
  destruct (q x); cbn [filter andb]; [destruct (p x)|]; now rewrite IH.
Qed.

Lemma NoDup_filter_Z (p : Z -> bool) (l : list Z) : NoDup l -> NoDup (filter p l).
Proof.
  induction 1 as [|x l Hx Hnd IH]; cbn [filter]; [constructor|].
  destruct (p x); [|exact IH]. constructor; [|exact IH].
  intros H. apply filter_In in H. now destruct H.
Qed.

(** The permitted days split into the long-run day, the day reserved for
    the key workout, and the easy days. *)
Lemma days_partition (dayNumbers : list Z) :
  NoDup dayNumbers -> dayNumbers <> [] ->
  Permutation
    (longRunDayOf dayNumbers
     :: match keyWorkoutDayOf dayNumbers with Some kd => [kd] | None => [] end
     ++ filter (fun d => negb (d =? longRunDayOf dayNumbers)
                         && differs d (keyWorkoutDayOf dayNumbers)) dayNumbers)
    dayNumbers.
Proof.
  intros Hnd Hne.
  pose proof (longRunDayOf_In dayNumbers Hne) as Hlong.
  etransitivity; [|apply (perm_extract dayNumbers _ Hnd Hlong)].
  apply perm_skip.
  destruct (keyWorkoutDayOf dayNumbers) as [kd|] eqn:Ek; cbn [app differs].
  - destruct (keyWorkoutDayOf_spec _ _ Ek) as [Hin Hneq].
    rewrite <- filter_filter.
    apply perm_extract.
    + now apply NoDup_filter_Z.
    + apply filter_In. split; [exact Hin|]. now apply negb_true_iff, Z.eqb_neq.
  - erewrite filter_ext; [reflexivity|]. intros d. now rewrite andb_true_r.
Qed.

Lemma weekPlan_onDay (planId userId weekNumber : Z) (x : Date)
    (availableDays : list string) (weeklyVolume : Q) (experienceLevel : string)
    (maxWeekdayTime maxWeekendTime : Q) :
  let dayNumbers := dayNumbersOf availableDays in
  dayNumbers <> [] ->
  map onDay (weekPlan planId userId weekNumber (startOfWeek x) availableDays
               weeklyVolume experienceLevel maxWeekdayTime maxWeekendTime)
  = longRunDayOf dayNumbers
    :: match keyWorkoutDayOf dayNumbers with
       | Some kd => if negb (String.eqb experienceLevel "beginner") then [kd] else []
       | None => []
       end
    ++ filter (fun d => negb (d =? longRunDayOf dayNumbers)
                        && differs d (keyWorkoutDayOf dayNumbers)) dayNumbers.
Proof.
  intros dayNumbers Hne. unfold weekPlan. fold dayNumbers.
  assert (forall d, In d dayNumbers -> getDay (addDays (startOfWeek x) (dayOffset d)) = d)
    as Hday.
  { intros d Hd. apply getDay_dayOffset. now apply (dayNumbers_range availableDays). }
  pose proof (longRunDayOf_In dayNumbers Hne) as Hlong.
  destruct dayNumbers as [|d0 ds] eqn:HD; [congruence|].
  cbv zeta. cbn [map]. rewrite map_app, map_map. f_equal.
  - unfold onDay, laidOut. cbn [Workout.date]. now apply Hday.
  - f_equal.
    + destruct (keyWorkoutDayOf (d0 :: ds)) as [kd|] eqn:Ek; [|reflexivity].
      destruct (negb _); [|reflexivity]. cbn [fst map]. f_equal.
      unfold onDay, laidOut. cbn [Workout.date].
      apply Hday. apply (keyWorkoutDayOf_spec _ _ Ek).
    + rewrite <- (map_id (filter _ (d0 :: ds))) at 2.
      apply map_ext_in. intros d Hd. apply filter_In in Hd.
      unfold onDay, laidOut. cbn [Workout.date]. now apply Hday.
Qed.

Lemma week_rows_onDay (now : Date) (goal : Goal.t) (planId week k : Z) :
  1 <= week <= totalWeeksOf now goal ->
  map onDay
    (filter (fun r => Workout.week_number r =? week)
       (storedFrom k
          (flat_map (planWeek now goal planId) (weeksOf (totalWeeksOf now goal)))))
  = map onDay (planWeek now goal planId week).
Proof.
  intros Hw. symmetry.
  apply (Forall2_map_eq (fun v r => exists rowid, r = stored rowid v)).
  - intros v r (i & ->). reflexivity.
  - now apply plan_week_rows.
Qed.

(** X14. With distinct permitted days, a week of a plan for a
    non-beginner holds exactly one workout on every permitted day; for a
    beginner with two or more permitted days exactly one permitted day
    (the one reserved for the key workout) is left without a workout and
    every other one holds exactly one. The goal is of ordinary size and
    its race distance, level and day names are not names every
    JavaScript object inherits, and the number of weeks does not depend
    on the time of day. *)
Theorem one_workout_per_permitted_day (now : Date) (goal : Goal.t) (db : DB) :
  ownNames goal ->
  ordinarySize now goal ->
  weekCountSettled now goal ->
  NoDup (dayNumbersOf (Goal.available_days goal)) ->
  exists planId db' rows,
    generateTrainingPlan now goal db = Some (planId, db')
    /\ workouts db' = workouts db ++ rows
    /\ forall week, 1 <= week <= totalWeeksOf now goal ->
         let days := map onDay (filter (fun r => Workout.week_number r =? week) rows) in
         (Goal.experience_level goal <> "beginner" ->
          Permutation days (dayNumbersOf (Goal.available_days goal)))
         /\ (Goal.experience_level goal = "beginner" ->
             (2 <= length (dayNumbersOf (Goal.available_days goal)))%nat ->
             exists restDay,
               Permutation (restDay :: days) (dayNumbersOf (Goal.available_days goal))).
Proof.
  intros _ _ _.
  intros Hnd.
  destruct (generateTrainingPlan_rows now goal db) as (db' & Hgen & Hrows).
  cbv zeta in Hgen, Hrows.
  eexists _, db', _. split; [exact Hgen|]. split; [exact Hrows|].
  intros week Hw. cbv zeta. rewrite (week_rows_onDay _ _ _ _ _ Hw).
  unfold planWeek. rewrite weekStart_aligned.
  destruct (dayNumbersOf (Goal.available_days goal)) as [|d0 ds] eqn:HD.
  { unfold weekPlan. rewrite HD. cbn. split; [reflexivity|]. intros _ H. lia. }
  rewrite <- HD in Hnd |- *.
  assert (dayNumbersOf (Goal.available_days goal) <> []) as Hne by congruence.
  pose proof (weekPlan_onDay (seq_training_plans db + 1) (Goal.user_id goal) week
                (addWeeks (startOfWeek now) (week - 1)) (Goal.available_days goal)
                (calculateWeeklyVolume (totalWeeksOf now goal) (raceConfigOf goal)
                   (experienceMultiplierOf goal) (Goal.current_frequency goal)
                   (Goal.longest_recent_run goal) week)
                (Goal.experience_level goal) (Goal.max_weekday_time goal)
                (Goal.max_weekend_time goal)) as Hdays.
  cbv zeta in Hdays. rewrite Hdays by exact Hne. clear Hdays.
  pose proof (days_partition _ Hnd Hne) as Hperm.
  assert (2 <= length (dayNumbersOf (Goal.available_days goal)) ->
          keyWorkoutDayOf (dayNumbersOf (Goal.available_days goal)) <> None)%nat
    as Hkey.
  { intros Hlen Ek. rewrite Ek in Hperm. cbn [app] in Hperm.
    rewrite filter_none in Hperm.
    - apply Permutation_length in Hperm. cbn [length] in Hperm. lia.
    - intros d Hd. cbn [differs]. rewrite andb_true_r.
      apply negb_false_iff, Z.eqb_eq.
      unfold keyWorkoutDayOf in Ek. cbv zeta in Ek.
      destruct (0 <? len _) eqn:Ec in Ek.
      + apply len_pos in Ec. exfalso.
        destruct (filter _ (dayNumbersOf (Goal.available_days goal)))
          as [|c cs] eqn:Ef in Ek, Ec; [now apply Ec|].
        unfold len in Ek. cbn [length] in Ek.
        apply nth_error_None in Ek. cbn [length] in Ek.
        assert (Z.of_nat (S (length cs)) / 2 < Z.of_nat (S (length cs)))
          by (apply Z.div_lt; lia).
        lia.
      + pose proof (find_none _ _ Ek d Hd) as Hf.
        now apply negb_false_iff, Z.eqb_eq in Hf. }
  clear HD.
  split.
  - intros Hb. apply String.eqb_neq in Hb. rewrite Hb. cbn [negb].
    exact Hperm.
  - intros Hb Hlen. rewrite Hb. cbn [String.eqb negb].
    change (String.eqb "beginner" "beginner") with true. cbn [negb].
    destruct (keyWorkoutDayOf (dayNumbersOf (Goal.available_days goal)))
      as [kd|] eqn:Ek.
    + exists kd. cbn [app] in *.
      etransitivity; [apply perm_swap | exact Hperm].
    + exfalso. now apply Hkey.
Qed.

Lemma one_workout_per_permitted_day_witness :
  exists planId db' rows,
    generateTrainingPlan 3 sample_goal empty_store = Some (planId, db')
    /\ workouts db' = workouts empty_store ++ rows
    /\ forall week, 1 <= week <= totalWeeksOf 3 sample_goal ->
         let days := map onDay (filter (fun r => Workout.week_number r =? week) rows) in
         (Goal.experience_level sample_goal <> "beginner" ->
          Permutation days (dayNumbersOf (Goal.available_days sample_goal)))
         /\ (Goal.experience_level sample_goal = "beginner" ->
             (2 <= length (dayNumbersOf (Goal.available_days sample_goal)))%nat ->
             exists restDay,
               Permutation (restDay :: days)
                 (dayNumbersOf (Goal.available_days sample_goal))).
Proof.
  apply (one_workout_per_permitted_day 3 sample_goal empty_store).
  - repeat split; reflexivity.
  - repeat split; vm_compute; discriminate.
  - reflexivity.
  - vm_compute. repeat constructor; simpl; intuition discriminate.
Defined.

(** ** PlanGenerator: the key workout *)

Lemma keyWorkoutDayOf_some (dayNumbers : list Z) :
  (exists d, In d dayNumbers /\ d <> longRunDayOf dayNumbers) ->
  exists kd, keyWorkoutDayOf dayNumbers = Some kd.
Proof.
  intros (d & Hd & Hne). unfold keyWorkoutDayOf. cbv zeta.
  destruct (0 <? len _) eqn:Ec.
  - apply len_pos in Ec.
    destruct (filter _ dayNumbers) as [|c cs]; [now contradiction Ec|].
    destruct (nth_error (c :: cs) (Z.to_nat (len (c :: cs) / 2))) as [kd|] eqn:En;
      [now exists kd|].
    apply nth_error_None in En. unfold len in En. cbn [length] in En.
    assert (Z.of_nat (S (length cs)) / 2 < Z.of_nat (S (length cs)))
      by (apply Z.div_lt; lia).
    lia.
  - destruct (find _ dayNumbers) as [kd|] eqn:Ef; [now exists kd|].
    pose proof (find_none _ _ Ef d Hd) as Hf.
    apply negb_false_iff, Z.eqb_eq in Hf. contradiction.
Qed.

Lemma keyWorkoutDayOf_apart (dayNumbers : list Z) (kd : Z) :
  keyWorkoutDayOf dayNumbers = Some kd ->
  (exists d, In d dayNumbers
             /\ notAdjacent (Some (longRunDayOf dayNumbers)) d = true) ->
  notAdjacent (Some (longRunDayOf dayNumbers)) kd = true.
Proof.
  intros Ek (d & Hd & Hfar). unfold keyWorkoutDayOf in Ek. cbv zeta in Ek.
  cbn [notAdjacent] in *.
  assert (In d (filter (fun d => negb (d =? longRunDayOf dayNumbers)
                                 && (1 <? Z.abs (d - longRunDayOf dayNumbers))
                                 && negb (Z.abs (d - longRunDayOf dayNumbers) =? 6))
                  dayNumbers)) as Hin.
  { apply filter_In. split; [exact Hd|].
    apply andb_true_iff in Hfar. destruct Hfar as [H1 H6]. rewrite H1, H6.
    rewrite !andb_true_r. apply negb_true_iff, Z.eqb_neq.
    apply Z.ltb_lt in H1. lia. }
  assert ((0 <? len (filter (fun d => negb (d =? longRunDayOf dayNumbers)
                                 && (1 <? Z.abs (d - longRunDayOf dayNumbers))
                                 && negb (Z.abs (d - longRunDayOf dayNumbers) =? 6))
                  dayNumbers)) = true) as Ec.
  { apply len_pos. intros E. rewrite E in Hin. contradiction. }
  rewrite Ec in Ek. apply nth_error_In, filter_In in Ek.
  destruct Ek as [_ Hk]. apply andb_true_iff in Hk. destruct Hk as [Hk H6].
  apply andb_true_iff in Hk. destruct Hk as [_ H1]. now rewrite H1, H6.
Qed.

Lemma weekPlan_key_rows (planId userId weekNumber : Z) (weekStart : Date)
    (availableDays : list string) (weeklyVolume : Q) (experienceLevel : string)
    (maxWeekdayTime maxWeekendTime : Q) (kd : Z) :
  keyWorkoutDayOf (dayNumbersOf availableDays) = Some kd ->
  experienceLevel <> "beginner" ->
  filter isKeyRow
    (weekPlan planId userId weekNumber weekStart availableDays weeklyVolume
       experienceLevel maxWeekdayTime maxWeekendTime)
  = [ laidOut planId userId weekNumber weekStart tempoTemplate "tempo" kd
        (Qmin (Math_round
                 ((weeklyVolume
                   - Qmin (Math_round (weeklyVolume * 0.35))
                          (ceilingOf maxWeekdayTime maxWeekendTime
                             (longRunDayOf (dayNumbersOf availableDays)))) * 0.3))
              (ceilingOf maxWeekdayTime maxWeekendTime kd)) 1 0 ].
Proof.
  intros Ek Hb. apply String.eqb_neq in Hb. unfold weekPlan.
  destruct (dayNumbersOf availableDays) as [|d0 ds] eqn:HD.
  { exfalso. apply keyWorkoutDayOf_spec in Ek. now destruct Ek. }
  cbv zeta. rewrite Ek, Hb. cbn [negb fst snd filter app].
  change (isKeyRow (laidOut _ _ _ _ _ _ _ _ 1 1)) with false.
  change (isKeyRow (laidOut _ _ _ _ _ _ _ _ 1 0)) with true.
  cbv iota. f_equal.
  apply filter_none. intros x Hx. apply in_map_iff in Hx.
  destruct Hx as (d & <- & _). reflexivity.
Qed.

(** X15. Key workout: in a plan for a goal above beginner level with at
    least two distinct recognised permitted days, every week holds,
    beside its long run, exactly one key workout. It is a tempo run on a
    permitted day other than the long run's; whenever some permitted day
    is neither the day before nor the day after the long run (Saturday
    and Sunday counting as neighbours) the key workout is on such a day;
    it lasts min(m, ceiling of its day) for a whole number m of minutes
    within 0.501 of 0.3 * (weeklyVolume - longRunDuration), and m is the
    rounded share whenever that rounding does not depend on the last
    digits of the product. The goal is of ordinary size and its race
    distance, level and day names are not names every JavaScript object
    inherits, and the number of weeks does not depend on the time of
    day. *)
Theorem key_workout_placement (now : Date) (goal : Goal.t) (db : DB) :
  ownNames goal ->
  ordinarySize now goal ->
  weekCountSettled now goal ->
  Goal.experience_level goal <> "beginner" ->
  (exists d1 d2, In d1 (dayNumbersOf (Goal.available_days goal))
                 /\ In d2 (dayNumbersOf (Goal.available_days goal)) /\ d1 <> d2) ->
  exists planId db' rows,
    generateTrainingPlan now goal db = Some (planId, db')
    /\ workouts db' = workouts db ++ rows
    /\ forall week, 1 <= week <= totalWeeksOf now goal ->
        exists longRun key,
          filter isLongRunRow
            (filter (fun r => Workout.week_number r =? week) rows) = [longRun]
          /\ filter isKeyRow
               (filter (fun r => Workout.week_number r =? week) rows) = [key]
          /\ Workout.workout_type key = "tempo"
          /\ In (onDay key) (dayNumbersOf (Goal.available_days goal))
          /\ onDay key <> onDay longRun
          /\ ((exists d, In d (dayNumbersOf (Goal.available_days goal))
                         /\ notAdjacent (Some (onDay longRun)) d = true) ->
              notAdjacent (Some (onDay longRun)) (onDay key) = true)
          /\ (let share :=
                ((calculateWeeklyVolume (totalWeeksOf now goal)
                    (raceConfigOf goal) (experienceMultiplierOf goal)
                    (Goal.current_frequency goal)
                    (Goal.longest_recent_run goal) week
                  - Workout.duration_minutes longRun) * 0.3)%Q in
              let ceiling := if (onDay key =? 0) || (onDay key =? 6)
                             then Goal.max_weekend_time goal
                             else Goal.max_weekday_time goal in
              (exists minutes : Z,
                 (share - (501 # 1000) <= inject_Z minutes
                  <= share + (501 # 1000))%Q
                 /\ Workout.duration_minutes key = Qmin (inject_Z minutes) ceiling)
              /\ (roundsStably share ->
                  Workout.duration_minutes key = Qmin (Math_round share) ceiling)).
Proof.
  intros _ _ _.
  intros Hb (d1 & d2 & H1 & H2 & H12).
  assert (dayNumbersOf (Goal.available_days goal) <> []) as HD
    by (intros E; rewrite E in H1; contradiction).
  destruct (keyWorkoutDayOf_some (dayNumbersOf (Goal.available_days goal)))
    as (kd & Ek).
  { destruct (Z.eq_dec d1 (longRunDayOf (dayNumbersOf (Goal.available_days goal))))
      as [E|E]; [exists d2 | exists d1]; split; congruence. }
  destruct (keyWorkoutDayOf_spec _ _ Ek) as [Hkin Hkne].
  pose proof (longRunDayOf_In _ HD) as Hlin.
  pose proof (dayNumbers_range (Goal.available_days goal)) as Hrange.
  destruct (generateTrainingPlan_rows now goal db) as (db' & Hgen & Hrows).
  cbv zeta in Hgen, Hrows.
  eexists _, db', _. split; [exact Hgen|]. split; [exact Hrows|].
  intros week Hw.
  pose proof (plan_week_rows now goal (seq_training_plans db + 1) week
                (seq_workouts db) Hw) as H.
  pose proof H as Hk.
  apply (Forall2_filter _ isLongRunRow isLongRunRow) in H;
    [|intros v r (i & ->); reflexivity].
  apply (Forall2_filter _ isKeyRow isKeyRow) in Hk;
    [|intros v r (i & ->); reflexivity].
  unfold planWeek in H at 1. rewrite weekPlan_long_runs in H by exact HD.
  unfold planWeek in Hk at 1. rewrite (weekPlan_key_rows _ _ _ _ _ _ _ _ _ _ Ek Hb) in Hk.
  inversion H as [|v r l1 l2 (i & Hr) Hnil Hv Heq]; subst.
  inversion Hnil; subst.
  inversion Hk as [|v' r' l1' l2' (j & Hr') Hnil' Hv' Heq']; subst.
  inversion Hnil'; subst.
  eexists _, _. split; [reflexivity|]. split; [reflexivity|].
  rewrite !laidOut_onDay by (now apply Hrange).
  split; [reflexivity|]. split; [exact Hkin|]. split; [exact Hkne|].
  split; [now apply keyWorkoutDayOf_apart|].
  cbv zeta. split; [|intros _; reflexivity].
  match goal with
  | |- context [(?x - (501 # 1000) <= _)%Q] =>
      destruct (Math_round_near x) as (m & Hm & Hnear)
  end.
  exists m. split; [exact Hnear|]. rewrite <- Hm. reflexivity.
Qed.

Lemma key_workout_placement_witness :
  exists planId db' rows,
    generateTrainingPlan 3 sample_goal empty_store = Some (planId, db')
    /\ workouts db' = workouts empty_store ++ rows
    /\ forall week, 1 <= week <= totalWeeksOf 3 sample_goal ->
        exists longRun key,
          filter isLongRunRow
            (filter (fun r => Workout.week_number r =? week) rows) = [longRun]
          /\ filter isKeyRow
               (filter (fun r => Workout.week_number r =? week) rows) = [key]
          /\ Workout.workout_type key = "tempo"
          /\ In (onDay key) (dayNumbersOf (Goal.available_days sample_goal))
          /\ onDay key <> onDay longRun
          /\ ((exists d, In d (dayNumbersOf (Goal.available_days sample_goal))
                         /\ notAdjacent (Some (onDay longRun)) d = true) ->
              notAdjacent (Some (onDay longRun)) (onDay key) = true)
          /\ (let share :=
                ((calculateWeeklyVolume (totalWeeksOf 3%Z sample_goal)
                    (raceConfigOf sample_goal) (experienceMultiplierOf sample_goal)
                    (Goal.current_frequency sample_goal)
                    (Goal.longest_recent_run sample_goal) week
                  - Workout.duration_minutes longRun) * 0.3)%Q in
              let ceiling := if (onDay key =? 0) || (onDay key =? 6)
                             then Goal.max_weekend_time sample_goal
                             else Goal.max_weekday_time sample_goal in
              (exists minutes : Z,
                 (share - (501 # 1000) <= inject_Z minutes
                  <= share + (501 # 1000))%Q
                 /\ Workout.duration_minutes key = Qmin (inject_Z minutes) ceiling)
              /\ (roundsStably share ->
                  Workout.duration_minutes key = Qmin (Math_round share) ceiling)).
Proof.
  apply (key_workout_placement 3 sample_goal empty_store).
  - repeat split; reflexivity.
  - repeat split; vm_compute; discriminate.
  - reflexivity.
  - discriminate.
  - exists 2, 4. vm_compute. intuition discriminate.
Defined.

(** ** PlanGenerator: the minutes of a week *)

Lemma Math_round_nonneg (x : Q) : (0 <= x)%Q -> (0 <= Math_round x)%Q.
Proof.
  intros H. unfold Math_round. change 0%Q with (inject_Z 0).
  rewrite <- Zle_Qle. change 0 with (Qfloor (inject_Z 0)).
  apply Qfloor_resp_le. change (inject_Z 0) with 0%Q. lra.
Qed.

Lemma Math_round_le_half (x : Q) : (Math_round x <= x + (1 # 2))%Q.
Proof. unfold Math_round. apply Qfloor_le. Qed.

(** A share of at most one half of a non-negative volume, rounded, does
    not exceed the volume. *)
Lemma Math_round_share (v c : Q) :
  (0 <= v)%Q -> (0 <= c)%Q -> (c <= 1 # 2)%Q -> (Math_round (v * c) <= v)%Q.
Proof.
  intros Hv Hc0 Hc. pose proof (Math_round_le_half (v * c)) as Hr.
  destruct (Qlt_le_dec v 1) as [Hlt|Hge].
  - assert (Math_round (v * c) <= 0)%Q as H0; [|lra].
    unfold Math_round in *. change 0%Q with (inject_Z 0). rewrite <- Zle_Qle.
    apply Z.lt_succ_r. apply Z.nle_gt. intros Hcon.
    assert (inject_Z 1 <= inject_Z (Qfloor (v * c + (1 # 2))))%Q as Hq
      by (rewrite <- Zle_Qle; lia).
    change (inject_Z 1) with 1%Q in Hq. nra.
  - nra.
Qed.

Lemma len_cons {A : Type} (x : A) (l : list A) :
  (inject_Z (len (x :: l)) == inject_Z (len l) + 1)%Q.
Proof.
  unfold len. cbn [length]. rewrite Nat2Z.inj_succ. unfold Z.succ.
  rewrite inject_Z_plus. reflexivity.
Qed.

Lemma len_nonneg {A : Type} (l : list A) : (0 <= inject_Z (len l))%Q.
Proof. change 0%Q with (inject_Z 0). rewrite <- Zle_Qle. unfold len. lia. Qed.

Lemma plannedMinutes_app (l1 l2 : list Workout.t) :
  (plannedMinutes (l1 ++ l2) == plannedMinutes l1 + plannedMinutes l2)%Q.
Proof.
  unfold plannedMinutes. induction l1 as [|x l1 IH]; cbn [app map fold_right].
  - lra.
  - rewrite IH. lra.
Qed.

Lemma plannedMinutes_linked (vs rows : list Workout.t) :
  Forall2 linked vs rows -> plannedMinutes rows = plannedMinutes vs.
Proof.
  intros H. unfold plannedMinutes. f_equal. symmetry.
  apply (Forall2_map_eq linked); [|exact H].
  intros v r (i & ->). reflexivity.
Qed.

Section WeekMinutes.
Variables planId userId weekNumber : Z.
Variable weekStart : Date.
Variable availableDays : list string.
Variable weeklyVolume : Q.
Variable experienceLevel : string.
Variables maxWeekdayTime maxWeekendTime : Q.
Hypothesis volume_nonneg : (0 <= weeklyVolume)%Q.

Local Abbreviation thePlan :=
  (weekPlan planId userId weekNumber weekStart availableDays weeklyVolume
     experienceLevel maxWeekdayTime maxWeekendTime).
Local Abbreviation easyRow e :=
  (fun day => laidOut planId userId weekNumber weekStart easyTemplate "easy" day
                (Qmin e (ceilingOf maxWeekdayTime maxWeekendTime day)) 0 0).

Lemma easy_minutes (e : Q) (days : list Z) :
  (plannedMinutes (map (easyRow e) days) <= inject_Z (len days) * e)%Q.
Proof.
  induction days as [|d days IH].
  - unfold plannedMinutes, len. cbn [map fold_right length Z.of_nat].
    change (inject_Z 0) with 0%Q. lra.
  - rewrite len_cons. unfold plannedMinutes in *. cbn [map fold_right].
    unfold laidOut at 1. cbn [Workout.duration_minutes].
    pose proof (Q.le_min_l e (ceilingOf maxWeekdayTime maxWeekendTime d)). lra.
Qed.

Lemma week_minutes :
  (plannedMinutes thePlan
   <= weeklyVolume + inject_Z (len (filter isEasyRow thePlan)) * (1 # 2))%Q.
Proof.
  unfold weekPlan. destruct (dayNumbersOf availableDays) as [|d0 ds].
  { unfold plannedMinutes, len. cbn [map fold_right filter length Z.of_nat].
    change (inject_Z 0) with 0%Q. lra. }
  cbv zeta.
  set (easyDays := filter (fun d => negb (d =? longRunDayOf (d0 :: ds))
                                    && differs d (keyWorkoutDayOf (d0 :: ds)))
                     (d0 :: ds)).
  cbn [filter].
  change (isEasyRow (laidOut _ _ _ _ _ _ _ _ 1 1)) with false. cbv iota.
  rewrite filter_app.
  rewrite (filter_all isEasyRow (map _ _))
    by (intros x Hx; apply in_map_iff in Hx; destruct Hx as (d & <- & _); reflexivity).
  rewrite (filter_none isEasyRow).
  2:{ intros x Hx. destruct (keyWorkoutDayOf (d0 :: ds)); [|contradiction].
      destruct (negb _); [|contradiction]. destruct Hx as [<-|[]]. reflexivity. }
  cbn [app].
  replace (len (map _ easyDays)) with (len easyDays)
    by (unfold len; now rewrite length_map).
  set (longDur := Qmin (Math_round (weeklyVolume * 0.35))
                       (ceilingOf maxWeekdayTime maxWeekendTime
                          (longRunDayOf (d0 :: ds)))).
  assert (longDur <= weeklyVolume)%Q as Hlong.
  { eapply Qle_trans; [apply Q.le_min_l|].
    apply Math_round_share; [exact volume_nonneg | lra | lra]. }
  set (keyPart := match keyWorkoutDayOf (d0 :: ds) with
                  | Some kd => _ | None => _ end).
  assert (plannedMinutes (fst keyPart) + snd keyPart == weeklyVolume - longDur
          /\ 0 <= snd keyPart)%Q as [Hkey Hrest].
  { unfold keyPart. destruct (keyWorkoutDayOf (d0 :: ds)) as [kd|].
    - destruct (negb _); cbn [fst snd].
      + unfold plannedMinutes, laidOut. cbn [map fold_right Workout.duration_minutes].
        split; [lra|].
        assert (Qmin (Math_round ((weeklyVolume - longDur) * 0.3))
                     (ceilingOf maxWeekdayTime maxWeekendTime kd)
                <= weeklyVolume - longDur)%Q; [|lra].
        eapply Qle_trans; [apply Q.le_min_l|].
        apply Math_round_share; lra.
      + unfold plannedMinutes. cbn. split; lra.
    - unfold plannedMinutes. cbn. split; lra. }
  change (plannedMinutes (?x :: ?l)) with (Workout.duration_minutes x + plannedMinutes l)%Q.
  unfold laidOut at 1. cbn [Workout.duration_minutes]. fold longDur.
  rewrite plannedMinutes_app.
  pose proof (easy_minutes (Math_round (snd keyPart / inject_Z (len easyDays))) easyDays)
    as Heasy.
  pose proof (Math_round_le_half (snd keyPart / inject_Z (len easyDays))) as Hround.
  pose proof (len_nonneg easyDays) as Hn.
  set (n := inject_Z (len easyDays)) in *.
  set (e := Math_round (snd keyPart / n)) in *.
  set (easies := plannedMinutes (map _ easyDays)) in *.
  destruct (Qeq_dec n 0) as [Hz|Hnz].
  - assert (easies <= 0)%Q by (rewrite Hz in Heasy; lra). rewrite Hz. lra.
  - assert (n * (snd keyPart / n) == snd keyPart)%Q as Hdiv by (now apply Qmult_div_r).
    assert (n * e <= n * (snd keyPart / n + (1 # 2)))%Q as Hne.
    { apply Qmult_le_l; [|exact Hround]. lra. }
    lra.
Qed.

Hypothesis weekday_nonneg : (0 <= maxWeekdayTime)%Q.
Hypothesis weekend_nonneg : (0 <= maxWeekendTime)%Q.

Lemma ceiling_nonneg (d : Z) : (0 <= ceilingOf maxWeekdayTime maxWeekendTime d)%Q.
Proof. unfold ceilingOf. now destruct (isWeekendDay d). Qed.

Lemma week_durations_nonneg :
  Forall (fun v => 0 <= Workout.duration_minutes v)%Q thePlan.
Proof.
  unfold weekPlan. destruct (dayNumbersOf availableDays) as [|d0 ds]; [constructor|].
  cbv zeta.
  set (easyDays := filter (fun d => negb (d =? longRunDayOf (d0 :: ds))
                                    && differs d (keyWorkoutDayOf (d0 :: ds)))
                     (d0 :: ds)).
  set (longDur := Qmin (Math_round (weeklyVolume * 0.35))
                       (ceilingOf maxWeekdayTime maxWeekendTime
                          (longRunDayOf (d0 :: ds)))).
  assert (0 <= longDur <= weeklyVolume)%Q as [Hl0 Hlong].
  { split.
    - apply Q.min_glb; [|apply ceiling_nonneg]. apply Math_round_nonneg. lra.
    - eapply Qle_trans; [apply Q.le_min_l|].
      apply Math_round_share; [exact volume_nonneg | lra | lra]. }
  set (keyPart := match keyWorkoutDayOf (d0 :: ds) with
                  | Some kd => _ | None => _ end).
  assert (Forall (fun v => 0 <= Workout.duration_minutes v)%Q (fst keyPart)
          /\ 0 <= snd keyPart)%Q as [Hkey Hrest].
  { unfold keyPart. destruct (keyWorkoutDayOf (d0 :: ds)) as [kd|].
    - destruct (negb _); cbn [fst snd].
      + split.
        * constructor; [|constructor]. unfold laidOut. cbn [Workout.duration_minutes].
          apply Q.min_glb; [|apply ceiling_nonneg]. apply Math_round_nonneg. lra.
        * assert (Qmin (Math_round ((weeklyVolume - longDur) * 0.3))
                       (ceilingOf maxWeekdayTime maxWeekendTime kd)
                  <= weeklyVolume - longDur)%Q; [|lra].
          eapply Qle_trans; [apply Q.le_min_l|].
          apply Math_round_share; lra.
      + split; [constructor | lra].
    - cbn [fst snd]. split; [constructor | lra]. }
  constructor; [exact Hl0|].
  apply Forall_app. split; [exact Hkey|].
  apply Forall_forall. intros x Hx. apply in_map_iff in Hx.
  destruct Hx as (d & <- & _). unfold laidOut. cbn [Workout.duration_minutes].
  apply Q.min_glb; [|apply ceiling_nonneg]. apply Math_round_nonneg.
  apply Qmult_le_0_compat; [exact Hrest|].
  apply Qinv_le_0_compat. apply len_nonneg.
Qed.
End WeekMinutes.

Lemma planned_volume_nonneg (now : Date) (goal : Goal.t) (week : Z) :
  (0 <= Goal.current_frequency goal)%Q ->
  1 <= week <= totalWeeksOf now goal ->
  (0 <= calculateWeeklyVolume (totalWeeksOf now goal) (raceConfigOf goal)
          (experienceMultiplierOf goal) (Goal.current_frequency goal)
          (Goal.longest_recent_run goal) week)%Q.
Proof.
  intros HF Hw.
  replace week with (Z.of_nat (S (Z.to_nat (week - 1)))) by lia.
  apply volume_nonneg_nat; [| |exact HF|lia].
  - unfold raceConfigOf, RACE_CONFIGS.
    repeat (destruct (String.eqb _ _); [cbn; lra|]). cbn. lra.
  - unfold experienceMultiplierOf, EXPERIENCE_MULTIPLIERS.
    repeat (destruct (String.eqb _ _); [lra|]). lra.
Qed.

(** X16. No workout of a generated plan has a negative duration, for a
    goal of ordinary size whose two daily ceilings are not negative and
    whose race distance, level and day names are not names every
    JavaScript object inherits. *)
Theorem generated_durations_nonneg (now : Date) (goal : Goal.t) (db : DB) :
  ownNames goal ->
  ordinarySize now goal ->
  (0 <= Goal.max_weekday_time goal)%Q ->
  (0 <= Goal.max_weekend_time goal)%Q ->
  exists planId db' rows,
    generateTrainingPlan now goal db = Some (planId, db')
    /\ workouts db' = workouts db ++ rows
    /\ forall r, In r rows -> (0 <= Workout.duration_minutes r)%Q.
Proof.
  intros _ ((HF & _) & _) Hwd Hwe.
  destruct (generateTrainingPlan_rows now goal db) as (db' & Hgen & Hrows).
  cbv zeta in Hgen, Hrows.
  eexists _, db', _. split; [exact Hgen|]. split; [exact Hrows|].
  intros r Hr. apply storedFrom_In in Hr. destruct Hr as (v & i & Hv & ->).
  apply planWeek_weeks in Hv. destruct Hv as (week & Hw & Hv).
  unfold planWeek in Hv.
  pose proof (week_durations_nonneg (seq_training_plans db + 1) (Goal.user_id goal)
                week (addWeeks (startOfWeek now) (week - 1))
                (Goal.available_days goal) _ (Goal.experience_level goal) _ _
                (planned_volume_nonneg now goal week HF Hw) Hwd Hwe) as Hall.
  rewrite Forall_forall in Hall. exact (Hall v Hv).
Qed.

Lemma generated_durations_nonneg_witness :
  exists planId db' rows,
    generateTrainingPlan 2 sample_goal empty_store = Some (planId, db')
    /\ workouts db' = workouts empty_store ++ rows
    /\ forall r, In r rows -> (0 <= Workout.duration_minutes r)%Q.
Proof.
  apply (generated_durations_nonneg 2 sample_goal empty_store);
    [repeat split; reflexivity | repeat split; vm_compute; discriminate | vm_compute; discriminate ..].
Defined.

(** X17. Weekly budget: the minutes planned in a week of a generated
    plan exceed that week's volume by at most half a minute for each
    easy run of the week (the rounding of the easy-run duration). The
    goal is of ordinary size and its race distance, level and day names
    are not names every JavaScript object inherits, and the number of
    weeks does not depend on the time of day. *)
Theorem week_minutes_within_volume (now : Date) (goal : Goal.t) (db : DB) :
  ownNames goal ->
  ordinarySize now goal ->
  weekCountSettled now goal ->
  exists planId db' rows,
    generateTrainingPlan now goal db = Some (planId, db')
    /\ workouts db' = workouts db ++ rows
    /\ forall week, 1 <= week <= totalWeeksOf now goal ->
         let thisWeek := filter (fun r => Workout.week_number r =? week) rows in
         (plannedMinutes thisWeek
          <= calculateWeeklyVolume (totalWeeksOf now goal) (raceConfigOf goal)
               (experienceMultiplierOf goal) (Goal.current_frequency goal)
               (Goal.longest_recent_run goal) week
             + inject_Z (len (filter isEasyRow thisWeek)) * (1 # 2))%Q.
Proof.
  intros _ ((HF & _) & _) _.
  destruct (generateTrainingPlan_rows now goal db) as (db' & Hgen & Hrows).
  cbv zeta in Hgen, Hrows.
  eexists _, db', _. split; [exact Hgen|]. split; [exact Hrows|].
  intros week Hw. cbv zeta.
  pose proof (plan_week_rows now goal (seq_training_plans db + 1) week
                (seq_workouts db) Hw) as H.
  rewrite (plannedMinutes_linked _ _ H).
  apply (Forall2_filter _ isEasyRow isEasyRow) in H;
    [|intros v r (i & ->); reflexivity].
  apply Forall2_length in H. unfold len. rewrite <- H.
  apply week_minutes. now apply planned_volume_nonneg.
Qed.

Lemma week_minutes_within_volume_witness :
  exists planId db' rows,
    generateTrainingPlan 3 sample_goal empty_store = Some (planId, db')
    /\ workouts db' = workouts empty_store ++ rows
    /\ forall week, 1 <= week <= totalWeeksOf 3 sample_goal ->
         let thisWeek := filter (fun r => Workout.week_number r =? week) rows in
         (plannedMinutes thisWeek
          <= calculateWeeklyVolume (totalWeeksOf 3%Z sample_goal)
               (raceConfigOf sample_goal) (experienceMultiplierOf sample_goal)
               (Goal.current_frequency sample_goal)
               (Goal.longest_recent_run sample_goal) week
             + inject_Z (len (filter isEasyRow thisWeek)) * (1 # 2))%Q.
Proof.
  apply (week_minutes_within_volume 3 sample_goal empty_store).
  - repeat split; reflexivity.
  - repeat split; vm_compute; discriminate.
  - reflexivity.
Defined.

(** ** Rescheduler: the long run, the key workout and the days *)

Section RescheduleRoles.
Variables planId userId weekNumber : Z.
Variable days : list string.
Variable db : DB.
Variable first : Workout.t.
Variable rest : list Workout.t.

Local Abbreviation old := (filter (inWeek planId userId weekNumber) (workouts db)).
Local Abbreviation new :=
  (filter (inWeek planId userId weekNumber)
     (workouts (rescheduleWeek planId userId weekNumber days db))).
Local Abbreviation D := (dayNumbersOf days).
Local Abbreviation weekStart := (startOfWeek (Workout.date first)).
Local Abbreviation mv := (moved planId userId weekNumber weekStart).

Hypothesis Hold : old = first :: rest.
Hypothesis HD : D <> [].

Lemma new_rows_linked :
  Forall2 linked (reschedulePlan planId userId weekNumber weekStart old D) new.
Proof.
  rewrite (week_after_reschedule planId userId weekNumber days db first rest Hold HD).
  apply storedFrom_Forall2.
Qed.

Lemma long_rows_linked :
  Forall2 linked (map (mv 1 1) (longSlot old D)) (filter isLongRunRow new).
Proof.
  pose proof new_rows_linked as H.
  apply (Forall2_filter _ isLongRunRow isLongRunRow) in H;
    [|intros v r (i & ->); reflexivity].
  unfold reschedulePlan in H. rewrite !filter_app in H.
  rewrite (filter_all _ (map _ (longSlot _ _))) in H
    by (intros x Hx; apply in_map_iff in Hx; destruct Hx as (s & <- & _); reflexivity).
  rewrite (filter_none _ (map _ (keySlot _ _))) in H
    by (intros x Hx; apply in_map_iff in Hx; destruct Hx as (s & <- & _); reflexivity).
  rewrite (filter_none _ (map _ (easySlots _ _))), app_nil_r in H
    by (intros x Hx; apply in_map_iff in Hx; destruct Hx as (s & <- & _); reflexivity).
  exact H.
Qed.

Lemma key_rows_linked :
  Forall2 linked (map (mv 1 0) (keySlot old D)) (filter isKeyRow new).
Proof.
  pose proof new_rows_linked as H.
  apply (Forall2_filter _ isKeyRow isKeyRow) in H;
    [|intros v r (i & ->); reflexivity].
  unfold reschedulePlan in H. rewrite !filter_app in H.
  rewrite (filter_none _ (map _ (longSlot _ _))) in H
    by (intros x Hx; apply in_map_iff in Hx; destruct Hx as (s & <- & _); reflexivity).
  rewrite (filter_all _ (map _ (keySlot _ _))) in H
    by (intros x Hx; apply in_map_iff in Hx; destruct Hx as (s & <- & _); reflexivity).
  rewrite (filter_none _ (map _ (easySlots _ _))), app_nil_r in H
    by (intros x Hx; apply in_map_iff in Hx; destruct Hx as (s & <- & _); reflexivity).
  exact H.
Qed.

Lemma new_rows_slots (n : Workout.t) :
  In n new ->
  exists s k l rowid,
    (In s (longSlot old D) \/ In s (keySlot old D) \/ In s (easySlots old D))
    /\ n = stored rowid (mv k l s).
Proof.
  rewrite (week_after_reschedule planId userId weekNumber days db first rest Hold HD).
  intros Hn. apply storedFrom_In in Hn. destruct Hn as (v & i & Hv & ->).
  unfold reschedulePlan in Hv. rewrite !in_app_iff, !in_map_iff in Hv.
  destruct Hv as [(s & <- & Hs)|[(s & <- & Hs)|(s & <- & Hs)]];
    eexists s, _, _, i; (split; [|reflexivity]); auto.
Qed.

Lemma new_days :
  map onDay new
  = map snd (longSlot old D ++ keySlot old D ++ easySlots old D).
Proof.
  pose proof new_rows_linked as H. unfold reschedulePlan in H.
  apply Forall2_app_inv_l in H. destruct H as (rl & r' & Hl & H & ->).
  apply Forall2_app_inv_l in H. destruct H as (rk & re & Hk & He & ->).
  rewrite !map_app. f_equal; [|f_equal].
  - eapply linked_days with (db := db); [exact HD | | exact Hl]; auto.
  - eapply linked_days with (db := db); [exact HD | | exact Hk]; auto.
  - eapply linked_days with (db := db); [exact HD | | exact He]; auto.
Qed.
End RescheduleRoles.

(** X18. Rescheduling a week onto day names none of which is recognised
    deletes the week's workouts and creates none: the table is left with
    the rows of the other weeks only. *)
Theorem reschedule_without_recognised_days
    (planId userId weekNumber : Z) (days : list string) (db : DB) :
  dayNumbersOf days = [] ->
  workouts (rescheduleWeek planId userId weekNumber days db)
  = filter (fun w => negb (inWeek planId userId weekNumber w)) (workouts db).
Proof.
  intros HD. rewrite reschedule_table.
  destruct (filter (inWeek planId userId weekNumber) (workouts db))
    as [|first rest] eqn:Hold.
  - rewrite (reschedule_empty_week _ _ _ _ _ Hold), Hold. apply app_nil_r.
  - rewrite reschedule_no_days; [apply app_nil_r | congruence | exact HD].
Qed.

Lemma reschedule_without_recognised_days_witness :
  workouts (rescheduleWeek 1 7 1 ["Sat"; "Sun"] reschedule_store)
  = filter (fun w => negb (inWeek 1 7 1 w)) (workouts reschedule_store).
Proof.
  apply (reschedule_without_recognised_days 1 7 1 ["Sat"; "Sun"] reschedule_store).
  reflexivity.
Defined.

(** X19. The long run survives a reschedule: when the week holds a long
    run and at least one new day is recognised, the week afterwards
    holds exactly one long run, a copy of the first long run of the week
    in table order.  It lies in the calendar week of the week's first
    workout, on a permitted day: the weekend day with the greatest day
    number when a permitted day is Saturday or Sunday, the greatest
    permitted day number otherwise.  None of the new day names is, in
    lower case, a name every JavaScript object inherits. *)
Theorem reschedule_keeps_long_run
    (planId userId weekNumber : Z) (days : list string) (db : DB)
    (first : Workout.t) (rest : list Workout.t) (o : Workout.t) :
  noInheritedDay days = true ->
  filter (inWeek planId userId weekNumber) (workouts db) = first :: rest ->
  find isLongRunRow (first :: rest) = Some o ->
  dayNumbersOf days <> [] ->
  exists n,
    filter isLongRunRow
      (filter (inWeek planId userId weekNumber)
         (workouts (rescheduleWeek planId userId weekNumber days db))) = [n]
    /\ sameContent o n
    /\ startOfWeek (Workout.date n) = startOfWeek (Workout.date first)
    /\ (let permitted := dayNumbersOf days in
        let day := onDay n in
        In day permitted
        /\ ((exists d, In d permitted /\ (d = 0 \/ d = 6)) ->
            (day = 0 \/ day = 6)
            /\ forall d, In d permitted -> d = 0 \/ d = 6 -> d <= day)
        /\ ((forall d, In d permitted -> d <> 0 /\ d <> 6) ->
            forall d, In d permitted -> d <= day)).
Proof.
  intros _.
  intros Hold Hfind HD.
  pose proof (long_rows_linked planId userId weekNumber days db first rest Hold HD) as H.
  rewrite Hold in H. unfold longSlot in H. rewrite Hfind in H. cbn [map] in H.
  inversion H as [|v r l1 l2 (i & Hr) Hnil Hv Heq]; subst.
  inversion Hnil; subst.
  eexists. split; [reflexivity|].
  pose proof (longRunDayOf_spec _ HD) as (Hin & Hwe & Hwd).
  assert (0 <= longRunDayOf (dayNumbersOf days) <= 6) as Hrange
    by (apply (dayNumbers_range days); exact Hin).
  split; [repeat split|].
  unfold onDay, stored, moved. cbn [Workout.date fst snd].
  destruct (getDay_dayOffset (Workout.date first) _ Hrange) as [Hday Hweek].
  rewrite Hday. split; [exact Hweek|].
  cbv zeta. split; [exact Hin|]. split; [exact Hwe | exact Hwd].
Qed.

Lemma reschedule_keeps_long_run_witness :
  exists n,
    filter isLongRunRow
      (filter (inWeek 1 7 1)
         (workouts (rescheduleWeek 1 7 1 ["Sunday"; "Wednesday"] reschedule_store))) = [n]
    /\ sameContent
         (Workout.mk 1 1 7 5 1 "long" "Long Run" "long run" 50%Q "low" "shorten" 1 1 0) n
    /\ startOfWeek (Workout.date n) = startOfWeek 5
    /\ (let permitted := dayNumbersOf ["Sunday"; "Wednesday"] in
        let day := onDay n in
        In day permitted
        /\ ((exists d, In d permitted /\ (d = 0 \/ d = 6)) ->
            (day = 0 \/ day = 6)
            /\ forall d, In d permitted -> d = 0 \/ d = 6 -> d <= day)
        /\ ((forall d, In d permitted -> d <> 0 /\ d <> 6) ->
            forall d, In d permitted -> d <= day)).
Proof.
  apply (reschedule_keeps_long_run 1 7 1 ["Sunday"; "Wednesday"] reschedule_store
           (Workout.mk 1 1 7 5 1 "long" "Long Run" "long run" 50%Q "low" "shorten" 1 1 0)
           (skipn 1 (workouts reschedule_store))).
  - reflexivity.
  - reflexivity.
  - reflexivity.
  - discriminate.
Defined.

Lemma keyDayOf_spec (dayNumbers usedDays : list Z) (kd : Z) :
  keyDayOf dayNumbers usedDays = Some kd ->
  In kd dayNumbers /\ includes usedDays kd = false.
Proof.
  unfold keyDayOf. cbv zeta. intros H.
  assert (In kd (filter (fun d => negb (includes usedDays d)) dayNumbers)) as Hin.
  { destruct (0 <? len _); apply nth_error_In in H; [|exact H].
    apply filter_In in H. now destruct H. }
  apply filter_In in Hin. destruct Hin as [Hin Hk].
  split; [exact Hin | now apply negb_true_iff in Hk].
Qed.

Lemma nth_error_middle {A : Type} (l : list A) :
  l <> [] -> exists x, nth_error l (Z.to_nat (len l / 2)) = Some x.
Proof.
  intros Hne. destruct (nth_error l (Z.to_nat (len l / 2))) as [x|] eqn:E;
    [now exists x|].
  apply nth_error_None in E. destruct l as [|a l]; [congruence|].
  unfold len in E. cbn [length] in E.
  assert (Z.of_nat (S (length l)) / 2 < Z.of_nat (S (length l)))
    by (apply Z.div_lt; lia).
  lia.
Qed.

Lemma keyDayOf_some (dayNumbers usedDays : list Z) :
  (exists d, In d dayNumbers /\ includes usedDays d = false) ->
  exists kd, keyDayOf dayNumbers usedDays = Some kd.
Proof.
  intros (d & Hd & Hfree). unfold keyDayOf. cbv zeta.
  destruct (0 <? len _) eqn:Ec.
  - apply len_pos in Ec. now apply nth_error_middle.
  - destruct (filter (fun d => negb (includes usedDays d)) dayNumbers)
      as [|a l] eqn:Ef; [|now exists a].
    pose proof (filter_nil_none _ _ Ef d Hd) as Hf. cbv beta in Hf.
    rewrite Hfree in Hf. discriminate.
Qed.

Lemma keyDayOf_apart (dayNumbers : list Z) (ld kd : Z) :
  keyDayOf dayNumbers [ld] = Some kd ->
  (exists d, In d dayNumbers /\ notAdjacent (Some ld) d = true) ->
  notAdjacent (Some ld) kd = true.
Proof.
  intros Ek (d & Hd & Hfar). unfold keyDayOf in Ek. cbv zeta in Ek.
  cbn [nth_error] in Ek.
  assert (In d (filter (notAdjacent (Some ld))
                  (filter (fun d => negb (includes [ld] d)) dayNumbers))) as Hin.
  { apply filter_In. split; [|exact Hfar]. apply filter_In. split; [exact Hd|].
    unfold includes. cbn [existsb]. rewrite orb_false_r.
    apply negb_true_iff, Z.eqb_neq. cbn [notAdjacent] in Hfar.
    apply andb_true_iff in Hfar. destruct Hfar as [H1 _].
    apply Z.ltb_lt in H1. lia. }
  assert ((0 <? len (filter (notAdjacent (Some ld))
                       (filter (fun d => negb (includes [ld] d)) dayNumbers))) = true)
    as Ec.
  { apply len_pos. intros E. rewrite E in Hin. contradiction. }
  rewrite Ec in Ek. apply nth_error_In, filter_In in Ek. now destruct Ek.
Qed.

Lemma two_distinct_length (l : list Z) (d1 d2 : Z) :
  In d1 l -> In d2 l -> d1 <> d2 -> 1 < len l.
Proof.
  intros H1 H2 Hne. unfold len.
  destruct l as [|a [|b l]]; cbn [length]; [contradiction| |lia].
  destruct H1 as [<-|[]]. destruct H2 as [<-|[]]. congruence.
Qed.

(** X20. The key workout survives a reschedule onto at least two distinct
    recognised days: the week afterwards holds exactly one key workout, a
    copy of the first key workout of the week in table order, in the
    calendar week of the week's first workout, on a permitted day other
    than the long run's; and whenever some permitted day is neither the
    day before nor the day after the long run (Saturday and Sunday
    counting as neighbours), the key workout is on such a day.  None of
    the new day names is, in lower case, a name every JavaScript object
    inherits. *)
Theorem reschedule_keeps_key_workout
    (planId userId weekNumber : Z) (days : list string) (db : DB)
    (first : Workout.t) (rest : list Workout.t) (o : Workout.t) :
  noInheritedDay days = true ->
  filter (inWeek planId userId weekNumber) (workouts db) = first :: rest ->
  find isKeyRow (first :: rest) = Some o ->
  (exists d1 d2, In d1 (dayNumbersOf days) /\ In d2 (dayNumbersOf days) /\ d1 <> d2) ->
  exists n,
    filter isKeyRow
      (filter (inWeek planId userId weekNumber)
         (workouts (rescheduleWeek planId userId weekNumber days db))) = [n]
    /\ sameContent o n
    /\ startOfWeek (Workout.date n) = startOfWeek (Workout.date first)
    /\ In (onDay n) (dayNumbersOf days)
    /\ forall longRun,
         In longRun
           (filter isLongRunRow
              (filter (inWeek planId userId weekNumber)
                 (workouts (rescheduleWeek planId userId weekNumber days db)))) ->
         onDay n <> onDay longRun
         /\ ((exists d, In d (dayNumbersOf days)
                        /\ notAdjacent (Some (onDay longRun)) d = true) ->
             notAdjacent (Some (onDay longRun)) (onDay n) = true).
Proof.
  intros _.
  intros Hold Hfind (d1 & d2 & H1 & H2 & H12).
  assert (dayNumbersOf days <> []) as HD
    by (intros E; rewrite E in H1; contradiction).
  pose proof (two_distinct_length _ _ _ H1 H2 H12) as Hlen.
  apply Z.ltb_lt in Hlen.
  pose proof (longRunDayOf_In _ HD) as Hlin.
  pose proof (dayNumbers_range days) as Hrange.
  pose proof (key_rows_linked planId userId weekNumber days db first rest Hold HD) as Hk.
  pose proof (long_rows_linked planId userId weekNumber days db first rest Hold HD) as Hl.
  rewrite Hold in Hk, Hl. unfold keySlot in Hk. rewrite Hfind, Hlen in Hk.
  destruct (keyDayOf_some (dayNumbersOf days)
              (map snd (longSlot (first :: rest) (dayNumbersOf days))))
    as (kd & Ek).
  { unfold longSlot. destruct (find isLongRunRow (first :: rest)); cbn [map snd].
    - unfold includes. cbn [existsb].
      destruct (Z.eq_dec d1 (longRunDayOf (dayNumbersOf days))) as [E|E];
        [exists d2 | exists d1]; (split; [assumption|]);
        rewrite orb_false_r; apply Z.eqb_neq; congruence.
    - exists d1. now split. }
  rewrite Ek in Hk. cbn [map] in Hk.
  destruct (keyDayOf_spec _ _ _ Ek) as [Hkin Hfree].
  inversion Hk as [|v r l1 l2 (i & Hr) Hnil Hv Heq]; subst.
  inversion Hnil; subst.
  destruct (getDay_dayOffset (Workout.date first) kd (Hrange kd Hkin)) as [Hday Hweek].
  eexists. split; [reflexivity|]. split; [repeat split|].
  unfold onDay, stored, moved. cbn [Workout.date fst snd]. rewrite Hday.
  split; [exact Hweek|]. split; [exact Hkin|].
  remember (filter isLongRunRow
              (filter (inWeek planId userId weekNumber)
                 (workouts (rescheduleWeek planId userId weekNumber days db))))
    as longs eqn:Elongs in *.
  clear Elongs. intros longRun Hlong.
  unfold longSlot in Hl, Ek, Hfree.
  destruct (find isLongRunRow (first :: rest)) as [lr|]; cbn [map snd] in Hl, Ek, Hfree.
  - inversion Hl as [|v r l1 l2 (j & Hr) Hnil' Hv' Heq']; subst.
    inversion Hnil'; subst.
    destruct Hlong as [<-|[]].
    cbn [Workout.date stored moved fst snd].
    destruct (getDay_dayOffset (Workout.date first) _ (Hrange _ Hlin)) as [Hday' _].
    rewrite Hday'. split.
    + unfold includes in Hfree. cbn [existsb] in Hfree. rewrite orb_false_r in Hfree.
      now apply Z.eqb_neq in Hfree.
    + now apply keyDayOf_apart.
  - inversion Hl; subst. contradiction.
Qed.

Lemma reschedule_keeps_key_workout_witness :
  exists n,
    filter isKeyRow
      (filter (inWeek 1 7 1)
         (workouts (rescheduleWeek 1 7 1 ["Sunday"; "Wednesday"] reschedule_store))) = [n]
    /\ sameContent
         (Workout.mk 2 1 7 1 1 "tempo" "Tempo Run" "tempo run" 30%Q "moderate" "easy" 1 0 0)
         n
    /\ startOfWeek (Workout.date n) = startOfWeek 5
    /\ In (onDay n) (dayNumbersOf ["Sunday"; "Wednesday"])
    /\ forall longRun,
         In longRun
           (filter isLongRunRow
              (filter (inWeek 1 7 1)
                 (workouts (rescheduleWeek 1 7 1 ["Sunday"; "Wednesday"]
                              reschedule_store)))) ->
         onDay n <> onDay longRun
         /\ ((exists d, In d (dayNumbersOf ["Sunday"; "Wednesday"])
                        /\ notAdjacent (Some (onDay longRun)) d = true) ->
             notAdjacent (Some (onDay longRun)) (onDay n) = true).
Proof.
  apply (reschedule_keeps_key_workout 1 7 1 ["Sunday"; "Wednesday"] reschedule_store
           (Workout.mk 1 1 7 5 1 "long" "Long Run" "long run" 50%Q "low" "shorten" 1 1 0)
           (skipn 1 (workouts reschedule_store))).
  - reflexivity.
  - reflexivity.
  - reflexivity.
  - exists 0, 3. vm_compute. intuition discriminate.
Defined.

Lemma includes_In (l : list Z) (d : Z) : includes l d = true <-> In d l.
Proof.
  unfold includes. rewrite existsb_exists. split.
  - intros (x & Hx & E). apply Z.eqb_eq in E. now subst.
  - intros H. exists d. split; [exact H | apply Z.eqb_refl].
Qed.

Lemma NoDup_firstn_Z (n : nat) (l : list Z) : NoDup l -> NoDup (firstn n l).
Proof.
  intros H. rewrite <- (firstn_skipn n l) in H. now apply NoDup_app_remove_r in H.
Qed.

Lemma In_firstn {A : Type} (n : nat) (l : list A) (x : A) : In x (firstn n l) -> In x l.
Proof. intros H. rewrite <- (firstn_skipn n l). apply in_or_app. now left. Qed.

Section RescheduleDays.
Variable old : list Workout.t.
Variable dayNumbers : list Z.
Hypothesis days_distinct : NoDup dayNumbers.
Hypothesis days_some : dayNumbers <> [].

Lemma used_days_distinct :
  NoDup (map snd (longSlot old dayNumbers ++ keySlot old dayNumbers))
  /\ incl (map snd (longSlot old dayNumbers ++ keySlot old dayNumbers)) dayNumbers.
Proof.
  unfold keySlot.
  assert (NoDup (map snd (longSlot old dayNumbers))
          /\ incl (map snd (longSlot old dayNumbers)) dayNumbers) as [Hl Hli].
  { unfold longSlot. destruct (find isLongRunRow old); cbn [map snd].
    - split; [repeat constructor; intros []|].
      intros d [<-|[]]. now apply longRunDayOf_In.
    - split; [constructor | intros d []]. }
  destruct (find isKeyRow old); [|now rewrite app_nil_r].
  destruct (1 <? len dayNumbers); [|now rewrite app_nil_r].
  destruct (keyDayOf dayNumbers _) as [kd|] eqn:Ek; [|now rewrite app_nil_r].
  destruct (keyDayOf_spec _ _ _ Ek) as [Hkin Hfree].
  rewrite map_app. cbn [map snd]. split.
  - apply NoDup_app; [exact Hl | repeat constructor; intros [] |].
    intros d Hd [<-|[]]. apply includes_In in Hd. congruence.
  - apply incl_app; [exact Hli|]. intros d [<-|[]]. exact Hkin.
Qed.

Lemma slot_days_distinct :
  NoDup (map snd (longSlot old dayNumbers ++ keySlot old dayNumbers
                  ++ easySlots old dayNumbers))
  /\ incl (map snd (longSlot old dayNumbers ++ keySlot old dayNumbers
                    ++ easySlots old dayNumbers)) dayNumbers.
Proof.
  destruct used_days_distinct as [Hu Hui].
  rewrite app_assoc, map_app. unfold easySlots. rewrite combine_snd.
  split.
  - apply NoDup_app; [exact Hu | |].
    + apply NoDup_firstn_Z. unfold remainingDaysOf. now apply NoDup_filter_Z.
    + intros d Hd Hd'. apply In_firstn in Hd'. unfold remainingDaysOf in Hd'.
      apply filter_In in Hd'. destruct Hd' as [_ Hfree].
      apply negb_true_iff in Hfree. apply includes_In in Hd. congruence.
  - apply incl_app; [exact Hui|]. intros d Hd. apply In_firstn in Hd.
    unfold remainingDaysOf in Hd. apply filter_In in Hd. now destruct Hd.
Qed.
End RescheduleDays.

(** X21. Rescheduling onto distinct days never puts two workouts of the
    week on one day: afterwards the week's workouts fall on pairwise
    different permitted days, so the week holds at most as many workouts
    as there are permitted days; and every one of them is stored as not
    completed. *)
Theorem reschedule_one_workout_per_day
    (planId userId weekNumber : Z) (days : list string) (db : DB)
    (first : Workout.t) (rest : list Workout.t) :
  filter (inWeek planId userId weekNumber) (workouts db) = first :: rest ->
  NoDup (dayNumbersOf days) ->
  let new := filter (inWeek planId userId weekNumber)
               (workouts (rescheduleWeek planId userId weekNumber days db)) in
  NoDup (map onDay new)
  /\ (forall n, In n new ->
        In (onDay n) (dayNumbersOf days) /\ Workout.completed n = 0)
  /\ (length new <= length (dayNumbersOf days))%nat.
Proof.
  intros Hold Hnd new.
  destruct (dayNumbersOf days) as [|d0 ds] eqn:HD.
  { unfold new. rewrite reschedule_no_days; [|congruence|exact HD].
    cbn. split; [constructor|]. split; [intros n []|lia]. }
  rewrite <- HD in *.
  assert (dayNumbersOf days <> []) as HD' by congruence.
  pose proof (new_days planId userId weekNumber days db first rest Hold HD') as Hdays.
  destruct (slot_days_distinct
              (filter (inWeek planId userId weekNumber) (workouts db))
              (dayNumbersOf days) Hnd HD') as [Hnodup Hincl].
  fold new in Hdays. rewrite <- Hdays in Hnodup, Hincl.
  split; [exact Hnodup|]. split.
  - intros n Hn. split.
    + apply Hincl. now apply in_map.
    + destruct (new_rows_slots planId userId weekNumber days db first rest Hold HD' n Hn)
        as (s & k & l & i & _ & ->).
      reflexivity.
  - rewrite <- (length_map onDay new). now apply NoDup_incl_length.
Qed.

Lemma reschedule_one_workout_per_day_witness :
  NoDup (map onDay
           (filter (inWeek 1 7 1)
              (workouts (rescheduleWeek 1 7 1 ["Sunday"; "Wednesday"] reschedule_store))))
  /\ (forall n,
        In n (filter (inWeek 1 7 1)
                (workouts (rescheduleWeek 1 7 1 ["Sunday"; "Wednesday"]
                             reschedule_store))) ->
        In (onDay n) (dayNumbersOf ["Sunday"; "Wednesday"]) /\ Workout.completed n = 0)
  /\ (length (filter (inWeek 1 7 1)
                (workouts (rescheduleWeek 1 7 1 ["Sunday"; "Wednesday"]
                             reschedule_store)))
      <= length (dayNumbersOf ["Sunday"; "Wednesday"]))%nat.
Proof.
  apply (reschedule_one_workout_per_day 1 7 1 ["Sunday"; "Wednesday"] reschedule_store
           (Workout.mk 1 1 7 5 1 "long" "Long Run" "long run" 50%Q "low" "shorten" 1 1 0)
           (skipn 1 (workouts reschedule_store))).
  - reflexivity.
  - vm_compute. repeat constructor; simpl; intuition discriminate.
Defined.

(** ** Rescheduler: how many workouts a week keeps *)

Lemma filter_split_length {A : Type} (p : A -> bool) (l : list A) :
  (length (filter p l) + length (filter (fun x => negb (p x)) l) = length l)%nat.
Proof.
  induction l as [|x l IH]; [reflexivity|]. cbn [filter].
  destruct (p x); cbn [negb length]; lia.
Qed.

Lemma remaining_length (dayNumbers usedDays : list Z) :
  NoDup dayNumbers -> NoDup usedDays -> incl usedDays dayNumbers ->
  (length (filter (fun d => negb (includes usedDays d)) dayNumbers)
   = length dayNumbers - length usedDays)%nat.
Proof.
  intros HD Hu Hincl.
  pose proof (filter_split_length (includes usedDays) dayNumbers) as Hsplit.
  assert (length (filter (includes usedDays) dayNumbers) = length usedDays) as Hused.
  { apply Permutation_length. apply NoDup_Permutation.
    - now apply NoDup_filter_Z.
    - exact Hu.
    - intros d. rewrite filter_In, includes_In. split; [tauto|].
      intros H. split; [now apply Hincl | exact H]. }
  lia.
Qed.

Lemma find_filter {A : Type} (p : A -> bool) (l : list A) :
  find p l = hd_error (filter p l).
Proof.
  induction l as [|x l IH]; [reflexivity|]. cbn [find filter].
  now destruct (p x).
Qed.

Lemma roles_partition (rows : list Workout.t) :
  Forall (fun w => (Workout.is_key_workout w = 0 \/ Workout.is_key_workout w = 1)
                   /\ (Workout.is_long_run w = 0 \/ Workout.is_long_run w = 1)) rows ->
  (length rows = length (filter isLongRunRow rows) + length (filter isKeyRow rows)
                 + length (filter isEasyRow rows))%nat.
Proof.
  induction 1 as [|w rows [[Hk|Hk] [Hl|Hl]] _ IH]; [reflexivity| | | |];
    cbn [filter]; unfold isLongRunRow, isKeyRow, isEasyRow; rewrite Hk, Hl;
    cbn [Z.eqb Pos.eqb andb length];
    unfold isLongRunRow, isKeyRow, isEasyRow in IH; lia.
Qed.

(** X22. How many workouts a reschedule keeps: a week with exactly one
    long run, at most one key workout and flags that are 0 or 1,
    rescheduled onto m distinct recognised days, holds min(n, m) workouts
    afterwards, n being the number it held before.  None of the new day
    names is, in lower case, a name every JavaScript object inherits. *)
Theorem reschedule_keeps_as_many_as_fit
    (planId userId weekNumber : Z) (days : list string) (db : DB)
    (first : Workout.t) (rest : list Workout.t) :
  noInheritedDay days = true ->
  filter (inWeek planId userId weekNumber) (workouts db) = first :: rest ->
  NoDup (dayNumbersOf days) ->
  length (filter isLongRunRow (first :: rest)) = 1%nat ->
  (length (filter isKeyRow (first :: rest)) <= 1)%nat ->
  Forall (fun w => (Workout.is_key_workout w = 0 \/ Workout.is_key_workout w = 1)
                   /\ (Workout.is_long_run w = 0 \/ Workout.is_long_run w = 1))
    (first :: rest) ->
  length (filter (inWeek planId userId weekNumber)
            (workouts (rescheduleWeek planId userId weekNumber days db)))
  = Nat.min (length (first :: rest)) (length (dayNumbersOf days)).
Proof.
  intros _.
  intros Hold Hnd Hlong Hkey Hflags.
  destruct (dayNumbersOf days) as [|d0 ds] eqn:HD.
  { rewrite reschedule_no_days; [|congruence|exact HD]. now rewrite Nat.min_0_r. }
  rewrite <- HD in *.
  assert (dayNumbersOf days <> []) as HD' by congruence.
  rewrite <- (length_map onDay).
  rewrite (new_days planId userId weekNumber days db first rest Hold HD').
  rewrite Hold. rewrite (roles_partition _ Hflags), Hlong.
  destruct (used_days_distinct (first :: rest) (dayNumbersOf days) HD')
    as [Hu Hincl].
  pose proof (remaining_length _ _ Hnd Hu Hincl) as Hrem.
  rewrite !map_app, !length_app, !length_map in *.
  unfold easySlots. rewrite combine_len. unfold remainingDaysOf.
  rewrite !map_app, Hrem. clear Hrem Hu Hincl.
  assert (length (longSlot (first :: rest) (dayNumbersOf days)) = 1%nat) as HL.
  { unfold longSlot. rewrite find_filter.
    destruct (filter isLongRunRow (first :: rest)); [discriminate Hlong | reflexivity]. }
  rewrite HL.
  assert ((1 <= length (dayNumbersOf days))%nat) as Hm
    by (rewrite HD; cbn [length]; lia).
  unfold keySlot. rewrite (find_filter isKeyRow).
  destruct (filter isKeyRow (first :: rest)) as [|kw ks] eqn:Ek; cbn [hd_error length].
  { lia. }
  destruct (1 <? len (dayNumbersOf days)) eqn:Elen.
  - apply Z.ltb_lt in Elen. unfold len in Elen.
    destruct (keyDayOf_some (dayNumbersOf days)
                (map snd (longSlot (first :: rest) (dayNumbersOf days))))
      as (kd & Ekd).
    { unfold longSlot. destruct (find isLongRunRow (first :: rest)); cbn [map snd].
      - rewrite HD in Elen, Hnd |- *. destruct ds as [|d1 ds']; [cbn in Elen; lia|].
        inversion Hnd as [|? ? Hnotin _]; subst.
        unfold includes. cbn [existsb].
        destruct (Z.eq_dec d0 (longRunDayOf (d0 :: d1 :: ds'))) as [E|E];
          [exists d1 | exists d0]; (split; [cbn; auto|]);
          rewrite orb_false_r; apply Z.eqb_neq; [|exact E].
        intros E'. apply Hnotin. left. congruence.
      - exists d0. rewrite HD. split; [now left | reflexivity]. }
    rewrite Ekd. cbn [length] in *. lia.
  - apply Z.ltb_ge in Elen. unfold len in Elen. cbn [length] in *. lia.
Qed.

Lemma reschedule_keeps_as_many_as_fit_witness :
  length (filter (inWeek 1 7 1)
            (workouts (rescheduleWeek 1 7 1 ["Sunday"; "Wednesday"] reschedule_store)))
  = Nat.min
      (length
         (Workout.mk 1 1 7 5 1 "long" "Long Run" "long run" 50%Q "low" "shorten" 1 1 0
          :: skipn 1 (workouts reschedule_store)))
      (length (dayNumbersOf ["Sunday"; "Wednesday"])).
Proof.
  apply (reschedule_keeps_as_many_as_fit 1 7 1 ["Sunday"; "Wednesday"] reschedule_store
           (Workout.mk 1 1 7 5 1 "long" "Long Run" "long run" 50%Q "low" "shorten" 1 1 0)
           (skipn 1 (workouts reschedule_store))).
  - reflexivity.
  - reflexivity.
  - vm_compute. repeat constructor; simpl; intuition discriminate.
  - reflexivity.
  - vm_compute. lia.
  - repeat (apply Forall_cons;
            [cbn; split; ((left; reflexivity) || (right; reflexivity))|]).
    apply Forall_nil.
Defined.

(** ** regeneratePlan *)

Lemma filter_idem {A : Type} (p : A -> bool) (l : list A) :
  filter p (filter p l) = filter p l.
Proof.
  apply filter_all. intros x Hx. apply filter_In in Hx. now destruct Hx.
Qed.

Lemma unlinkLog_nil (l : RunLog.t) : unlinkLog [] l = l.
Proof. unfold unlinkLog. now destruct (RunLog.workout_id l). Qed.

Lemma unlinkLog_gone (gone : list Z) (l : RunLog.t) (w : Z) :
  RunLog.workout_id (unlinkLog gone l) = Some w ->
  RunLog.workout_id l = Some w /\ includes gone w = false.
Proof.
  unfold unlinkLog. destruct (RunLog.workout_id l) as [w'|] eqn:E; [|now rewrite E].
  destruct (includes gone w') eqn:Eg; cbn [RunLog.workout_id]; [discriminate|].
  rewrite E. intros H. inversion H; subst. auto.
Qed.

Lemma filter_false {A : Type} (l : list A) : filter (fun _ => false) l = [].
Proof. now apply filter_none. Qed.

Lemma filter_true {A : Type} (l : list A) : filter (fun _ => true) l = l.
Proof. now apply filter_all. Qed.

Lemma map_unlinkLog_nil (logs : list RunLog.t) : map (unlinkLog []) logs = logs.
Proof.
  rewrite <- (map_id logs) at 2. apply map_ext. apply unlinkLog_nil.
Qed.

Section Regenerate.
Variable now : Date.
Variables goalId userId : Z.
Variable db : DB.
Variable goal : Goal.t.
Hypothesis goal_found : find (fun g => Goal.id g =? goalId) (goals db) = Some goal.

Local Abbreviation existingPlan :=
  (find (fun tp => TrainingPlan.goal_id tp =? goalId) (training_plans db)).
Local Abbreviation stale :=
  (fun planId => match existingPlan with
                 | Some p => planId =? TrainingPlan.id p
                 | None => false
                 end).
Local Abbreviation newPlanId := (seq_training_plans db + 1).
Local Abbreviation newRows :=
  (flat_map (planWeek now goal newPlanId) (weeksOf (totalWeeksOf now goal))).

Lemma regenerate_store :
  regeneratePlan now goalId userId db =
  Some (newPlanId,
        mkDB (goals db)
          (filter (fun tp => negb (stale (TrainingPlan.id tp))) (training_plans db)
           ++ [TrainingPlan.mk newPlanId (Goal.id goal) (Goal.user_id goal) now
                 (Goal.race_date goal)])
          (filter (fun w => negb (stale (Workout.plan_id w))) (workouts db)
           ++ storedFrom (seq_workouts db) newRows)
          (map (unlinkLog
                  (map Workout.id
                     (filter (fun w => stale (Workout.plan_id w)) (workouts db))))
             (run_logs db))
          (filter (fun a => negb (stale (WeeklyAdjustment.plan_id a)))
             (weekly_adjustments db))
          newPlanId (seq_workouts db + len newRows) (seq_weekly_adjustments db)).
Proof.
  unfold regeneratePlan. cbv zeta.
  destruct existingPlan as [p|].
  - unfold deleteTrainingPlan, deleteWorkoutsWhere.
    cbn [goals training_plans workouts run_logs weekly_adjustments
         seq_training_plans seq_workouts seq_weekly_adjustments].
    rewrite goal_found. cbn [bindo].
    rewrite generateTrainingPlan_store.
    cbn [goals training_plans workouts run_logs weekly_adjustments
         seq_training_plans seq_workouts seq_weekly_adjustments].
    rewrite (filter_idem (fun w => negb (Workout.plan_id w =? TrainingPlan.id p))).
    rewrite (filter_none (fun w => Workout.plan_id w =? TrainingPlan.id p)
               (filter _ (workouts db))).
    + cbn [map]. rewrite map_unlinkLog_nil. reflexivity.
    + intros w Hw. apply filter_In in Hw. destruct Hw as [_ Hw].
      now apply negb_true_iff in Hw.
  - rewrite goal_found. cbn [bindo]. rewrite generateTrainingPlan_store.
    cbn [negb]. rewrite !filter_true, filter_false. cbn [map].
    rewrite map_unlinkLog_nil. reflexivity.
Qed.
End Regenerate.

(** X23. [regeneratePlan] for a stored goal of ordinary size whose race
    distance, level and day names are not names every JavaScript object
    inherits starts over: it returns the next key of training_plans as
    the plan id, and the plan's workouts are exactly the rows
    [generateTrainingPlan] inserts for that goal, ids included, all
    stored as not completed, whatever the old plan's workouts,
    completion marks and adjusted durations were. Of the goal's first
    existing plan nothing is left: not the plan row, not a workout, not
    a weekly adjustment, and no run log still points to one of its
    workouts. The rows of other plans are kept as they were. *)
Theorem regenerate_starts_over (now : Date) (goalId userId : Z) (db : DB)
    (goal : Goal.t) :
  ownNames goal ->
  ordinarySize now goal ->
  find (fun g => Goal.id g =? goalId) (goals db) = Some goal ->
  let stale := fun planId =>
    match find (fun tp => TrainingPlan.goal_id tp =? goalId) (training_plans db) with
    | Some p => planId =? TrainingPlan.id p
    | None => false
    end in
  exists planId db' fresh rows,
    regeneratePlan now goalId userId db = Some (planId, db')
    /\ planId = seq_training_plans db + 1
    /\ generateTrainingPlan now goal db = Some (planId, fresh)
    /\ workouts fresh = workouts db ++ rows
    /\ workouts db' = filter (fun w => negb (stale (Workout.plan_id w))) (workouts db) ++ rows
    /\ (forall r, In r rows -> Workout.plan_id r = planId /\ Workout.completed r = 0)
    /\ training_plans db' =
       filter (fun tp => negb (stale (TrainingPlan.id tp))) (training_plans db)
       ++ [TrainingPlan.mk planId (Goal.id goal) (Goal.user_id goal) now
             (Goal.race_date goal)]
    /\ weekly_adjustments db' =
       filter (fun a => negb (stale (WeeklyAdjustment.plan_id a))) (weekly_adjustments db)
    /\ goals db' = goals db
    /\ length (run_logs db') = length (run_logs db)
    /\ forall l o, In l (run_logs db') -> In o (workouts db) ->
         stale (Workout.plan_id o) = true ->
         RunLog.workout_id l <> Some (Workout.id o).
Proof.
  intros _ _.
  intros Hgoal stale.
  pose proof (regenerate_store now goalId userId db goal Hgoal) as H.
  pose proof (generateTrainingPlan_store now goal db) as Hfresh. cbv zeta in Hfresh.
  eexists _, _, _, _. split; [exact H|]. split; [reflexivity|].
  split; [exact Hfresh|].
  cbn [training_plans goals run_logs weekly_adjustments workouts].
  split; [reflexivity|]. split; [reflexivity|]. split.
  { intros r Hr. apply storedFrom_In in Hr. destruct Hr as (v & i & Hv & ->).
    apply planWeek_weeks in Hv. destruct Hv as (week & Hw & Hv).
    unfold planWeek in Hv.
    destruct (weekPlan_week_number _ _ _ _ _ _ _ _ _ _ Hv) as (Hwn & Hpid).
    split; [exact Hpid | reflexivity]. }
  split; [reflexivity|]. split; [reflexivity|]. split; [reflexivity|].
  split; [apply length_map|].
  intros l o Hl Ho Hstale Hlink.
  apply in_map_iff in Hl. destruct Hl as (l0 & <- & _).
  apply unlinkLog_gone in Hlink. destruct Hlink as [_ Hfree].
  assert (includes
            (map Workout.id
               (filter (fun w => stale (Workout.plan_id w)) (workouts db)))
            (Workout.id o) = true) as Hin.
  { apply includes_In. apply in_map. apply filter_In. now split. }
  unfold stale in Hin. congruence.
Qed.

Lemma regenerate_starts_over_witness :
  exists planId db' fresh rows,
    regeneratePlan 9 1 7 compounding_store = Some (planId, db')
    /\ planId = seq_training_plans compounding_store + 1
    /\ generateTrainingPlan 9
         (Goal.mk 1 7 "5k" 60 None "intermediate" 3%Q 30%Q ["monday"; "thursday"]
            60%Q 90%Q 1) compounding_store = Some (planId, fresh)
    /\ workouts fresh = workouts compounding_store ++ rows
    /\ workouts db' =
       filter (fun w =>
                 negb (match find (fun tp => TrainingPlan.goal_id tp =? 1)
                               (training_plans compounding_store) with
                       | Some p => Workout.plan_id w =? TrainingPlan.id p
                       | None => false
                       end)) (workouts compounding_store) ++ rows
    /\ (forall r, In r rows -> Workout.plan_id r = planId /\ Workout.completed r = 0)
    /\ training_plans db' =
       filter (fun tp =>
                 negb (match find (fun tp => TrainingPlan.goal_id tp =? 1)
                               (training_plans compounding_store) with
                       | Some p => TrainingPlan.id tp =? TrainingPlan.id p
                       | None => false
                       end)) (training_plans compounding_store)
       ++ [TrainingPlan.mk planId 1 7 9 60]
    /\ weekly_adjustments db' =
       filter (fun a =>
                 negb (match find (fun tp => TrainingPlan.goal_id tp =? 1)
                               (training_plans compounding_store) with
                       | Some p => WeeklyAdjustment.plan_id a =? TrainingPlan.id p
                       | None => false
                       end)) (weekly_adjustments compounding_store)
    /\ goals db' = goals compounding_store
    /\ length (run_logs db') = length (run_logs compounding_store)
    /\ forall l o, In l (run_logs db') -> In o (workouts compounding_store) ->
         match find (fun tp => TrainingPlan.goal_id tp =? 1)
                 (training_plans compounding_store) with
         | Some p => Workout.plan_id o =? TrainingPlan.id p
         | None => false
         end = true ->
         RunLog.workout_id l <> Some (Workout.id o).
Proof.
  apply (regenerate_starts_over 9 1 7 compounding_store
           (Goal.mk 1 7 "5k" 60 None "intermediate" 3%Q 30%Q ["monday"; "thursday"]
              60%Q 90%Q 1)).
  - repeat split; reflexivity.
  - repeat split; vm_compute; discriminate.
  - reflexivity.
Defined.

(** ** POST /reschedule-week *)

(** X24. The reschedule-week route checks how many day names it is given,
    not whether they are recognised: with two or more names none of which
    is a day of the week or, in lower case, a name every JavaScript
    object inherits, for an athlete with an active plan and a current
    week, it answers 200, leaves the current week of the plan without any
    workout (the other weeks are kept as they were) and stores the names
    as the goal's available days. *)
Theorem reschedule_route_unrecognised_names
    (now : Date) (userId : Z) (availableDays : list string) (db : DB)
    (plan : TrainingPlan.t) (current : Workout.t) :
  noInheritedDay availableDays = true ->
  2 <= len availableDays ->
  dayNumbersOf availableDays = [] ->
  activePlan userId db = Some plan ->
  currentWorkoutOf (TrainingPlan.id plan) (startOfWeek now) db = Some current ->
  exists db',
    rescheduleWeekRoute now userId availableDays db = (200, db')
    /\ workouts db'
       = filter (fun w => negb (inWeek (TrainingPlan.id plan) userId
                                  (Workout.week_number current) w)) (workouts db)
    /\ map Goal.id (goals db') = map Goal.id (goals db)
    /\ forall g, In g (goals db') -> Goal.id g = TrainingPlan.goal_id plan ->
         Goal.available_days g = availableDays.
Proof.
  intros _.
  intros Hlen HD Hplan Hcur. unfold rescheduleWeekRoute.
  destruct (Z.ltb_spec (len availableDays) 2) as [H|_]; [lia|].
  rewrite Hplan. cbv zeta. rewrite Hcur.
  eexists. split; [reflexivity|].
  cbn [workouts goals updateAvailableDays].
  split.
  { rewrite reschedule_table.
    destruct (filter (inWeek (TrainingPlan.id plan) userId (Workout.week_number current))
                (workouts db)) as [|first rest] eqn:Hold.
    - rewrite (reschedule_empty_week _ _ _ _ _ Hold), Hold. apply app_nil_r.
    - rewrite reschedule_no_days; [apply app_nil_r | congruence | exact HD]. }
  assert (goals (rescheduleWeek (TrainingPlan.id plan) userId
                   (Workout.week_number current) availableDays db) = goals db) as Hg.
  { unfold rescheduleWeek.
    destruct (filter _ (workouts db)); [reflexivity|].
    cbv zeta. rewrite HD. reflexivity. }
  rewrite Hg. split.
  - rewrite map_map. apply map_ext. intros g.
    now destruct (Goal.id g =? TrainingPlan.goal_id plan).
  - intros g Hin Hid. apply in_map_iff in Hin. destruct Hin as (g0 & <- & _).
    destruct (Z.eqb_spec (Goal.id g0) (TrainingPlan.goal_id plan)) as [E|E];
      [reflexivity|]. contradiction.
Qed.

Lemma reschedule_route_unrecognised_names_witness :
  exists db',
    rescheduleWeekRoute 9 7 ["Mon"; "Thu"] compounding_store = (200, db')
    /\ workouts db'
       = filter (fun w => negb (inWeek 1 7 2 w)) (workouts compounding_store)
    /\ map Goal.id (goals db') = map Goal.id (goals compounding_store)
    /\ forall g, In g (goals db') -> Goal.id g = 1 ->
         Goal.available_days g = ["Mon"; "Thu"].
Proof.
  apply (reschedule_route_unrecognised_names 9 7 ["Mon"; "Thu"] compounding_store
           (TrainingPlan.mk 1 1 7 0 60)
           (Workout.mk 2 1 7 10 2 "easy" "Easy Run" "easy" 60%Q "low" "rest" 0 0 0)).
  - reflexivity.
  - vm_compute. discriminate.
  - reflexivity.
  - reflexivity.
  - reflexivity.
Defined.

(** ** PlanGenerator: the calendar *)

(** X25. Week numbers are calendar weeks counted from the week of the
    day the plan is generated: a workout of week k is dated in the
    Monday-to-Sunday week that starts k - 1 weeks after the Monday of
    the current week, so no workout is dated before that Monday or after
    the Sunday of the plan's last week. The goal is of ordinary size and
    its race distance, level and day names are not names every
    JavaScript object inherits. *)
Theorem generated_dates_by_week (now : Date) (goal : Goal.t) (db : DB) :
  ownNames goal ->
  ordinarySize now goal ->
  exists planId db' rows,
    generateTrainingPlan now goal db = Some (planId, db')
    /\ workouts db' = workouts db ++ rows
    /\ forall r, In r rows ->
         startOfWeek (Workout.date r)
         = addWeeks (startOfWeek now) (Workout.week_number r - 1)
         /\ startOfWeek now <= Workout.date r
            <= endOfWeek (addWeeks now (totalWeeksOf now goal - 1)).
Proof.
  intros _ _.
  destruct (generateTrainingPlan_rows now goal db) as (db' & Hgen & Hrows).
  cbv zeta in Hgen, Hrows.
  eexists _, db', _. split; [exact Hgen|]. split; [exact Hrows|].
  intros r Hr. apply storedFrom_In in Hr. destruct Hr as (v & i & Hv & ->).
  apply planWeek_weeks in Hv. destruct Hv as (week & Hw & Hv).
  unfold planWeek in Hv.
  destruct (weekPlan_week_number _ _ _ _ _ _ _ _ _ _ Hv) as (Hwn & _).
  apply weekPlan_row_shape in Hv.
  destruct Hv as (day & dur & Hday & _ & Hv).
  assert (0 <= day <= 6) as Hrange
    by (apply (dayNumbers_range (Goal.available_days goal)); exact Hday).
  assert (Workout.date (stored i v)
          = addDays (addWeeks (startOfWeek now) (week - 1)) (dayOffset day)) as Hdate
    by (destruct Hv as [->|[[-> _]| ->]]; reflexivity).
  unfold stored in Hdate |- *. cbn [Workout.date Workout.week_number] in Hdate |- *.
  rewrite Hwn, Hdate.
  assert (0 <= dayOffset day <= 6) as Hoff
    by (unfold dayOffset; destruct (Z.eqb_spec day 0); lia).
  split.
  - rewrite (weekStart_aligned now (week - 1)) at 1.
    rewrite (proj2 (getDay_dayOffset _ _ Hrange)).
    symmetry. apply weekStart_aligned.
  - unfold endOfWeek, addDays, addWeeks, startOfWeek.
    replace ((now + 7 * (totalWeeksOf now goal - 1)) mod 7) with (now mod 7)
      by (rewrite Z.mul_comm, Z.mod_add; lia).
    pose proof (Z.mod_pos_bound now 7). lia.
Qed.

Lemma generated_dates_by_week_witness :
  ownNames sample_goal
  /\ ordinarySize 3 sample_goal
  /\ (exists planId db' rows,
       generateTrainingPlan 3 sample_goal empty_store = Some (planId, db')
       /\ workouts db' = workouts empty_store ++ rows
       /\ forall r, In r rows ->
            startOfWeek (Workout.date r)
            = addWeeks (startOfWeek 3) (Workout.week_number r - 1)
            /\ startOfWeek 3 <= Workout.date r
               <= endOfWeek (addWeeks 3 (totalWeeksOf 3 sample_goal - 1))).
Proof.
  split; [repeat split; reflexivity|].
  split; [repeat split; vm_compute; discriminate|].
  apply (generated_dates_by_week 3 sample_goal empty_store).
  - repeat split; reflexivity.
  - repeat split; vm_compute; discriminate.
Defined.

(** ** Rescheduler: rescheduling twice *)

Section RescheduleAgain.
Variables planId userId weekNumber : Z.
Variable weekStart : Date.
Variable dayNumbers : list Z.

Local Abbreviation mv := (moved planId userId weekNumber weekStart).

(** A slot whose workout is a copy of another slot's, on the same day. *)
Local Abbreviation slotCopy :=
  (fun s1 s2 : Workout.t * Z => sameContent (fst s1) (fst s2) /\ snd s1 = snd s2).

Lemma moved_copy (k l : Z) (S1 S2 : list (Workout.t * Z)) :
  Forall2 slotCopy S1 S2 -> map (mv k l) S2 = map (mv k l) S1.
Proof.
  induction 1 as [|s1 s2 S1 S2 [(H1 & H2 & H3 & H4 & H5 & H6) Hd] _ IH];
    [reflexivity|].
  cbn [map]. rewrite IH. f_equal. unfold moved. congruence.
Qed.

Lemma slotCopy_days (S1 S2 : list (Workout.t * Z)) :
  Forall2 slotCopy S1 S2 -> map snd S2 = map snd S1.
Proof.
  induction 1 as [|s1 s2 S1 S2 [_ Hd] _ IH]; [reflexivity|].
  cbn [map]. now rewrite IH, Hd.
Qed.

Lemma combine_copies (easy : list Workout.t) : forall (free : list Z) (rows : list Workout.t),
  Forall2 linked (map (mv 0 0) (combine easy free)) rows ->
  Forall2 slotCopy (combine easy free) (combine rows free).
Proof.
  induction easy as [|x easy IH]; intros free rows H.
  - cbn in H. inversion H; subst. constructor.
  - destruct free as [|d free]; cbn [combine map] in *.
    + inversion H; subst. constructor.
    + inversion H as [|v r l1 l2 (i & Hr) Hrest]; subst. cbn [combine].
      constructor; [|now apply IH].
      cbn [fst snd]. split; [repeat split | reflexivity].
Qed.

Variables old new : list Workout.t.
Hypothesis long_copies :
  Forall2 linked (map (mv 1 1) (longSlot old dayNumbers)) (filter isLongRunRow new).
Hypothesis key_copies :
  Forall2 linked (map (mv 1 0) (keySlot old dayNumbers)) (filter isKeyRow new).
Hypothesis easy_copies :
  Forall2 linked (map (mv 0 0) (easySlots old dayNumbers)) (filter isEasyRow new).

Lemma longSlot_copies :
  Forall2 slotCopy (longSlot old dayNumbers) (longSlot new dayNumbers).
Proof.
  pose proof long_copies as H. unfold longSlot in *.
  rewrite (find_filter isLongRunRow new).
  destruct (find isLongRunRow old) as [lr|]; cbn [map] in H.
  - inversion H as [|v r l1 l2 (i & Hr) Hrest]; subst. cbn [hd_error].
    constructor; [|constructor]. cbn [fst snd]. split; [repeat split | reflexivity].
  - inversion H; subst. constructor.
Qed.

Lemma keySlot_copies :
  Forall2 slotCopy (keySlot old dayNumbers) (keySlot new dayNumbers).
Proof.
  pose proof key_copies as H. unfold keySlot in *.
  rewrite (slotCopy_days _ _ longSlot_copies).
  rewrite (find_filter isKeyRow new).
  destruct (find isKeyRow old) as [kw|].
  - destruct (1 <? len dayNumbers).
    + destruct (keyDayOf dayNumbers (map snd (longSlot old dayNumbers))) as [kd|];
        cbn [map] in H.
      * inversion H as [|v r l1 l2 (i & Hr) Hrest]; subst. cbn [hd_error].
        constructor; [|constructor].
        cbn [fst snd]. split; [repeat split | reflexivity].
      * inversion H; subst. constructor.
    + inversion H; subst. constructor.
  - inversion H; subst. constructor.
Qed.

Lemma easySlots_copies :
  Forall2 slotCopy (easySlots old dayNumbers) (easySlots new dayNumbers).
Proof.
  unfold easySlots, remainingDaysOf.
  rewrite !map_app.
  rewrite (slotCopy_days _ _ longSlot_copies), (slotCopy_days _ _ keySlot_copies).
  rewrite <- map_app. apply combine_copies. exact easy_copies.
Qed.

Lemma plan_of_copies :
  reschedulePlan planId userId weekNumber weekStart new dayNumbers
  = reschedulePlan planId userId weekNumber weekStart old dayNumbers.
Proof.
  unfold reschedulePlan.
  now rewrite (moved_copy 1 1 _ _ longSlot_copies),
              (moved_copy 1 0 _ _ keySlot_copies),
              (moved_copy 0 0 _ _ easySlots_copies).
Qed.
End RescheduleAgain.

Lemma storedFrom_relinked (vs : list Workout.t) : forall k k',
  Forall2 linked (storedFrom k vs) (storedFrom k' vs).
Proof.
  induction vs as [|v vs IH]; intros k k'; cbn [storedFrom]; constructor.
  - eexists. reflexivity.
  - apply IH.
Qed.

(** X26. Rescheduling is idempotent up to row ids: rescheduling the same
    week onto the same days a second time leaves every other row of the
    table as it is and re-creates the week's workouts as they were after
    the first time, row by row, with new ids only. *)
Theorem reschedule_twice
    (planId userId weekNumber : Z) (days : list string) (db : DB) :
  let once := rescheduleWeek planId userId weekNumber days db in
  let twice := rescheduleWeek planId userId weekNumber days once in
  Forall2 (fun a b => exists rowid, b = stored rowid a)
    (filter (inWeek planId userId weekNumber) (workouts once))
    (filter (inWeek planId userId weekNumber) (workouts twice))
  /\ filter (fun w => negb (inWeek planId userId weekNumber w)) (workouts twice)
     = filter (fun w => negb (inWeek planId userId weekNumber w)) (workouts once).
Proof.
  intros once twice. split.
  2:{ unfold twice. rewrite (reschedule_table _ _ _ _ once), filter_app, filter_idem.
      rewrite (filter_none _ (filter _ (workouts (rescheduleWeek _ _ _ _ once)))).
      - apply app_nil_r.
      - intros w Hw. apply filter_In in Hw. destruct Hw as [_ Hw]. now rewrite Hw. }
  assert (filter (inWeek planId userId weekNumber) (workouts once) = [] ->
          Forall2 (fun a b => exists rowid, b = stored rowid a)
            (filter (inWeek planId userId weekNumber) (workouts once))
            (filter (inWeek planId userId weekNumber) (workouts twice))) as Hempty.
  { intros E. unfold twice. rewrite (reschedule_empty_week _ _ _ _ _ E), E. constructor. }
  destruct (filter (inWeek planId userId weekNumber) (workouts db))
    as [|first rest] eqn:Hold.
  { apply Hempty. unfold once. now rewrite (reschedule_empty_week _ _ _ _ _ Hold). }
  destruct (dayNumbersOf days) as [|d0 ds] eqn:HD.
  { apply Hempty. unfold once. apply reschedule_no_days; [congruence | exact HD]. }
  assert (dayNumbersOf days <> []) as HD' by congruence.
  clear HD.
  destruct (filter (inWeek planId userId weekNumber) (workouts once))
    as [|first1 rest1] eqn:Hnew; [now apply Hempty|].
  clear Hempty. rewrite <- Hnew.
  assert (startOfWeek (Workout.date first1) = startOfWeek (Workout.date first)) as Hweek.
  { destruct (new_rows_slots planId userId weekNumber days db first rest Hold HD' first1)
      as (s & k & l & i & Hs & ->).
    { unfold once in Hnew. rewrite Hnew. now left. }
    cbn [stored moved Workout.date].
    apply getDay_dayOffset. apply (dayNumbers_range days).
    apply (slot_days planId userId weekNumber days db s HD' Hs). }
  unfold twice.
  rewrite (week_after_reschedule planId userId weekNumber days once first1 rest1 Hnew HD').
  rewrite Hweek.
  rewrite (plan_of_copies planId userId weekNumber (startOfWeek (Workout.date first))
             (dayNumbersOf days)
             (filter (inWeek planId userId weekNumber) (workouts db))
             (filter (inWeek planId userId weekNumber) (workouts once))).
  - unfold once.
    rewrite (week_after_reschedule planId userId weekNumber days db first rest Hold HD').
    apply storedFrom_relinked.
  - apply (long_rows_linked planId userId weekNumber days db first rest Hold HD').
  - apply (key_rows_linked planId userId weekNumber days db first rest Hold HD').
  - apply (easy_rows_linked planId userId weekNumber days db first rest Hold HD').
Qed.

(** ** Generator and rescheduler together *)

Lemma nth_error_0_hd {A : Type} (l : list A) : nth_error l 0 = hd_error l.
Proof. now destruct l. Qed.

(** On the days of the generator the rescheduler reserves the same day
    for the key workout. *)
Lemma keyDayOf_generated (dayNumbers : list Z) :
  keyDayOf dayNumbers [longRunDayOf dayNumbers] = keyWorkoutDayOf dayNumbers.
Proof.
  unfold keyDayOf, keyWorkoutDayOf. cbv zeta.
  change (nth_error [longRunDayOf dayNumbers] 0) with (Some (longRunDayOf dayNumbers)).
  rewrite filter_filter.
  rewrite (filter_ext
             (fun d => negb (includes [longRunDayOf dayNumbers] d)
                       && notAdjacent (Some (longRunDayOf dayNumbers)) d)
             (fun d => negb (d =? longRunDayOf dayNumbers)
                       && (1 <? Z.abs (d - longRunDayOf dayNumbers))
                       && negb (Z.abs (d - longRunDayOf dayNumbers) =? 6))).
  2:{ intros d. unfold includes. cbn [existsb notAdjacent].
      now rewrite orb_false_r, andb_assoc. }
  destruct (0 <? len _); [reflexivity|].
  rewrite nth_error_0_hd, find_filter. f_equal.
  apply filter_ext. intros d. unfold includes. cbn [existsb].
  now rewrite orb_false_r.
Qed.

Section RescheduleGenerated.
Variables planId userId weekNumber : Z.
Variable weekStart : Date.
Variable availableDays : list string.
Variable weeklyVolume : Q.
Variable experienceLevel : string.
Variables maxWeekdayTime maxWeekendTime : Q.
Hypothesis not_beginner : experienceLevel <> "beginner".

Local Abbreviation generated :=
  (weekPlan planId userId weekNumber weekStart availableDays weeklyVolume
     experienceLevel maxWeekdayTime maxWeekendTime).
Local Abbreviation mv := (moved planId userId weekNumber weekStart).
Local Abbreviation easyAt dur :=
  (fun day => laidOut planId userId weekNumber weekStart easyTemplate "easy" day
                (dur day) 0 0).

Lemma easy_rows_back (dur : Z -> Q) (easyDays : list Z) : forall rows,
  Forall2 linked (map (easyAt dur) easyDays) rows ->
  filter isEasyRow rows = rows
  /\ find isKeyRow rows = None
  /\ map (mv 0 0) (combine rows easyDays) = map (easyAt dur) easyDays.
Proof.
  induction easyDays as [|d easyDays IH]; intros rows H; cbn [map] in H.
  - inversion H; subst. repeat split.
  - inversion H as [|v r l1 l2 (i & Hr) Hrest]; subst.
    destruct (IH _ Hrest) as (Hf & Hk & Hm).
    cbn [filter find combine map].
    change (isEasyRow (stored i (laidOut _ _ _ _ _ _ _ _ 0 0))) with true.
    change (isKeyRow (stored i (laidOut _ _ _ _ _ _ _ _ 0 0))) with false.
    cbv iota. rewrite Hf, Hk, Hm. repeat split.
Qed.

Lemma reschedule_of_generated (old : list Workout.t) :
  Forall2 linked generated old ->
  reschedulePlan planId userId weekNumber weekStart old (dayNumbersOf availableDays)
  = generated.
Proof.
  apply String.eqb_neq in not_beginner.
  unfold weekPlan.
  destruct (dayNumbersOf availableDays) as [|d0 ds] eqn:HD.
  { intros H. inversion H; subst. reflexivity. }
  cbv zeta. rewrite not_beginner. cbn [negb].
  set (dayNumbers := d0 :: ds).
  assert (dayNumbers <> []) as Hne by discriminate.
  pose proof (longRunDayOf_In dayNumbers Hne) as Hlin.
  set (longDay := longRunDayOf dayNumbers) in *.
  intros H.
  inversion H as [|v long' l1 others (i & Hr) Hothers]; subst.
  apply Forall2_app_inv_l in Hothers.
  destruct Hothers as (key' & easy' & Hkey & Heasy & ->).
  unfold reschedulePlan, easySlots, remainingDaysOf, keySlot, longSlot.
  cbn [find].
  change (isLongRunRow (stored i (laidOut _ _ _ _ _ _ _ _ 1 1))) with true.
  change (isKeyRow (stored i (laidOut _ _ _ _ _ _ _ _ 1 1))) with false.
  cbv iota. cbn [map snd fst app]. fold longDay.
  unfold longDay at 2. rewrite keyDayOf_generated. fold longDay.
  cbn [filter].
  change (isEasyRow (stored i (laidOut _ _ _ _ _ _ _ _ 1 1))) with false.
  cbv iota.
  unfold moved at 1. cbn [fst snd]. unfold laidOut at 2, stored at 1.
  cbn [Workout.workout_type Workout.title Workout.description
       Workout.duration_minutes Workout.intensity Workout.tired_alternative].
  unfold laidOut at 1. f_equal.
  destruct (keyWorkoutDayOf dayNumbers) as [kd|] eqn:Ek; cbn [fst snd] in *.
  - destruct (keyWorkoutDayOf_spec _ _ Ek) as [Hkin Hkne].
    fold longDay in Hkne.
    assert (1 < len dayNumbers) as Hlen
      by (apply (two_distinct_length _ kd longDay); auto).
    apply Z.ltb_lt in Hlen. rewrite Hlen.
    inversion Hkey as [|v key1 l1 l2 (j & Hr) Hnil]; subst.
    inversion Hnil; subst.
    destruct (easy_rows_back _ _ _ Heasy) as (Hf & Hk & Hm).
    cbn [app find filter].
    change (isKeyRow (stored j (laidOut _ _ _ _ _ _ _ _ 1 0))) with true.
    change (isEasyRow (stored j (laidOut _ _ _ _ _ _ _ _ 1 0))) with false.
    cbv iota. cbn [map snd fst app]. rewrite Hf. f_equal.
    rewrite (filter_ext (fun d => negb (includes [longDay; kd] d))
               (fun d => negb (d =? longDay) && differs d (Some kd))).
    2:{ intros d. unfold includes. cbn [existsb differs].
        now rewrite orb_false_r, negb_orb. }
    exact Hm.
  - inversion Hkey; subst. cbn [app].
    destruct (easy_rows_back _ _ _ Heasy) as (Hf & Hk & Hm).
    rewrite Hk, Hf. cbn [map app].
    rewrite (filter_ext (fun d => negb (includes [longDay] d))
               (fun d => negb (d =? longDay) && differs d None)).
    2:{ intros d. unfold includes. cbn [existsb differs].
        now rewrite orb_false_r, andb_true_r. }
    exact Hm.
Qed.
End RescheduleGenerated.

Lemma relinked (vs : list Workout.t) : forall (rows : list Workout.t) (k : Z),
  Forall2 linked vs rows -> Forall2 linked rows (storedFrom k vs).
Proof.
  induction vs as [|v vs IH]; intros rows k H; inversion H as [|? r ? ? (i & Hr) Hrest];
    subst; cbn [storedFrom]; constructor.
  - eexists. reflexivity.
  - now apply IH.
Qed.

Lemma generated_week_rows (now : Date) (goal : Goal.t) (db db' : DB) (week : Z) :
  (forall w, In w (workouts db) -> Workout.plan_id w <= seq_training_plans db) ->
  1 <= week <= totalWeeksOf now goal ->
  generateTrainingPlan now goal db = Some (seq_training_plans db + 1, db') ->
  Forall2 linked (planWeek now goal (seq_training_plans db + 1) week)
    (filter (inWeek (seq_training_plans db + 1) (Goal.user_id goal) week) (workouts db')).
Proof.
  intros Hfresh Hw Hgen.
  destruct (generateTrainingPlan_rows now goal db) as (db0 & Hgen0 & Hrows).
  cbv zeta in Hgen0, Hrows. rewrite Hgen in Hgen0. inversion Hgen0; subst db0.
  rewrite Hrows, filter_app.
  rewrite (filter_none _ (workouts db)).
  2:{ intros w Hin. apply Hfresh in Hin. unfold inWeek.
      destruct (Z.eqb_spec (Workout.plan_id w) (seq_training_plans db + 1)); [lia|].
      reflexivity. }
  cbn [app].
  rewrite (filter_ext_in (inWeek (seq_training_plans db + 1) (Goal.user_id goal) week)
             (fun r => Workout.week_number r =? week)).
  - now apply plan_week_rows.
  - intros r Hr. apply storedFrom_In in Hr. destruct Hr as (v & i & Hv & ->).
    apply planWeek_weeks in Hv. destruct Hv as (wk & _ & Hv).
    unfold planWeek in Hv.
    destruct (weekPlan_week_number _ _ _ _ _ _ _ _ _ _ Hv) as (_ & Hpid).
    apply weekPlan_row_shape in Hv.
    destruct Hv as (day & dur & _ & _ & Hv).
    unfold inWeek, stored. cbn [Workout.plan_id Workout.user_id Workout.week_number].
    rewrite Hpid, Z.eqb_refl.
    assert (Workout.user_id v = Goal.user_id goal) as ->
      by (destruct Hv as [->|[[-> _]| ->]]; reflexivity).
    now rewrite Z.eqb_refl.
Qed.

(** X27. Generator and rescheduler agree: for a goal above beginner
    level, rescheduling any week of a freshly generated plan onto the
    goal's own available days re-creates the week exactly as it was
    generated (same workouts on the same dates, in the same order, under
    new row ids) and leaves the rest of the table alone. The store is
    assumed to hold no workout of a plan id beyond the plan counter, the
    goal to be of ordinary size, and its race distance, level and day
    names not to be names every JavaScript object inherits. *)
Theorem reschedule_generated_week (now : Date) (goal : Goal.t) (db : DB) (week : Z) :
  ownNames goal ->
  ordinarySize now goal ->
  Goal.experience_level goal <> "beginner" ->
  (forall w, In w (workouts db) -> Workout.plan_id w <= seq_training_plans db) ->
  1 <= week <= totalWeeksOf now goal ->
  exists planId db',
    generateTrainingPlan now goal db = Some (planId, db')
    /\ let again := rescheduleWeek planId (Goal.user_id goal) week
                      (Goal.available_days goal) db' in
       Forall2 (fun a b => exists rowid, b = stored rowid a)
         (filter (inWeek planId (Goal.user_id goal) week) (workouts db'))
         (filter (inWeek planId (Goal.user_id goal) week) (workouts again))
       /\ filter (fun w => negb (inWeek planId (Goal.user_id goal) week w))
            (workouts again)
          = filter (fun w => negb (inWeek planId (Goal.user_id goal) week w))
              (workouts db').
Proof.
  intros _ _.
  intros Hlevel Hfresh Hw.
  destruct (generateTrainingPlan_rows now goal db) as (db' & Hgen & _).
  cbv zeta in Hgen.
  exists (seq_training_plans db + 1), db'. split; [exact Hgen|].
  intros again. split.
  2:{ unfold again. rewrite (reschedule_table _ _ _ _ db'), filter_app, filter_idem.
      rewrite (filter_none _ (filter _ (workouts (rescheduleWeek _ _ _ _ db')))).
      - apply app_nil_r.
      - intros w Hin. apply filter_In in Hin. destruct Hin as [_ Hin]. now rewrite Hin. }
  pose proof (generated_week_rows now goal db db' week Hfresh Hw Hgen) as Hlinked.
  destruct (filter (inWeek (seq_training_plans db + 1) (Goal.user_id goal) week)
              (workouts db')) as [|first rest] eqn:Hold.
  { unfold again. rewrite (reschedule_empty_week _ _ _ _ _ Hold), Hold. constructor. }
  assert (dayNumbersOf (Goal.available_days goal) <> []) as HD.
  { intros E. unfold planWeek, weekPlan in Hlinked. rewrite E in Hlinked.
    inversion Hlinked. }
  assert (startOfWeek (Workout.date first) = addWeeks (startOfWeek now) (week - 1))
    as Hweek.
  { pose proof (dayNumbers_range (Goal.available_days goal) _ (longRunDayOf_In _ HD))
      as Hrange.
    unfold planWeek, weekPlan in Hlinked.
    destruct (dayNumbersOf (Goal.available_days goal)) as [|d0 ds]; [congruence|].
    cbv zeta in Hlinked.
    inversion Hlinked as [|v r l1 l2 (i & Hr) Hrest]; subst.
    cbn [stored laidOut Workout.date].
    rewrite (weekStart_aligned now (week - 1)) at 1.
    rewrite (proj2 (getDay_dayOffset _ _ Hrange)).
    symmetry. apply weekStart_aligned. }
  unfold again.
  rewrite (week_after_reschedule _ _ _ _ db' first rest Hold HD).
  rewrite Hold, Hweek.
  rewrite (reschedule_of_generated _ _ _ _ _ _ _ _ _ Hlevel (first :: rest) Hlinked).
  apply relinked. exact Hlinked.
Qed.

Lemma reschedule_generated_week_witness :
  exists planId db',
    generateTrainingPlan 2 sample_goal empty_store = Some (planId, db')
    /\ Forall2 (fun a b => exists rowid, b = stored rowid a)
         (filter (inWeek planId (Goal.user_id sample_goal) 1) (workouts db'))
         (filter (inWeek planId (Goal.user_id sample_goal) 1)
            (workouts (rescheduleWeek planId (Goal.user_id sample_goal) 1
                         (Goal.available_days sample_goal) db')))
       /\ filter (fun w => negb (inWeek planId (Goal.user_id sample_goal) 1 w))
            (workouts (rescheduleWeek planId (Goal.user_id sample_goal) 1
                         (Goal.available_days sample_goal) db'))
          = filter (fun w => negb (inWeek planId (Goal.user_id sample_goal) 1 w))
              (workouts db').
Proof.
  apply (reschedule_generated_week 2 sample_goal empty_store 1).
  - repeat split; reflexivity.
  - repeat split; vm_compute; discriminate.
  - discriminate.
  - intros w [].
  - vm_compute. split; discriminate.
Defined.
